(** * Quantizable ResNet (torchvision/models/quantization/resnet.py)

    A shallow embedding of the quantizable ResNet family: the module tree
    and the [fuse_model] passes of the block adapters and of the network
    wrapper, the forward passes of the two block adapters, the quantized
    weights registries and the factory functions.

    Conventions.
    - A network is a tree of named sub-modules, as [nn.Module] keeps them
      (an ordered name -> module table per module).  A module is identified
      by its path from the root, which stands for the identity of the Python
      object; in-place mutation is a functional update at that path.
    - Calls into the framework that the source only delegates to are kept
      observable through a log of events, so that what the source submits,
      and in which order, can be stated.
    - Code that the source imports but that is not part of this file is
      either a field of a class of external collaborators or a definition
      whose comment starts with "Modelled from the spec". *)

From Stdlib Require Import ZArith String List Bool Lia.
From stdpp Require Import gmap strings list fin_maps.
Import ListNotations.

#[local] Set Warnings "-register-all".

Local Open Scope string_scope.
Local Open Scope list_scope.

(* ===================================================================== *)
(** * 1. Module trees                                                     *)
(* ===================================================================== *)

(** Which sub-layers a fused unit stands for. *)
Inductive FusedKind := ConvBn | ConvBnReLU | ConvReLU.

(** Classes of modules without sub-modules.  [FusedUnit] is the single
    operator that replaces a fused group; it remembers the strategy flag
    ([is_qat]) it was produced with. *)
Inductive LeafClass :=
| Conv2d
| BatchNorm2d
| ReLU (inplace : bool)
| Identity
| FusedUnit (is_qat : option bool) (kind : FusedKind)
| MaxPool2d
| AdaptiveAvgPool2d
| Linear
| QuantStub
| DeQuantStub
| FloatFunctional.

(** Classes of modules that hold sub-modules.  [TSubclass name base] is a
    class declared as a strict subclass of [base]; it is a different type
    from [base] ([type(m) is base] is false for its instances). *)
Inductive ContainerClass :=
| TSequential
| TQuantizableBasicBlock
| TQuantizableBottleneck
| TQuantizableResNet
| TSubclass (name : string) (base : ContainerClass).

Inductive Module :=
| Leaf (k : LeafClass)
| Container (c : ContainerClass) (children : list (string * Module)).

Definition path := list string.

(** [getattr(m, name)] restricted to registered sub-modules; an attribute
    that is [None] in Python is an absent entry here. *)
Fixpoint lookup_child (name : string) (children : list (string * Module)) : option Module :=
  match children with
  | [] => None
  | (n, x) :: rest => if String.eqb n name then Some x else lookup_child name rest
  end.

(** [setattr(m, name, x)] on a name that is registered. *)
Fixpoint replace_child (name : string) (x : Module) (children : list (string * Module))
  : list (string * Module) :=
  match children with
  | [] => []
  | (n, y) :: rest =>
      if String.eqb n name then (n, x) :: rest else (n, y) :: replace_child name x rest
  end.

Definition get_submodule (m : Module) (name : string) : option Module :=
  match m with
  | Leaf _ => None
  | Container _ children => lookup_child name children
  end.

Definition set_submodule (m : Module) (name : string) (x : Module) : Module :=
  match m with
  | Leaf k => Leaf k
  | Container c children => Container c (replace_child name x children)
  end.

(** Does the class define [__len__]?  [nn.Sequential] does, and so do its
    subclasses. *)
Fixpoint has_len (c : ContainerClass) : bool :=
  match c with
  | TSequential => true
  | TSubclass _ base => has_len base
  | _ => false
  end.

(** Python truth value of a module object ([if self.downsample:]): an object
    whose class defines [__len__] is true iff it is not empty; any other
    module is true. *)
Definition py_truthy_module (m : Module) : bool :=
  match m with
  | Leaf _ => true
  | Container c children =>
      if has_len c then negb (Nat.eqb (List.length children) 0) else true
  end.

(** [type(m) is QuantizableBottleneck or type(m) is QuantizableBasicBlock] *)
Definition is_exact_block (m : Module) : bool :=
  match m with
  | Container TQuantizableBottleneck _ => true
  | Container TQuantizableBasicBlock _ => true
  | _ => false
  end.

(** [isinstance(m, QuantizableBottleneck) or isinstance(m, QuantizableBasicBlock)],
    the looser test that the source does not use. *)
Fixpoint derives_from_block (c : ContainerClass) : bool :=
  match c with
  | TQuantizableBottleneck | TQuantizableBasicBlock => true
  | TSubclass _ base => derives_from_block base
  | _ => false
  end.

Definition isinstance_block (m : Module) : bool :=
  match m with
  | Leaf _ => false
  | Container c _ => derives_from_block c
  end.

Definition list_max_nat (l : list nat) : nat := fold_right Nat.max 0 l.

Fixpoint height (m : Module) : nat :=
  match m with
  | Leaf _ => 0
  | Container _ children => S (list_max_nat (map (fun nx => height (snd nx)) children))
  end.

(** [self.modules()] with the path of every module: the module itself, then
    its sub-modules in registration order, depth first. *)
Fixpoint named_modules (p : path) (m : Module) : list (path * Module) :=
  (p, m) ::
  match m with
  | Leaf _ => []
  | Container _ children =>
      (fix go (l : list (string * Module)) : list (path * Module) :=
         match l with
         | [] => []
         | (n, x) :: rest => named_modules (p ++ [n]) x ++ go rest
         end) children
  end.

(** Number of fused units in a network. *)
Definition is_fused_unit (m : Module) : bool :=
  match m with
  | Leaf (FusedUnit _ _) => true
  | _ => false
  end.

Definition fused_unit_count (m : Module) : nat :=
  List.length (List.filter (fun pm => is_fused_unit (snd pm)) (named_modules [] m)).

(* ===================================================================== *)
(** * 2. The fuse primitive                                               *)
(* ===================================================================== *)

(** The second argument of [_fuse_modules]: one group of names, or a list of
    groups ([Union[List[str], List[List[str]]]]). *)
Inductive ModulesToFuse :=
| OneGroup (names : list string)
| Groups (groups : list (list string)).

Definition groups_of (mtf : ModulesToFuse) : list (list string) :=
  match mtf with
  | OneGroup names => [names]
  | Groups groups => groups
  end.

(** The sequences the docstring of [QuantizableResNet.fuse_model] names as
    fusable: conv+bn+relu, conv+relu, conv+bn. *)
Definition fuser_method (classes : list LeafClass) : option FusedKind :=
  match classes with
  | [Conv2d; BatchNorm2d] => Some ConvBn
  | [Conv2d; BatchNorm2d; ReLU _] => Some ConvBnReLU
  | [Conv2d; ReLU _] => Some ConvReLU
  | _ => None
  end.

Fixpoint leaf_classes (m : Module) (names : list string) : option (list LeafClass) :=
  match names with
  | [] => Some []
  | n :: rest =>
      match get_submodule m n, leaf_classes m rest with
      | Some (Leaf k), Some ks => Some (k :: ks)
      | _, _ => None
      end
  end.

Definition fusable (m : Module) (names : list string) : option FusedKind :=
  match leaf_classes m names with
  | Some ks => fuser_method ks
  | None => None
  end.

(** Modelled from the spec: the fuse-modules operation ([_fuse_modules] of
    torchvision/models/quantization/utils.py and the framework pass behind
    it) is not under src/.  The spec gives it the contract "fused or
    unchanged if not fusable", taking (container, named sub-layer groups,
    qat-flag): a fusable group is collapsed into a single fused unit held
    under the first name, the other names of the group become identities;
    a group that is not fusable leaves the container as it is. *)
Definition fuse_group (is_qat : option bool) (m : Module) (names : list string) : Module :=
  match names, fusable m names with
  | n0 :: rest, Some kind =>
      fold_left (fun acc n => set_submodule acc n (Leaf Identity)) rest
                (set_submodule m n0 (Leaf (FusedUnit is_qat kind)))
  | _, _ => m
  end.

Definition _fuse_modules (model : Module) (modules_to_fuse : ModulesToFuse)
           (is_qat : option bool) : Module :=
  fold_left (fuse_group is_qat) (groups_of modules_to_fuse) model.

(** What the fusion code does that an observer can see. *)
Inductive FuseEvent :=
| FuseModulesCall (target : path) (modules_to_fuse : ModulesToFuse)
                  (is_qat : option bool) (inplace : bool)
| BlockFuseModelCall (target : path) (is_qat : option bool).

(** A computation that logs fuse events. *)
Definition Fuse (A : Type) : Type := (A * list FuseEvent)%type.

Definition fuse_ret {A} (a : A) : Fuse A := (a, []).

Definition fuse_bind {A B} (m : Fuse A) (f : A -> Fuse B) : Fuse B :=
  let '(b, l2) := f (fst m) in (b, snd m ++ l2).

Arguments fuse_bind : simpl never.

Declare Scope fuse_scope.
Delimit Scope fuse_scope with fuse.
Notation "'let*' x ':=' m 'in' k" := (fuse_bind m (fun x => k))
  (at level 10, x name, m at level 100, k at level 200) : fuse_scope.

(** [_fuse_modules(target, modules_to_fuse, is_qat, inplace=True)] on the
    module found at [target_path]. *)
Definition fuse_modules_inplace (target_path : path) (target : Module)
           (modules_to_fuse : ModulesToFuse) (is_qat : option bool) : Fuse Module :=
  (_fuse_modules target modules_to_fuse is_qat,
   [FuseModulesCall target_path modules_to_fuse is_qat true]).

(* ===================================================================== *)
(** * 3. fuse_model                                                       *)
(* ===================================================================== *)

(** The tail shared by the two block adapters:
<<
        if self.downsample:
            _fuse_modules(self.downsample, ["0", "1"], is_qat, inplace=True)
>> *)
Definition fuse_downsample (self_path : path) (self : Module) (is_qat : option bool)
  : Fuse Module :=
  match get_submodule self "downsample" with
  | Some downsample =>
      if py_truthy_module downsample then
        (let* d := fuse_modules_inplace (self_path ++ ["downsample"]) downsample
                                        (OneGroup ["0"; "1"]) is_qat in
         fuse_ret (set_submodule self "downsample" d))%fuse
      else fuse_ret self
  | None => fuse_ret self
  end.

(** [QuantizableBasicBlock.fuse_model] *)
Definition QuantizableBasicBlock_fuse_model (self_path : path) (self : Module)
           (is_qat : option bool) : Fuse Module :=
  (let* self1 := fuse_modules_inplace self_path self
                    (Groups [["conv1"; "bn1"; "relu"]; ["conv2"; "bn2"]]) is_qat in
   fuse_downsample self_path self1 is_qat)%fuse.

(** [QuantizableBottleneck.fuse_model] *)
Definition QuantizableBottleneck_fuse_model (self_path : path) (self : Module)
           (is_qat : option bool) : Fuse Module :=
  (let* self1 := fuse_modules_inplace self_path self
                    (Groups [["conv1"; "bn1"; "relu1"]; ["conv2"; "bn2"; "relu2"];
                             ["conv3"; "bn3"]]) is_qat in
   fuse_downsample self_path self1 is_qat)%fuse.

(** The body of the loop of [QuantizableResNet.fuse_model]:
<<
            if type(m) is QuantizableBottleneck or type(m) is QuantizableBasicBlock:
                m.fuse_model(is_qat)
>>
    The call is dispatched on the exact type of [m]. *)
Definition fuse_if_block (p : path) (m : Module) (is_qat : option bool) : Fuse Module :=
  match m with
  | Container TQuantizableBottleneck _ =>
      let r := QuantizableBottleneck_fuse_model p m is_qat in
      (fst r, BlockFuseModelCall p is_qat :: snd r)
  | Container TQuantizableBasicBlock _ =>
      let r := QuantizableBasicBlock_fuse_model p m is_qat in
      (fst r, BlockFuseModelCall p is_qat :: snd r)
  | _ => fuse_ret m
  end.

(** Visit the sub-modules of a module in registration order. *)
Fixpoint walk_children (visit : path -> Module -> Fuse Module) (p : path)
         (children : list (string * Module)) : Fuse (list (string * Module)) :=
  match children with
  | [] => fuse_ret []
  | (n, x) :: rest =>
      (let* x' := visit (p ++ [n]) x in
       let* rest' := walk_children visit p rest in
       fuse_ret ((n, x') :: rest'))%fuse
  end.

(** [for m in self.modules(): ...] is a lazy depth-first traversal: a
    module is handed to the loop body before its sub-modules are
    enumerated, so the sub-modules visited are those the module has after
    the body ran on it.  [depth] bounds the depth of the traversal; the
    network wrapper passes the height of the tree. *)
Fixpoint fuse_walk (depth : nat) (p : path) (m : Module) (is_qat : option bool)
  : Fuse Module :=
  (let* m1 := fuse_if_block p m is_qat in
   match depth, m1 with
   | S d, Container c children =>
       let* children' := walk_children (fun q x => fuse_walk d q x is_qat) p children in
       fuse_ret (Container c children')
   | _, _ => fuse_ret m1
   end)%fuse.

(** [QuantizableResNet.fuse_model] *)
Definition QuantizableResNet_fuse_model (self : Module) (is_qat : option bool)
  : Fuse Module :=
  (let* self1 := fuse_modules_inplace [] self (OneGroup ["conv1"; "bn1"; "relu"]) is_qat in
   fuse_walk (height self1) [] self1 is_qat)%fuse.

(** ** What an observer expects from the traversal *)

(** The shape of a network: the tree with the classes of the leaves erased.
    Fusion changes leaves only, so everything that depends on the shape
    alone (which modules exist, their types, their truth values) is the
    same before and after a fusion. *)
Fixpoint shape (m : Module) : Module :=
  match m with
  | Leaf _ => Leaf Identity
  | Container c children => Container c (map (fun nx => (fst nx, shape (snd nx))) children)
  end.

(** Leaves that fusion produces. *)
Definition result_leaf (k : LeafClass) : bool :=
  match k with
  | Identity | FusedUnit _ _ => true
  | _ => false
  end.

(** [if self.downsample:] *)
Definition downsample_truthy (self : Module) : bool :=
  match get_submodule self "downsample" with
  | Some downsample => py_truthy_module downsample
  | None => false
  end.

Definition basic_block_groups : ModulesToFuse :=
  Groups [["conv1"; "bn1"; "relu"]; ["conv2"; "bn2"]].

Definition bottleneck_groups : ModulesToFuse :=
  Groups [["conv1"; "bn1"; "relu1"]; ["conv2"; "bn2"; "relu2"]; ["conv3"; "bn3"]].

Definition downsample_events (p : path) (self : Module) (is_qat : option bool)
  : list FuseEvent :=
  if downsample_truthy self
  then [FuseModulesCall (p ++ ["downsample"]) (OneGroup ["0"; "1"]) is_qat true]
  else [].

(** The events one visited module contributes to the log of the network
    wrapper's [fuse_model]. *)
Definition block_events (is_qat : option bool) (pm : path * Module) : list FuseEvent :=
  match snd pm with
  | Container TQuantizableBottleneck _ =>
      BlockFuseModelCall (fst pm) is_qat
      :: FuseModulesCall (fst pm) bottleneck_groups is_qat true
      :: downsample_events (fst pm) (snd pm) is_qat
  | Container TQuantizableBasicBlock _ =>
      BlockFuseModelCall (fst pm) is_qat
      :: FuseModulesCall (fst pm) basic_block_groups is_qat true
      :: downsample_events (fst pm) (snd pm) is_qat
  | _ => []
  end.


(** [m'] has no leaf that could take part in a fusion and that [m] does not
    have under the same name. *)
Definition leafsig_le (m m' : Module) : Prop :=
  forall n k, get_submodule m' n = Some (Leaf k) -> result_leaf k = false ->
              get_submodule m n = Some (Leaf k).

(** A block on which its own [fuse_model] has nothing left to fuse. *)
Definition settled_downsample (self : Module) : Prop :=
  forall d, get_submodule self "downsample" = Some d ->
            py_truthy_module d = true -> fusable d ["0"; "1"] = None.

Definition settled_block (m : Module) : Prop :=
  match m with
  | Container TQuantizableBottleneck _ =>
      Forall (fun g => fusable m g = None) (groups_of bottleneck_groups)
      /\ settled_downsample m
  | Container TQuantizableBasicBlock _ =>
      Forall (fun g => fusable m g = None) (groups_of basic_block_groups)
      /\ settled_downsample m
  | _ => True
  end.

(** The result of submitting [mtf] on [m] and then fusing the downsample
    path: the common form of the two block adapters. *)
Definition block_result (mtf : ModulesToFuse) (p : path) (m : Module) (q : option bool)
  : Module :=
  fst (fuse_downsample p (_fuse_modules m mtf q) q).

(** Induction on module trees, with the hypothesis for every sub-module. *)
Fixpoint Module_tree_ind (P : Module -> Prop)
         (Hleaf : forall k, P (Leaf k))
         (Hcont : forall c children,
             Forall (fun nx => P (snd nx)) children -> P (Container c children))
         (m : Module) : P m :=
  match m with
  | Leaf k => Hleaf k
  | Container c children =>
      Hcont c children
            ((fix go (l : list (string * Module)) : Forall (fun nx => P (snd nx)) l :=
                match l with
                | [] => List.Forall_nil _
                | nx :: rest =>
                    List.Forall_cons _ nx rest (Module_tree_ind P Hleaf Hcont (snd nx)) (go rest)
                end) children)
  end.


(* ===================================================================== *)
(** * 4. Forward passes of the block adapters                             *)
(* ===================================================================== *)

(** Tensors and the two framework operators the residual step is made of.
    Tensor arithmetic belongs to the framework; the blocks only compose
    it. *)
Class TensorOps := {
  Tensor : Type;
  torch_add : Tensor -> Tensor -> Tensor;
  torch_relu : Tensor -> Tensor;
}.

Section Forward.
Context {ops : TensorOps}.

(** A sub-layer, seen as the function it computes. *)
Definition Layer : Type := Tensor -> Tensor.

(** [nn.ReLU(inplace=False)] *)
Definition nn_ReLU : Layer := torch_relu.

(** Modelled from the spec: the fusable add-then-activate operator
    ([FloatFunctional.add_relu], framework code not under src/): the
    residual addition followed by the activation, as one operator. *)
Definition FloatFunctional_add_relu (x y : Tensor) : Tensor :=
  torch_relu (torch_add x y).

(** The attributes of the floating-point narrow block that [forward]
    reads. *)
Record BasicBlock := {
  bb_conv1 : Layer;
  bb_bn1 : Layer;
  bb_relu : Layer;
  bb_conv2 : Layer;
  bb_bn2 : Layer;
  bb_downsample : option Layer;
}.

(** [QuantizableBasicBlock]: the base block plus [add_relu]. *)
Record QuantizableBasicBlock := {
  qbb_super : BasicBlock;
  qbb_add_relu : Tensor -> Tensor -> Tensor;
}.

(** [QuantizableBasicBlock.__init__] *)
Definition QuantizableBasicBlock_init (super : BasicBlock) : QuantizableBasicBlock :=
  {| qbb_super := super; qbb_add_relu := FloatFunctional_add_relu |}.

(** [QuantizableBasicBlock.forward] *)
Definition QuantizableBasicBlock_forward (self : QuantizableBasicBlock) (x : Tensor)
  : Tensor :=
  let identity := x in
  let out := bb_conv1 (qbb_super self) x in
  let out := bb_bn1 (qbb_super self) out in
  let out := bb_relu (qbb_super self) out in
  let out := bb_conv2 (qbb_super self) out in
  let out := bb_bn2 (qbb_super self) out in
  let identity :=
    match bb_downsample (qbb_super self) with
    | Some downsample => downsample x
    | None => identity
    end in
  let out := qbb_add_relu self out identity in
  out.

(** Modelled from the spec: the forward pass of the floating-point narrow
    block ([BasicBlock.forward] of torchvision/models/resnet.py, not
    under src/): two convolution+normalization stages, a residual
    (identity or downsampled) addition, then, as separate steps, the
    addition and the activation. *)
Definition BasicBlock_forward (self : BasicBlock) (x : Tensor) : Tensor :=
  let identity := x in
  let out := bb_conv1 self x in
  let out := bb_bn1 self out in
  let out := bb_relu self out in
  let out := bb_conv2 self out in
  let out := bb_bn2 self out in
  let identity :=
    match bb_downsample self with
    | Some downsample => downsample x
    | None => identity
    end in
  let out := torch_add out identity in
  let out := bb_relu self out in
  out.

(** The attributes of the floating-point bottleneck block. *)
Record Bottleneck := {
  bn_conv1 : Layer;
  bn_bn1 : Layer;
  bn_conv2 : Layer;
  bn_bn2 : Layer;
  bn_conv3 : Layer;
  bn_bn3 : Layer;
  bn_relu : Layer;
  bn_downsample : option Layer;
}.

(** [QuantizableBottleneck]: the base block plus [skip_add_relu], [relu1]
    and [relu2]. *)
Record QuantizableBottleneck := {
  qbn_super : Bottleneck;
  qbn_skip_add_relu : Tensor -> Tensor -> Tensor;
  qbn_relu1 : Layer;
  qbn_relu2 : Layer;
}.

(** [QuantizableBottleneck.__init__] *)
Definition QuantizableBottleneck_init (super : Bottleneck) : QuantizableBottleneck :=
  {| qbn_super := super;
     qbn_skip_add_relu := FloatFunctional_add_relu;
     qbn_relu1 := nn_ReLU;
     qbn_relu2 := nn_ReLU |}.

(** [QuantizableBottleneck.forward] *)
Definition QuantizableBottleneck_forward (self : QuantizableBottleneck) (x : Tensor)
  : Tensor :=
  let identity := x in
  let out := bn_conv1 (qbn_super self) x in
  let out := bn_bn1 (qbn_super self) out in
  let out := qbn_relu1 self out in
  let out := bn_conv2 (qbn_super self) out in
  let out := bn_bn2 (qbn_super self) out in
  let out := qbn_relu2 self out in
  let out := bn_conv3 (qbn_super self) out in
  let out := bn_bn3 (qbn_super self) out in
  let identity :=
    match bn_downsample (qbn_super self) with
    | Some downsample => downsample x
    | None => identity
    end in
  let out := qbn_skip_add_relu self out identity in
  out.

(** Modelled from the spec: the forward pass of the floating-point
    bottleneck block ([Bottleneck.forward] of torchvision/models/resnet.py,
    not under src/): three convolution+normalization stages, the first two
    followed by the block's activation, then the residual addition and the
    activation as separate steps. *)
Definition Bottleneck_forward (self : Bottleneck) (x : Tensor) : Tensor :=
  let identity := x in
  let out := bn_conv1 self x in
  let out := bn_bn1 self out in
  let out := bn_relu self out in
  let out := bn_conv2 self out in
  let out := bn_bn2 self out in
  let out := bn_relu self out in
  let out := bn_conv3 self out in
  let out := bn_bn3 self out in
  let identity :=
    match bn_downsample self with
    | Some downsample => downsample x
    | None => identity
    end in
  let out := torch_add out identity in
  let out := bn_relu self out in
  out.
End Forward.


(* ===================================================================== *)
(** * 5. Weights registries                                               *)
(* ===================================================================== *)

(** [partial(ImageClassification, crop_size=..., resize_size=...)];
    [resize_size] is [None] when the preset's own default is kept. *)
Record ImageClassification := {
  crop_size : Z;
  resize_size : option Z;
}.

(** Accuracy figures, in thousandths of a percent (69.494 is 69494). *)
Record Metrics := {
  acc_at_1 : Z;
  acc_at_5 : Z;
}.

(** The [meta] dictionary of a weights entry.  [backend] is [None] when the
    dictionary has no ["backend"] key; [unquantized] names a member of a
    floating-point registry as (registry, member). *)
Record Meta := {
  min_size : Z * Z;
  categories : list string;
  backend : option string;
  recipe : string;
  num_params : Z;
  unquantized : option (string * string);
  metrics : Metrics;
}.

Record Weights := {
  url : string;
  transforms : ImageClassification;
  meta : Meta;
}.

#[global] Instance ImageClassification_eq_dec : EqDecision ImageClassification.
Proof. solve_decision. Defined.
#[global] Instance Metrics_eq_dec : EqDecision Metrics.
Proof. solve_decision. Defined.
#[global] Instance Meta_eq_dec : EqDecision Meta.
Proof. solve_decision. Defined.
#[global] Instance Weights_eq_dec : EqDecision Weights.
Proof. solve_decision. Defined.

(** A [WeightsEnum] class: its name and the assignments of its body, in
    order.  An assignment whose value is already bound is an alias
    ([DEFAULT = IMAGENET1K_FBGEMM_V2]). *)
Record WeightsEnum := {
  enum_name : string;
  enum_table : list (string * Weights);
}.

(** A member of a [WeightsEnum]: the class it is an instance of, its
    canonical name and its value. *)
Record WeightsMember := {
  w_enum : string;
  w_name : string;
  w_value : Weights;
}.

Fixpoint table_lookup (name : string) (table : list (string * Weights)) : option Weights :=
  match table with
  | [] => None
  | (n, v) :: rest => if String.eqb n name then Some v else table_lookup name rest
  end.

(** The name under which a value was bound first. *)
Fixpoint canonical_name (v : Weights) (table : list (string * Weights)) : option string :=
  match table with
  | [] => None
  | (n, v') :: rest => if decide (v' = v) then Some n else canonical_name v rest
  end.

(** [cls.<name>] / [cls.__members__[name]] *)
Definition enum_member (cls : WeightsEnum) (name : string) : option WeightsMember :=
  match table_lookup name (enum_table cls) with
  | Some v =>
      match canonical_name v (enum_table cls) with
      | Some cn => Some {| w_enum := enum_name cls; w_name := cn; w_value := v |}
      | None => None
      end
  | None => None
  end.

(** [isinstance(obj, cls)] for an enum member. *)
Definition isinstance_enum (obj : WeightsMember) (cls : WeightsEnum) : bool :=
  String.eqb (w_enum obj) (enum_name cls).

(* ===================================================================== *)
(** * 6. Values, keyword arguments, outcomes                              *)
(* ===================================================================== *)

(** The Python values that reach the factories. *)
Inductive value :=
| VNone
| VBool (b : bool)
| VInt (z : Z)
| VStr (s : string)
| VWeights (w : WeightsMember)
| VOther (repr : string).

(** Truth value of a Python object. *)
Definition py_truthy (v : value) : bool :=
  match v with
  | VNone => false
  | VBool b => b
  | VInt z => negb (Z.eqb z 0)
  | VStr s => negb (String.eqb s "")
  | VWeights _ => true
  | VOther _ => true
  end.

(** [kwargs.get(key, default)] *)
Definition kwargs_get (kwargs : gmap string value) (key : string) (dflt : value) : value :=
  match kwargs !! key with
  | Some v => v
  | None => dflt
  end.

(** The failures of spec section 7, and the two Python errors the factories
    can meet on the way. *)
Inductive exn :=
| InvalidSelection
| StructuralMismatch
| DownloadFailure
| UnsupportedTarget
| UnexpectedKeyword
| AttributeError (name : string).

Inductive result (A : Type) :=
| Ok (a : A)
| Raise (e : exn).
Arguments Ok {A} a.
Arguments Raise {A} e.

(** What a factory call does that an observer can see, in order. *)
Inductive Event :=
| EvConstruct (block : ContainerClass) (layers : list Z) (kwargs : gmap string value)
| EvReplaceRelu
| EvFuseModel (log : list FuseEvent)
| EvQuantize (backend : value)
| EvGetStateDict (weights : WeightsMember) (progress : bool)
| EvLoadStateDict (weights : WeightsMember).

(** A factory computation: the events so far and the outcome. *)
Definition Run (A : Type) : Type := (list Event * result A)%type.

Definition run_ret {A} (a : A) : Run A := ([], Ok a).

Definition run_bind {A B} (m : Run A) (f : A -> Run B) : Run B :=
  match m with
  | (l, Ok a) => let '(l', r) := f a in (l ++ l', r)
  | (l, Raise e) => (l, Raise e)
  end.

Definition emit (e : Event) : Run unit := ([e], Ok tt).

Definition lift {A} (r : result A) : Run A := ([], r).

Declare Scope run_scope.
Delimit Scope run_scope with run.
Notation "'let*' x ':=' m 'in' k" := (run_bind m (fun x => k))
  (at level 10, x name, m at level 100, k at level 200) : run_scope.
Notation "m ';;' k" := (run_bind m (fun _ => k))
  (at level 100, k at level 200, right associativity) : run_scope.

(* ===================================================================== *)
(** * 7. What the file imports                                            *)
(* ===================================================================== *)

(** The collaborators the source imports and only calls: the label list,
    the floating-point registries of [torchvision.models.resnet] (the
    assignments of each class body), the constructor of the base network,
    the framework's quantization pipeline and the checkpoint download and
    loading. *)
Class Imports := {
  _IMAGENET_CATEGORIES : list string;
  ResNet18_Weights_table : list (string * Weights);
  ResNet50_Weights_table : list (string * Weights);
  ResNeXt101_32X8D_Weights_table : list (string * Weights);
  ResNeXt101_64X4D_Weights_table : list (string * Weights);
  (** [ResNet.__init__(block, layers, **kwargs)] on a fresh instance *)
  ResNet_init : ContainerClass -> list Z -> gmap string value -> result Module;
  (** prepare, calibrate and convert, for a backend identifier *)
  torch_quantize : Module -> value -> result Module;
  StateDict : Type;
  (** [weights.get_state_dict(progress=progress)] *)
  get_state_dict : WeightsMember -> bool -> result StateDict;
  (** [model.load_state_dict(state_dict)] *)
  load_state_dict : Module -> StateDict -> result Module;
}.

(** The architectures, to state what holds for every factory. *)
Inductive Architecture :=
| Resnet18 | Resnet50 | Resnext101_32x8d | Resnext101_64x4d.

#[global] Instance Architecture_eq_dec : EqDecision Architecture.
Proof. solve_decision. Defined.

Section Factories.
Context {imports : Imports}.

Definition ResNet18_Weights : WeightsEnum :=
  {| enum_name := "ResNet18_Weights"; enum_table := ResNet18_Weights_table |}.
Definition ResNet50_Weights : WeightsEnum :=
  {| enum_name := "ResNet50_Weights"; enum_table := ResNet50_Weights_table |}.
Definition ResNeXt101_32X8D_Weights : WeightsEnum :=
  {| enum_name := "ResNeXt101_32X8D_Weights";
     enum_table := ResNeXt101_32X8D_Weights_table |}.
Definition ResNeXt101_64X4D_Weights : WeightsEnum :=
  {| enum_name := "ResNeXt101_64X4D_Weights";
     enum_table := ResNeXt101_64X4D_Weights_table |}.

(** [_COMMON_META], with the keys every entry adds to it. *)
Definition _COMMON_META (recipe_override : option string) (num_params : Z)
           (unquantized : string * string) (metrics : Metrics) : Meta :=
  {| min_size := (1, 1)%Z;
     categories := _IMAGENET_CATEGORIES;
     backend := Some "fbgemm";
     recipe :=
       match recipe_override with
       | Some r => r
       | None => "https://github.com/pytorch/vision/tree/main/references/classification#post-training-quantized-models"
       end;
     num_params := num_params;
     unquantized := Some unquantized;
     metrics := metrics |}.

Definition ResNet18_IMAGENET1K_FBGEMM_V1 : Weights :=
  {| url := "https://download.pytorch.org/models/quantized/resnet18_fbgemm_16fa66dd.pth";
     transforms := {| crop_size := 224; resize_size := None |};
     meta := _COMMON_META None 11689512 ("ResNet18_Weights", "IMAGENET1K_V1")
                          {| acc_at_1 := 69494; acc_at_5 := 88882 |} |}.

Definition ResNet18_QuantizedWeights : WeightsEnum :=
  {| enum_name := "ResNet18_QuantizedWeights";
     enum_table := [("IMAGENET1K_FBGEMM_V1", ResNet18_IMAGENET1K_FBGEMM_V1);
                    ("DEFAULT", ResNet18_IMAGENET1K_FBGEMM_V1)] |}.

Definition ResNet50_IMAGENET1K_FBGEMM_V1 : Weights :=
  {| url := "https://download.pytorch.org/models/quantized/resnet50_fbgemm_bf931d71.pth";
     transforms := {| crop_size := 224; resize_size := None |};
     meta := _COMMON_META None 25557032 ("ResNet50_Weights", "IMAGENET1K_V1")
                          {| acc_at_1 := 75920; acc_at_5 := 92814 |} |}.

Definition ResNet50_IMAGENET1K_FBGEMM_V2 : Weights :=
  {| url := "https://download.pytorch.org/models/quantized/resnet50_fbgemm-23753f79.pth";
     transforms := {| crop_size := 224; resize_size := Some 232%Z |};
     meta := _COMMON_META None 25557032 ("ResNet50_Weights", "IMAGENET1K_V2")
                          {| acc_at_1 := 80282; acc_at_5 := 94976 |} |}.

Definition ResNet50_QuantizedWeights : WeightsEnum :=
  {| enum_name := "ResNet50_QuantizedWeights";
     enum_table := [("IMAGENET1K_FBGEMM_V1", ResNet50_IMAGENET1K_FBGEMM_V1);
                    ("IMAGENET1K_FBGEMM_V2", ResNet50_IMAGENET1K_FBGEMM_V2);
                    ("DEFAULT", ResNet50_IMAGENET1K_FBGEMM_V2)] |}.

Definition ResNeXt101_32X8D_IMAGENET1K_FBGEMM_V1 : Weights :=
  {| url := "https://download.pytorch.org/models/quantized/resnext101_32x8_fbgemm_09835ccf.pth";
     transforms := {| crop_size := 224; resize_size := None |};
     meta := _COMMON_META None 88791336 ("ResNeXt101_32X8D_Weights", "IMAGENET1K_V1")
                          {| acc_at_1 := 78986; acc_at_5 := 94480 |} |}.

Definition ResNeXt101_32X8D_IMAGENET1K_FBGEMM_V2 : Weights :=
  {| url := "https://download.pytorch.org/models/quantized/resnext101_32x8_fbgemm-ee16d00c.pth";
     transforms := {| crop_size := 224; resize_size := Some 232%Z |};
     meta := _COMMON_META None 88791336 ("ResNeXt101_32X8D_Weights", "IMAGENET1K_V2")
                          {| acc_at_1 := 82574; acc_at_5 := 96132 |} |}.

Definition ResNeXt101_32X8D_QuantizedWeights : WeightsEnum :=
  {| enum_name := "ResNeXt101_32X8D_QuantizedWeights";
     enum_table := [("IMAGENET1K_FBGEMM_V1", ResNeXt101_32X8D_IMAGENET1K_FBGEMM_V1);
                    ("IMAGENET1K_FBGEMM_V2", ResNeXt101_32X8D_IMAGENET1K_FBGEMM_V2);
                    ("DEFAULT", ResNeXt101_32X8D_IMAGENET1K_FBGEMM_V2)] |}.

Definition ResNeXt101_64X4D_IMAGENET1K_FBGEMM_V1 : Weights :=
  {| url := "https://download.pytorch.org/models/quantized/resnext101_64x4d_fbgemm-605a1cb3.pth";
     transforms := {| crop_size := 224; resize_size := Some 232%Z |};
     meta := _COMMON_META (Some "https://github.com/pytorch/vision/pull/5935") 83455272
                          ("ResNeXt101_64X4D_Weights", "IMAGENET1K_V1")
                          {| acc_at_1 := 82898; acc_at_5 := 96326 |} |}.

Definition ResNeXt101_64X4D_QuantizedWeights : WeightsEnum :=
  {| enum_name := "ResNeXt101_64X4D_QuantizedWeights";
     enum_table := [("IMAGENET1K_FBGEMM_V1", ResNeXt101_64X4D_IMAGENET1K_FBGEMM_V1);
                    ("DEFAULT", ResNeXt101_64X4D_IMAGENET1K_FBGEMM_V1)] |}.

(** [cls.<name>] as an expression: an [AttributeError] when the class has
    no such member. *)
Definition enum_attr (cls : WeightsEnum) (name : string) : result value :=
  match enum_member cls name with
  | Some w => Ok (VWeights w)
  | None => Raise (AttributeError name)
  end.

(* =================================================================== *)
(** * 8. Helpers of the model-building API                             *)
(* =================================================================== *)

(** Modelled from the spec: [WeightsEnum.verify] (torchvision/models/_api.py,
    not under src/).  "Resolve weights selection against the correct
    registry ... fails with an invalid selection condition if the key
    belongs to the wrong registry or is unrecognized"; no selection
    resolves to no weights. *)
Definition verify (cls : WeightsEnum) (obj : value) : result (option WeightsMember) :=
  match obj with
  | VNone => Ok None
  | VStr key =>
      match enum_member cls key with
      | Some w => Ok (Some w)
      | None => Raise InvalidSelection
      end
  | VWeights w => if isinstance_enum w cls then Ok (Some w) else Raise InvalidSelection
  | VBool _ | VInt _ | VOther _ => Raise InvalidSelection
  end.

(** Modelled from the spec: [_ovewrite_named_param] (torchvision/models/_utils.py,
    not under src/).  "override the requested class count and backend
    identifier from its metadata, overriding any conflicting user-supplied
    value"; "these overrides are unconditional, ignoring user-supplied
    values for those two keys". *)
Definition _ovewrite_named_param (kwargs : gmap string value) (param : string)
           (new_value : value) : gmap string value :=
  <[param := new_value]> kwargs.

(** Modelled from the spec: [handle_legacy_interface]
    (torchvision/models/_utils.py, not under src/).  "a normalization step
    at the factory boundary that maps the legacy form to the modern
    enum-key form before any other logic runs": when the legacy keyword is
    passed, it is removed and the weights keyword is set, to the value of
    [default_weights] when the flag is true and to [None] otherwise. *)
Definition handle_legacy_interface {A} (weights_param pretrained_param : string)
           (default_weights : gmap string value -> result value)
           (builder : gmap string value -> Run A)
           (kwargs : gmap string value) : Run A :=
  match kwargs !! pretrained_param with
  | None => builder kwargs
  | Some pretrained_arg =>
      if py_truthy pretrained_arg then
        match default_weights kwargs with
        | Ok w => builder (<[weights_param := w]> (delete pretrained_param kwargs))
        | Raise e => lift (Raise e)
        end
      else builder (<[weights_param := VNone]> (delete pretrained_param kwargs))
  end.

(** Modelled from the spec: [_replace_relu]
    (torchvision/models/quantization/utils.py, not under src/).  "Replace
    all plain (non-fusable) activation instances in the freshly built
    network with instances compatible with the fusion step." *)
Fixpoint _replace_relu (m : Module) : Module :=
  match m with
  | Leaf (ReLU _) => Leaf (ReLU false)
  | Leaf k => Leaf k
  | Container c children =>
      Container c (map (fun nx => (fst nx, _replace_relu (snd nx))) children)
  end.

(** Modelled from the spec: [quantize_model]
    (torchvision/models/quantization/utils.py, not under src/).  "run
    fuse_model then hand the network to the external quantization pipeline
    with the resolved backend identifier". *)
Definition quantize_model (model : Module) (backend : value) : Run Module :=
  (let fused := QuantizableResNet_fuse_model model None in
   emit (EvFuseModel (snd fused)) ;;
   emit (EvQuantize backend) ;;
   lift (torch_quantize (fst fused) backend))%run.

(* =================================================================== *)
(** * 9. The network wrapper and the factories                         *)
(* =================================================================== *)

(** [self.<name> = x] for a sub-module: replaces the entry or registers a
    new one at the end. *)
Definition register_submodule (m : Module) (name : string) (x : Module) : Module :=
  match m with
  | Leaf k => Leaf k
  | Container c children =>
      match lookup_child name children with
      | Some _ => Container c (replace_child name x children)
      | None => Container c (children ++ [(name, x)])
      end
  end.

(** [QuantizableResNet.__init__], called as [QuantizableResNet(block, layers, **kwargs)] *)
Definition QuantizableResNet_init (block : ContainerClass) (layers : list Z)
           (kwargs : gmap string value) : Run Module :=
  (emit (EvConstruct block layers kwargs) ;;
   let* self := lift (ResNet_init block layers kwargs) in
   let self := register_submodule self "quant" (Leaf QuantStub) in
   let self := register_submodule self "dequant" (Leaf DeQuantStub) in
   run_ret self)%run.

(** [_resnet] *)
Definition _resnet (block : ContainerClass) (layers : list Z)
           (weights : option WeightsMember) (progress quantize : bool)
           (kwargs : gmap string value) : Run Module :=
  let kwargs :=
    match weights with
    | Some w =>
        let kwargs :=
          _ovewrite_named_param kwargs "num_classes"
            (VInt (Z.of_nat (List.length (categories (meta (w_value w)))))) in
        match backend (meta (w_value w)) with
        | Some b => _ovewrite_named_param kwargs "backend" (VStr b)
        | None => kwargs
        end
    | None => kwargs
    end in
  let backend := kwargs_get kwargs "backend" (VStr "fbgemm") in
  let kwargs := delete "backend" kwargs in
  (let* model := QuantizableResNet_init block layers kwargs in
   emit EvReplaceRelu ;;
   let model := _replace_relu model in
   let* model := (if quantize then quantize_model model backend else run_ret model) in
   let* model :=
     match weights with
     | Some w =>
         emit (EvGetStateDict w progress) ;;
         let* state_dict := lift (get_state_dict w progress) in
         emit (EvLoadStateDict w) ;;
         lift (load_state_dict model state_dict)
     | None => run_ret model
     end in
   run_ret model)%run.

(** The default of the legacy flag of [resnet18]:
<<
      lambda kwargs: ResNet18_QuantizedWeights.IMAGENET1K_FBGEMM_V1
      if kwargs.get("quantize", False)
      else ResNet18_Weights.IMAGENET1K_V1
>> *)
Definition resnet18_legacy_weights (kwargs : gmap string value) : result value :=
  if py_truthy (kwargs_get kwargs "quantize" (VBool false))
  then enum_attr ResNet18_QuantizedWeights "IMAGENET1K_FBGEMM_V1"
  else enum_attr ResNet18_Weights "IMAGENET1K_V1".

Definition resnet50_legacy_weights (kwargs : gmap string value) : result value :=
  if py_truthy (kwargs_get kwargs "quantize" (VBool false))
  then enum_attr ResNet50_QuantizedWeights "IMAGENET1K_FBGEMM_V1"
  else enum_attr ResNet50_Weights "IMAGENET1K_V1".

Definition resnext101_32x8d_legacy_weights (kwargs : gmap string value) : result value :=
  if py_truthy (kwargs_get kwargs "quantize" (VBool false))
  then enum_attr ResNeXt101_32X8D_QuantizedWeights "IMAGENET1K_FBGEMM_V1"
  else enum_attr ResNeXt101_32X8D_Weights "IMAGENET1K_V1".

(** The bodies of the four factory functions, with their keyword-only
    parameters. *)
Definition resnet18_body (weights : value) (progress quantize : bool)
           (kwargs : gmap string value) : Run Module :=
  (let* weights :=
     lift (verify (if quantize then ResNet18_QuantizedWeights else ResNet18_Weights)
                  weights) in
   _resnet TQuantizableBasicBlock [2; 2; 2; 2]%Z weights progress quantize kwargs)%run.

Definition resnet50_body (weights : value) (progress quantize : bool)
           (kwargs : gmap string value) : Run Module :=
  (let* weights :=
     lift (verify (if quantize then ResNet50_QuantizedWeights else ResNet50_Weights)
                  weights) in
   _resnet TQuantizableBottleneck [3; 4; 6; 3]%Z weights progress quantize kwargs)%run.

Definition resnext101_32x8d_body (weights : value) (progress quantize : bool)
           (kwargs : gmap string value) : Run Module :=
  (let* weights :=
     lift (verify (if quantize then ResNeXt101_32X8D_QuantizedWeights
                   else ResNeXt101_32X8D_Weights) weights) in
   let kwargs := _ovewrite_named_param kwargs "groups" (VInt 32) in
   let kwargs := _ovewrite_named_param kwargs "width_per_group" (VInt 8) in
   _resnet TQuantizableBottleneck [3; 4; 23; 3]%Z weights progress quantize kwargs)%run.

Definition resnext101_64x4d_body (weights : value) (progress quantize : bool)
           (kwargs : gmap string value) : Run Module :=
  (let* weights :=
     lift (verify (if quantize then ResNeXt101_64X4D_QuantizedWeights
                   else ResNeXt101_64X4D_Weights) weights) in
   let kwargs := _ovewrite_named_param kwargs "groups" (VInt 64) in
   let kwargs := _ovewrite_named_param kwargs "width_per_group" (VInt 4) in
   _resnet TQuantizableBottleneck [3; 4; 23; 3]%Z weights progress quantize kwargs)%run.

(** A call with keyword arguments to a function whose parameters are the
    keyword-only [weights=None], [progress=True], [quantize=False] and a
    catch-all for the remaining keywords. *)
Definition keyword_call
           (body : value -> bool -> bool -> gmap string value -> Run Module)
           (call : gmap string value) : Run Module :=
  body (kwargs_get call "weights" VNone)
       (py_truthy (kwargs_get call "progress" (VBool true)))
       (py_truthy (kwargs_get call "quantize" (VBool false)))
       (delete "weights" (delete "progress" (delete "quantize" call))).

(** The four public factories.  The first three are wrapped by
    [@handle_legacy_interface(weights=("pretrained", ...))]; the last one
    is a plain function. *)
Definition resnet18 : gmap string value -> Run Module :=
  handle_legacy_interface "weights" "pretrained" resnet18_legacy_weights
                          (keyword_call resnet18_body).

Definition resnet50 : gmap string value -> Run Module :=
  handle_legacy_interface "weights" "pretrained" resnet50_legacy_weights
                          (keyword_call resnet50_body).

Definition resnext101_32x8d : gmap string value -> Run Module :=
  handle_legacy_interface "weights" "pretrained" resnext101_32x8d_legacy_weights
                          (keyword_call resnext101_32x8d_body).

Definition resnext101_64x4d : gmap string value -> Run Module :=
  keyword_call resnext101_64x4d_body.

(** [quant_model_urls], the dictionary kept for the legacy interface. *)
Definition quant_model_urls : list (string * string) :=
  [("resnet18_fbgemm", url ResNet18_IMAGENET1K_FBGEMM_V1);
   ("resnet50_fbgemm", url ResNet50_IMAGENET1K_FBGEMM_V1);
   ("resnext101_32x8d_fbgemm", url ResNeXt101_32X8D_IMAGENET1K_FBGEMM_V1)].

Definition quantized_registry (a : Architecture) : WeightsEnum :=
  match a with
  | Resnet18 => ResNet18_QuantizedWeights
  | Resnet50 => ResNet50_QuantizedWeights
  | Resnext101_32x8d => ResNeXt101_32X8D_QuantizedWeights
  | Resnext101_64x4d => ResNeXt101_64X4D_QuantizedWeights
  end.

Definition float_registry (a : Architecture) : WeightsEnum :=
  match a with
  | Resnet18 => ResNet18_Weights
  | Resnet50 => ResNet50_Weights
  | Resnext101_32x8d => ResNeXt101_32X8D_Weights
  | Resnext101_64x4d => ResNeXt101_64X4D_Weights
  end.

Definition applicable_registry (a : Architecture) (quantize : bool) : WeightsEnum :=
  if quantize then quantized_registry a else float_registry a.

Definition factory_body (a : Architecture)
  : value -> bool -> bool -> gmap string value -> Run Module :=
  match a with
  | Resnet18 => resnet18_body
  | Resnet50 => resnet50_body
  | Resnext101_32x8d => resnext101_32x8d_body
  | Resnext101_64x4d => resnext101_64x4d_body
  end.

Definition factory (a : Architecture) : gmap string value -> Run Module :=
  match a with
  | Resnet18 => resnet18
  | Resnet50 => resnet50
  | Resnext101_32x8d => resnext101_32x8d
  | Resnext101_64x4d => resnext101_64x4d
  end.

(** The backend identifier a call resolves to: the one of the weights'
    metadata when there is one, else the caller's, else ["fbgemm"]. *)
Definition resolved_backend (weights : option WeightsMember)
           (kwargs : gmap string value) : value :=
  match weights with
  | Some w =>
      match backend (meta (w_value w)) with
      | Some b => VStr b
      | None => kwargs_get kwargs "backend" (VStr "fbgemm")
      end
  | None => kwargs_get kwargs "backend" (VStr "fbgemm")
  end.

(** The keywords a call hands to the constructor of the network. *)
Definition constructor_kwargs (weights : option WeightsMember)
           (kwargs : gmap string value) : gmap string value :=
  delete "backend"
    (match weights with
     | Some w =>
         let kwargs :=
           <["num_classes" :=
               VInt (Z.of_nat (List.length (categories (meta (w_value w)))))]> kwargs in
         match backend (meta (w_value w)) with
         | Some b => <["backend" := VStr b]> kwargs
         | None => kwargs
         end
     | None => kwargs
     end).

(** [_resnet] from the construction of the network on, for the backend
    and the constructor keywords it has resolved. *)
Definition resnet_run (block : ContainerClass) (layers : list Z)
           (weights : option WeightsMember) (progress quantize : bool)
           (backend : value) (kwargs : gmap string value) : Run Module :=
  (let* model := QuantizableResNet_init block layers kwargs in
   emit EvReplaceRelu ;;
   let model := _replace_relu model in
   let* model := (if quantize then quantize_model model backend else run_ret model) in
   let* model :=
     match weights with
     | Some w =>
         emit (EvGetStateDict w progress) ;;
         let* state_dict := lift (get_state_dict w progress) in
         emit (EvLoadStateDict w) ;;
         lift (load_state_dict model state_dict)
     | None => run_ret model
     end in
   run_ret model)%run.

(** The kind of step an event stands for. *)
Inductive Step :=
| SConstruct | SReplaceRelu | SFuseModel | SQuantize | SGetStateDict | SLoadStateDict.

Definition step_of (e : Event) : Step :=
  match e with
  | EvConstruct _ _ _ => SConstruct
  | EvReplaceRelu => SReplaceRelu
  | EvFuseModel _ => SFuseModel
  | EvQuantize _ => SQuantize
  | EvGetStateDict _ _ => SGetStateDict
  | EvLoadStateDict _ => SLoadStateDict
  end.

(** The steps of a complete call, in order. *)
Definition steps_of_call (weights : option WeightsMember) (quantize : bool) : list Step :=
  [SConstruct; SReplaceRelu]
  ++ (if quantize then [SFuseModel; SQuantize] else [])
  ++ (match weights with Some _ => [SGetStateDict; SLoadStateDict] | None => [] end).

(** The keywords a factory body passes on to [_resnet]. *)
Definition forced_kwargs (a : Architecture) (kwargs : gmap string value)
  : gmap string value :=
  match a with
  | Resnet18 | Resnet50 => kwargs
  | Resnext101_32x8d => <["width_per_group" := VInt 8]> (<["groups" := VInt 32]> kwargs)
  | Resnext101_64x4d => <["width_per_group" := VInt 4]> (<["groups" := VInt 64]> kwargs)
  end.

Definition block_of (a : Architecture) : ContainerClass :=
  match a with
  | Resnet18 => TQuantizableBasicBlock
  | _ => TQuantizableBottleneck
  end.

Definition layers_of (a : Architecture) : list Z :=
  match a with
  | Resnet18 => [2; 2; 2; 2]%Z
  | Resnet50 => [3; 4; 6; 3]%Z
  | Resnext101_32x8d | Resnext101_64x4d => [3; 4; 23; 3]%Z
  end.
End Factories.

(** Two calls that pass the same keywords, except possibly [key]. *)
Definition agree_except (key : string) (c1 c2 : gmap string value) : Prop :=
  forall k, k <> key -> c1 !! k = c2 !! k.


(* ===================================================================== *)
(** * 9b. Vocabulary for the properties of the log and of the keywords    *)
(* ===================================================================== *)

(** The module a fuse event is about. *)
Definition fuse_event_target (e : FuseEvent) : path :=
  match e with
  | FuseModulesCall target _ _ _ => target
  | BlockFuseModelCall target _ => target
  end.

(** The flag a fuse event carries, and that a submission is in place. *)
Definition fuse_event_carries (is_qat : option bool) (e : FuseEvent) : Prop :=
  match e with
  | FuseModulesCall _ _ q inplace => q = is_qat /\ inplace = true
  | BlockFuseModelCall _ q => q = is_qat
  end.

(** The keywords of a call that a factory binds, resolves or forces itself:
    its own parameters, "backend" (popped by [_resnet]), "num_classes"
    (set from the weights), the two grouped-convolution keywords for the
    ResNeXt factories and the legacy keyword for the wrapped ones. *)
Definition reserved_keywords (a : Architecture) : list string :=
  ["weights"; "progress"; "quantize"; "backend"; "num_classes"]
  ++ match a with
     | Resnet18 | Resnet50 => []
     | Resnext101_32x8d | Resnext101_64x4d => ["groups"; "width_per_group"]
     end
  ++ match a with
     | Resnext101_64x4d => []
     | _ => ["pretrained"]
     end.

Definition is_network_step (s : Step) : bool :=
  match s with
  | SConstruct | SReplaceRelu => true
  | _ => false
  end.

(** What a module holds under the names of a group once the group has been
    submitted. *)
Definition group_held (is_qat : option bool) (self result : Module) (names : list string)
  : Prop :=
  match names, fusable self names with
  | n0 :: rest, Some kind =>
      get_submodule result n0 = Some (Leaf (FusedUnit is_qat kind))
      /\ Forall (fun n => get_submodule result n = Some (Leaf Identity)) rest
  | _, _ => Forall (fun n => get_submodule result n = get_submodule self n) names
  end.


(* ===================================================================== *)
(** * 10. Sample networks and a sample environment                        *)
(* ===================================================================== *)

(** A downsample path as the base network builds it: a convolution and a
    normalization layer in a [Sequential]. *)
Definition sample_downsample : Module :=
  Container TSequential [("0", Leaf Conv2d); ("1", Leaf BatchNorm2d)].

Definition sample_basic_block (downsample : option Module) : Module :=
  Container TQuantizableBasicBlock
    ([("conv1", Leaf Conv2d); ("bn1", Leaf BatchNorm2d); ("relu", Leaf (ReLU true));
      ("conv2", Leaf Conv2d); ("bn2", Leaf BatchNorm2d)]
     ++ match downsample with Some d => [("downsample", d)] | None => [] end
     ++ [("add_relu", Leaf FloatFunctional)]).

Definition bottleneck_children (downsample : option Module) : list (string * Module) :=
  [("conv1", Leaf Conv2d); ("bn1", Leaf BatchNorm2d);
   ("conv2", Leaf Conv2d); ("bn2", Leaf BatchNorm2d);
   ("conv3", Leaf Conv2d); ("bn3", Leaf BatchNorm2d); ("relu", Leaf (ReLU true))]
  ++ match downsample with Some d => [("downsample", d)] | None => [] end
  ++ [("skip_add_relu", Leaf FloatFunctional);
      ("relu1", Leaf (ReLU false)); ("relu2", Leaf (ReLU false))].

Definition sample_bottleneck (downsample : option Module) : Module :=
  Container TQuantizableBottleneck (bottleneck_children downsample).

(** An instance of a user-defined strict subclass of the bottleneck
    adapter. *)
Definition sample_subclass_block : Module :=
  Container (TSubclass "MyBottleneck" TQuantizableBottleneck)
            (bottleneck_children (Some sample_downsample)).

(** A small network: the stem, one stage with a narrow block and a
    bottleneck block with a downsample path, one stage with an instance of
    a subclass, the head and the quantization markers. *)
Definition sample_network (first_block : Module) : Module :=
  Container TQuantizableResNet
    [("conv1", Leaf Conv2d); ("bn1", Leaf BatchNorm2d); ("relu", Leaf (ReLU true));
     ("maxpool", Leaf MaxPool2d);
     ("layer1", Container TSequential
                  [("0", first_block); ("1", sample_bottleneck (Some sample_downsample))]);
     ("layer2", Container TSequential [("0", sample_subclass_block)]);
     ("avgpool", Leaf AdaptiveAvgPool2d); ("fc", Leaf Linear);
     ("quant", Leaf QuantStub); ("dequant", Leaf DeQuantStub)].

(** A narrow block whose downsample attribute is an empty [Sequential]. *)
Definition sample_block_empty_downsample : Module :=
  sample_basic_block (Some (Container TSequential [])).

(** Tensors as integers, for the examples of the forward passes. *)
Definition Z_tensors : TensorOps :=
  {| Tensor := Z; torch_add := Z.add; torch_relu := Z.max 0 |}.

Definition sample_float_basic_block : @BasicBlock Z_tensors :=
  @Build_BasicBlock Z_tensors
    (fun t : Z => (2 * t - 7)%Z)     (* conv1 *)
    (fun t : Z => (t + 1)%Z)         (* bn1 *)
    (Z.max 0)                        (* relu *)
    (fun t : Z => (5 - 3 * t)%Z)     (* conv2 *)
    (fun t : Z => (t - 2)%Z)         (* bn2 *)
    (Some (fun t : Z => (- t)%Z)).   (* downsample *)

(** A narrow block after fusion: [relu] has become an identity. *)
Definition sample_fused_basic_block : @BasicBlock Z_tensors :=
  @Build_BasicBlock Z_tensors
    (fun t : Z => t) (fun t : Z => t) (fun t : Z => t)
    (fun t : Z => t) (fun t : Z => t) None.

Definition sample_float_bottleneck : @Bottleneck Z_tensors :=
  @Build_Bottleneck Z_tensors
    (fun t : Z => (t - 4)%Z)         (* conv1 *)
    (fun t : Z => (2 * t)%Z)         (* bn1 *)
    (fun t : Z => (3 - t)%Z)         (* conv2 *)
    (fun t : Z => (t + 1)%Z)         (* bn2 *)
    (fun t : Z => (t * t - 10)%Z)    (* conv3 *)
    (fun t : Z => (- t)%Z)           (* bn3 *)
    (Z.max 0)                        (* relu *)
    None.                            (* downsample *)

(** A sample environment.  The floating-point tables hold the members the
    source refers to; their contents are placeholders. *)
Definition sample_categories : list string := ["tench"; "goldfish"; "great white shark"].

Definition sample_float_weights (file : string) : Weights :=
  {| url := file;
     transforms := {| crop_size := 224; resize_size := None |};
     meta := {| min_size := (1, 1)%Z;
                categories := sample_categories;
                backend := None;
                recipe := "";
                num_params := 0;
                unquantized := None;
                metrics := {| acc_at_1 := 0; acc_at_5 := 0 |} |} |}.

Definition sample_constructor_keywords : list string :=
  ["num_classes"; "zero_init_residual"; "groups"; "width_per_group";
   "replace_stride_with_dilation"; "norm_layer"].

Definition sample_ResNet_init (block : ContainerClass) (layers : list Z)
           (kwargs : gmap string value) : result Module :=
  if forallb (fun kv => existsb (String.eqb (fst kv)) sample_constructor_keywords)
             (map_to_list kwargs)
  then Ok (sample_network
             (match block with
              | TQuantizableBasicBlock => sample_basic_block None
              | _ => sample_bottleneck None
              end))
  else Raise UnexpectedKeyword.

Definition sample_torch_quantize (model : Module) (backend : value) : result Module :=
  match backend with
  | VStr b => if String.eqb b "fbgemm" || String.eqb b "qnnpack"
              then Ok model else Raise UnsupportedTarget
  | _ => Raise UnsupportedTarget
  end.

(** [checkpoint_fits] tells whether loading succeeds. *)
Definition sample_imports (checkpoint_fits : bool) : Imports :=
  {| _IMAGENET_CATEGORIES := sample_categories;
     ResNet18_Weights_table :=
       [("IMAGENET1K_V1", sample_float_weights "resnet18-v1");
        ("DEFAULT", sample_float_weights "resnet18-v1")];
     ResNet50_Weights_table :=
       [("IMAGENET1K_V1", sample_float_weights "resnet50-v1");
        ("IMAGENET1K_V2", sample_float_weights "resnet50-v2");
        ("DEFAULT", sample_float_weights "resnet50-v2")];
     ResNeXt101_32X8D_Weights_table :=
       [("IMAGENET1K_V1", sample_float_weights "resnext101_32x8d-v1");
        ("IMAGENET1K_V2", sample_float_weights "resnext101_32x8d-v2");
        ("DEFAULT", sample_float_weights "resnext101_32x8d-v2")];
     ResNeXt101_64X4D_Weights_table :=
       [("IMAGENET1K_V1", sample_float_weights "resnext101_64x4d-v1");
        ("DEFAULT", sample_float_weights "resnext101_64x4d-v1")];
     ResNet_init := sample_ResNet_init;
     torch_quantize := sample_torch_quantize;
     StateDict := nat;
     get_state_dict := fun w _ => Ok (List.length (categories (meta (w_value w))));
     load_state_dict := fun model _ =>
                          if checkpoint_fits then Ok model else Raise StructuralMismatch |}.

(** A second environment, whose base constructor returns a network without
    the quantization markers, as the base class builds it. *)
Definition bare_network : Module :=
  Container TQuantizableResNet
    [("conv1", Leaf Conv2d); ("bn1", Leaf BatchNorm2d); ("relu", Leaf (ReLU true));
     ("layer1", Container TSequential [("0", sample_basic_block None)]);
     ("fc", Leaf Linear)].

Definition bare_imports : Imports :=
  {| _IMAGENET_CATEGORIES := sample_categories;
     ResNet18_Weights_table := [("IMAGENET1K_V1", sample_float_weights "resnet18-v1")];
     ResNet50_Weights_table := [("IMAGENET1K_V1", sample_float_weights "resnet50-v1")];
     ResNeXt101_32X8D_Weights_table :=
       [("IMAGENET1K_V1", sample_float_weights "resnext101_32x8d-v1")];
     ResNeXt101_64X4D_Weights_table :=
       [("IMAGENET1K_V1", sample_float_weights "resnext101_64x4d-v1")];
     ResNet_init := fun _ _ _ => Ok bare_network;
     torch_quantize := sample_torch_quantize;
     StateDict := nat;
     get_state_dict := fun w _ => Ok (List.length (categories (meta (w_value w))));
     load_state_dict := fun model _ => Ok model |}.

(** The default quantized entry of resnet50 in a sample environment. *)
Definition sample_resnet50_default (checkpoint_fits : bool) : WeightsMember :=
  {| w_enum := "ResNet50_QuantizedWeights";
     w_name := "IMAGENET1K_FBGEMM_V2";
     w_value := @ResNet50_IMAGENET1K_FBGEMM_V2 (sample_imports checkpoint_fits) |}.


(* ===================================================================== *)
(** * Properties of the module tree                                       *)
(* ===================================================================== *)

Section FuseMonad.
Context {A B : Type}.

Lemma fuse_bind_fst (m : Fuse A) (f : A -> Fuse B) :
  fst (fuse_bind m f) = fst (f (fst m)).
Proof. unfold fuse_bind. destruct (f (fst m)); reflexivity. Qed.

Lemma fuse_bind_snd (m : Fuse A) (f : A -> Fuse B) :
  snd (fuse_bind m f) = snd m ++ snd (f (fst m)).
Proof. unfold fuse_bind. destruct (f (fst m)); reflexivity. Qed.
End FuseMonad.

Lemma lookup_replace_child n n' x children :
  lookup_child n' (replace_child n x children)
  = if String.eqb n n'
    then match lookup_child n children with Some _ => Some x | None => None end
    else lookup_child n' children.
Proof.
  induction children as [|[a y] rest IH]; simpl.
  - destruct (String.eqb n n'); reflexivity.
  - destruct (String.eqb a n) eqn:Ean; simpl.
    + apply String.eqb_eq in Ean. subst a.
      destruct (String.eqb n n') eqn:Enn; reflexivity.
    + destruct (String.eqb a n') eqn:Ean'.
      * apply String.eqb_eq in Ean'. subst a.
        rewrite String.eqb_sym in Ean. rewrite Ean. reflexivity.
      * exact IH.
Qed.

Lemma replace_child_same n x children :
  lookup_child n children = Some x -> replace_child n x children = children.
Proof.
  induction children as [|[a y] rest IH]; simpl; [reflexivity|].
  destruct (String.eqb a n); intros H.
  - congruence.
  - rewrite IH by assumption. reflexivity.
Qed.

Lemma replace_child_absent n x children :
  lookup_child n children = None -> replace_child n x children = children.
Proof.
  induction children as [|[a y] rest IH]; simpl; [reflexivity|].
  destruct (String.eqb a n); intros H; [discriminate|].
  rewrite IH by assumption. reflexivity.
Qed.

Lemma get_set_submodule m n x n' :
  get_submodule (set_submodule m n x) n'
  = if String.eqb n n'
    then match get_submodule m n with Some _ => Some x | None => None end
    else get_submodule m n'.
Proof.
  destruct m as [k|c children]; simpl.
  - destruct (String.eqb n n'); reflexivity.
  - apply lookup_replace_child.
Qed.

Lemma set_submodule_same m n x :
  get_submodule m n = Some x -> set_submodule m n x = m.
Proof.
  destruct m as [k|c children]; simpl; [reflexivity|].
  intros H. rewrite replace_child_same by assumption. reflexivity.
Qed.

(** ** Shapes *)

Lemma lookup_child_shape n children :
  lookup_child n (map (fun nx => (fst nx, shape (snd nx))) children)
  = option_map shape (lookup_child n children).
Proof.
  induction children as [|[a y] rest IH]; simpl; [reflexivity|].
  destruct (String.eqb a n); [reflexivity | exact IH].
Qed.

Lemma get_submodule_shape m n :
  get_submodule (shape m) n = option_map shape (get_submodule m n).
Proof. destruct m; simpl; [reflexivity | apply lookup_child_shape]. Qed.

Lemma shape_replace_child n x y children :
  lookup_child n children = Some y -> shape x = shape y ->
  map (fun nx => (fst nx, shape (snd nx))) (replace_child n x children)
  = map (fun nx => (fst nx, shape (snd nx))) children.
Proof.
  induction children as [|[a z] rest IH]; simpl; [reflexivity|].
  destruct (String.eqb a n); intros H Hs; simpl.
  - injection H as ->. rewrite Hs. reflexivity.
  - rewrite IH by assumption. reflexivity.
Qed.

Lemma shape_set_submodule m n x y :
  get_submodule m n = Some y -> shape x = shape y ->
  shape (set_submodule m n x) = shape m.
Proof.
  destruct m as [k|c children]; simpl; [reflexivity|].
  intros H Hs. rewrite (shape_replace_child n x y) by assumption. reflexivity.
Qed.

Lemma shape_leaf_inv m : shape m = Leaf Identity -> exists k, m = Leaf k.
Proof. destruct m; simpl; [eauto | discriminate]. Qed.

Lemma shape_container_inv m c sh :
  shape m = Container c sh ->
  exists children, m = Container c children
                   /\ sh = map (fun nx => (fst nx, shape (snd nx))) children.
Proof.
  destruct m; simpl; [discriminate|]. intros H. injection H as -> <-. eauto.
Qed.

Lemma py_truthy_shape m : py_truthy_module (shape m) = py_truthy_module m.
Proof. destruct m; simpl; [reflexivity|]. rewrite length_map. reflexivity. Qed.

Lemma py_truthy_shape_eq m m' :
  shape m = shape m' -> py_truthy_module m = py_truthy_module m'.
Proof. intros H. rewrite <- (py_truthy_shape m), H. apply py_truthy_shape. Qed.

Lemma downsample_truthy_shape_eq m m' :
  shape m = shape m' -> downsample_truthy m = downsample_truthy m'.
Proof.
  intros H. unfold downsample_truthy.
  pose proof (get_submodule_shape m "downsample") as H1.
  pose proof (get_submodule_shape m' "downsample") as H2.
  rewrite H in H1. rewrite H1 in H2.
  destruct (get_submodule m "downsample") as [d|],
           (get_submodule m' "downsample") as [d'|]; simpl in H2; try discriminate.
  - injection H2 as H2. apply py_truthy_shape_eq. assumption.
  - reflexivity.
Qed.

Lemma height_shape m : height (shape m) = height m.
Proof.
  induction m as [k|c children IH] using Module_tree_ind; simpl; [reflexivity|].
  f_equal. f_equal. rewrite map_map. simpl.
  induction IH as [|nx rest Hx _ IHrest]; simpl; [reflexivity|].
  rewrite Hx, IHrest. reflexivity.
Qed.

Lemma height_shape_eq m m' : shape m = shape m' -> height m = height m'.
Proof. intros H. rewrite <- (height_shape m), H. apply height_shape. Qed.

Lemma height_child c children nx :
  In nx children -> height (snd nx) < height (Container c children).
Proof.
  simpl. induction children as [|a rest IH]; simpl; [tauto|].
  intros [->|H]; [lia|]. specialize (IH H). lia.
Qed.

(** ** The fuse primitive changes leaves only *)

Lemma leaf_classes_leaves m names ks :
  leaf_classes m names = Some ks ->
  Forall (fun n => get_submodule (shape m) n = Some (Leaf Identity)) names.
Proof.
  revert ks. induction names as [|n rest IH]; intros ks; simpl.
  - intros _. constructor.
  - destruct (get_submodule m n) as [[k|c ch]|] eqn:Hn; try discriminate.
    destruct (leaf_classes m rest) as [ks'|] eqn:Hrest; try discriminate.
    intros _. constructor.
    + rewrite get_submodule_shape, Hn. reflexivity.
    + eapply IH. reflexivity.
Qed.

Lemma shape_set_leaf m n k :
  get_submodule (shape m) n = Some (Leaf Identity) ->
  shape (set_submodule m n (Leaf k)) = shape m.
Proof.
  rewrite get_submodule_shape. intros H.
  destruct (get_submodule m n) as [y|] eqn:Hy; [|discriminate].
  simpl in H. injection H as H.
  apply (shape_set_submodule m n (Leaf k) y); [assumption|].
  simpl. symmetry. assumption.
Qed.

Lemma shape_fold_set_identity names m :
  Forall (fun n => get_submodule (shape m) n = Some (Leaf Identity)) names ->
  shape (fold_left (fun acc n => set_submodule acc n (Leaf Identity)) names m) = shape m.
Proof.
  revert m. induction names as [|n rest IH]; intros m H; simpl; [reflexivity|].
  inversion H as [|? ? Hn Hrest]; subst.
  pose proof (shape_set_leaf m n Identity Hn) as Hs.
  rewrite IH; [assumption|]. rewrite Hs. assumption.
Qed.

Lemma shape_fuse_group q m names : shape (fuse_group q m names) = shape m.
Proof.
  unfold fuse_group. destruct names as [|n0 rest]; [reflexivity|].
  destruct (fusable m (n0 :: rest)) as [kind|] eqn:Hf; [|reflexivity].
  unfold fusable in Hf.
  destruct (leaf_classes m (n0 :: rest)) as [ks|] eqn:Hl; [|discriminate].
  apply leaf_classes_leaves in Hl. inversion Hl as [|? ? Hn Hrest]; subst.
  pose proof (shape_set_leaf m n0 (FusedUnit q kind) Hn) as Hs.
  rewrite shape_fold_set_identity; [assumption|]. rewrite Hs. assumption.
Qed.

Lemma shape_fold_fuse_group q groups m :
  shape (fold_left (fuse_group q) groups m) = shape m.
Proof.
  revert m. induction groups as [|g rest IH]; intros m; simpl; [reflexivity|].
  rewrite IH. apply shape_fuse_group.
Qed.

Lemma shape_fuse_modules m mtf q : shape (_fuse_modules m mtf q) = shape m.
Proof. apply shape_fold_fuse_group. Qed.

(** An operation that keeps the shape and maps a leaf to itself cannot
    turn anything else into a leaf. *)
Lemma fuse_modules_leaf_inv m mtf q k : _fuse_modules m mtf q = Leaf k -> m = Leaf k.
Proof.
  intros H. pose proof (shape_fuse_modules m mtf q) as Hs. rewrite H in Hs.
  symmetry in Hs. apply shape_leaf_inv in Hs as [k0 ->].
  revert H. unfold _fuse_modules. generalize (groups_of mtf) as groups.
  induction groups as [|g rest IH]; simpl; [auto|].
  unfold fuse_group at 2. unfold fusable.
  destruct g as [|n0 r]; [exact IH|]. simpl. exact IH.
Qed.

(** ** Monotonicity of "nothing to fuse" *)

Lemma leafsig_le_refl m : leafsig_le m m.
Proof. intros n k H _. exact H. Qed.

Lemma leafsig_le_trans m1 m2 m3 :
  leafsig_le m1 m2 -> leafsig_le m2 m3 -> leafsig_le m1 m3.
Proof. intros H12 H23 n k H Hk. apply H12; [apply H23|]; assumption. Qed.

Lemma leafsig_le_set_result m n k :
  result_leaf k = true -> leafsig_le m (set_submodule m n (Leaf k)).
Proof.
  intros Hk n' k'. rewrite get_set_submodule.
  destruct (String.eqb n n'); [|auto].
  destruct (get_submodule m n); [|discriminate].
  intros H Hk'. injection H as <-. congruence.
Qed.

Lemma leafsig_le_set_container m n x y :
  get_submodule m n = Some y -> (forall k, x = Leaf k -> y = Leaf k) ->
  leafsig_le m (set_submodule m n x).
Proof.
  intros Hy Hx n' k'. rewrite get_set_submodule.
  destruct (String.eqb n n') eqn:E; [|auto].
  apply String.eqb_eq in E. subst n'. rewrite Hy.
  intros H _. injection H as ->. rewrite (Hx k' eq_refl). reflexivity.
Qed.

Lemma leafsig_le_fold_identity names m :
  leafsig_le m (fold_left (fun acc n => set_submodule acc n (Leaf Identity)) names m).
Proof.
  revert m. induction names as [|n rest IH]; intros m; simpl.
  - apply leafsig_le_refl.
  - eapply leafsig_le_trans; [|apply IH].
    apply leafsig_le_set_result. reflexivity.
Qed.

Lemma leafsig_le_fuse_group q m names : leafsig_le m (fuse_group q m names).
Proof.
  unfold fuse_group. destruct names as [|n0 rest]; [apply leafsig_le_refl|].
  destruct (fusable m (n0 :: rest)); [|apply leafsig_le_refl].
  eapply leafsig_le_trans; [|apply leafsig_le_fold_identity].
  apply leafsig_le_set_result. reflexivity.
Qed.

Lemma leafsig_le_fold_fuse_group q groups m :
  leafsig_le m (fold_left (fuse_group q) groups m).
Proof.
  revert m. induction groups as [|g rest IH]; intros m; simpl.
  - apply leafsig_le_refl.
  - eapply leafsig_le_trans; [apply leafsig_le_fuse_group | apply IH].
Qed.

Lemma fuser_method_pattern ks kind :
  fuser_method ks = Some kind -> Forall (fun k => result_leaf k = false) ks.
Proof.
  unfold fuser_method. intros H.
  repeat (match goal with
          | H : match ?x with _ => _ end = Some _ |- _ => destruct x; try discriminate
          end);
    repeat constructor.
Qed.

Lemma leaf_classes_mono m m' names ks :
  leafsig_le m m' -> leaf_classes m' names = Some ks ->
  Forall (fun k => result_leaf k = false) ks -> leaf_classes m names = Some ks.
Proof.
  intros Hle. revert ks. induction names as [|n rest IH]; intros ks; simpl; [auto|].
  destruct (get_submodule m' n) as [[k|c ch]|] eqn:Hn; try discriminate.
  destruct (leaf_classes m' rest) as [ks'|] eqn:Hrest; try discriminate.
  intros H Hall. injection H as <-. inversion Hall as [|? ? Hk Hks]; subst.
  rewrite (Hle n k Hn Hk), (IH ks' eq_refl Hks). reflexivity.
Qed.

Lemma fusable_mono m m' names :
  leafsig_le m m' -> fusable m names = None -> fusable m' names = None.
Proof.
  intros Hle Hm. destruct (fusable m' names) as [kind|] eqn:Hf; [|reflexivity].
  unfold fusable in Hf.
  destruct (leaf_classes m' names) as [ks|] eqn:Hl; [|discriminate].
  pose proof (leaf_classes_mono m m' names ks Hle Hl (fuser_method_pattern _ _ Hf)) as H.
  unfold fusable in Hm. rewrite H in Hm. congruence.
Qed.

Lemma fold_identity_keeps_result names m n k :
  get_submodule m n = Some (Leaf k) -> result_leaf k = true ->
  exists k', get_submodule
               (fold_left (fun acc a => set_submodule acc a (Leaf Identity)) names m) n
             = Some (Leaf k') /\ result_leaf k' = true.
Proof.
  revert m k. induction names as [|a rest IH]; intros m k Hn Hk; simpl; [eauto|].
  destruct (String.eqb a n) eqn:E.
  - apply String.eqb_eq in E. subst a.
    apply (IH _ Identity); [|reflexivity].
    rewrite get_set_submodule, String.eqb_refl, Hn. reflexivity.
  - apply (IH _ k); [|assumption].
    rewrite get_set_submodule, E. assumption.
Qed.

Lemma fuser_method_result_head k ks : result_leaf k = true -> fuser_method (k :: ks) = None.
Proof. destruct k; simpl; intros H; try discriminate; reflexivity. Qed.

(** After a group was submitted, it is not fusable any more. *)
Lemma fusable_after_fuse_group q m names : fusable (fuse_group q m names) names = None.
Proof.
  unfold fuse_group. destruct names as [|n0 rest]; [reflexivity|].
  destruct (fusable m (n0 :: rest)) as [kind|] eqn:Hf; [|assumption].
  unfold fusable in Hf. simpl in Hf.
  destruct (get_submodule m n0) as [[k0|c ch]|] eqn:Hn0; try discriminate.
  destruct (fold_identity_keeps_result rest
              (set_submodule m n0 (Leaf (FusedUnit q kind))) n0 (FusedUnit q kind))
    as (k' & Hk' & Hres); [|reflexivity|].
  { rewrite get_set_submodule, String.eqb_refl, Hn0. reflexivity. }
  clear Hf. unfold fusable. simpl. rewrite Hk'.
  match goal with
  | |- context [leaf_classes ?x rest] => destruct (leaf_classes x rest)
  end; [|reflexivity].
  apply fuser_method_result_head. assumption.
Qed.

Lemma fuse_group_settled q m names : fusable m names = None -> fuse_group q m names = m.
Proof. unfold fuse_group. intros H. destruct names; [reflexivity|]. rewrite H. reflexivity. Qed.

Lemma fold_fuse_group_settled q groups m :
  Forall (fun g => fusable m g = None) groups -> fold_left (fuse_group q) groups m = m.
Proof.
  induction groups as [|g rest IH]; simpl; [reflexivity|].
  intros H. inversion H as [|? ? Hg Hrest]; subst.
  rewrite fuse_group_settled by assumption. apply IH. assumption.
Qed.

Lemma fold_fuse_group_settles q groups m :
  Forall (fun g => fusable (fold_left (fuse_group q) groups m) g = None) groups.
Proof.
  revert m. induction groups as [|g rest IH]; intros m; simpl; constructor.
  - eapply fusable_mono; [apply leafsig_le_fold_fuse_group|].
    apply fusable_after_fuse_group.
  - apply IH.
Qed.

Lemma fuse_modules_settles m mtf q :
  Forall (fun g => fusable (_fuse_modules m mtf q) g = None) (groups_of mtf).
Proof. apply fold_fuse_group_settles. Qed.

Lemma fuse_modules_settled m mtf q :
  Forall (fun g => fusable m g = None) (groups_of mtf) -> _fuse_modules m mtf q = m.
Proof. apply fold_fuse_group_settled. Qed.

Lemma fuse_modules_idempotent m mtf q q' :
  _fuse_modules (_fuse_modules m mtf q) mtf q' = _fuse_modules m mtf q.
Proof. apply fuse_modules_settled, fuse_modules_settles. Qed.

(** ** The block adapters *)

Lemma fuse_downsample_snd p m q :
  snd (fuse_downsample p m q) = downsample_events p m q.
Proof.
  unfold fuse_downsample, downsample_events, downsample_truthy.
  destruct (get_submodule m "downsample") as [d|]; [|reflexivity].
  destruct (py_truthy_module d); reflexivity.
Qed.

Lemma fuse_downsample_fst p m q :
  fst (fuse_downsample p m q)
  = match get_submodule m "downsample" with
    | Some d => if py_truthy_module d
                then set_submodule m "downsample" (_fuse_modules d (OneGroup ["0"; "1"]) q)
                else m
    | None => m
    end.
Proof.
  unfold fuse_downsample.
  destruct (get_submodule m "downsample") as [d|]; [|reflexivity].
  destruct (py_truthy_module d); reflexivity.
Qed.

Lemma shape_fuse_downsample p m q : shape (fst (fuse_downsample p m q)) = shape m.
Proof.
  rewrite fuse_downsample_fst.
  destruct (get_submodule m "downsample") as [d|] eqn:Hd; [|reflexivity].
  destruct (py_truthy_module d); [|reflexivity].
  apply (shape_set_submodule m "downsample" _ d); [assumption|].
  apply shape_fuse_modules.
Qed.

Lemma leafsig_le_fuse_downsample p m q : leafsig_le m (fst (fuse_downsample p m q)).
Proof.
  rewrite fuse_downsample_fst.
  destruct (get_submodule m "downsample") as [d|] eqn:Hd; [|apply leafsig_le_refl].
  destruct (py_truthy_module d); [|apply leafsig_le_refl].
  apply (leafsig_le_set_container m "downsample" _ d); [assumption|].
  intros k. apply fuse_modules_leaf_inv.
Qed.

Lemma fuse_downsample_settles p m q : settled_downsample (fst (fuse_downsample p m q)).
Proof.
  rewrite fuse_downsample_fst. intros d'.
  destruct (get_submodule m "downsample") as [d|] eqn:Hd; [|congruence].
  destruct (py_truthy_module d) eqn:Ht.
  - rewrite get_set_submodule, String.eqb_refl, Hd. intros H _. injection H as <-.
    pose proof (fuse_modules_settles d (OneGroup ["0"; "1"]) q) as Hs.
    inversion Hs; subst. assumption.
  - rewrite Hd. intros H. injection H as <-. congruence.
Qed.

Lemma fuse_downsample_settled p m q :
  settled_downsample m -> fst (fuse_downsample p m q) = m.
Proof.
  intros Hs. rewrite fuse_downsample_fst.
  destruct (get_submodule m "downsample") as [d|] eqn:Hd; [|reflexivity].
  destruct (py_truthy_module d) eqn:Ht; [|reflexivity].
  rewrite fuse_modules_settled.
  - apply set_submodule_same. assumption.
  - constructor; [|constructor]. apply Hs; assumption.
Qed.

Lemma basic_block_fst p m q :
  fst (QuantizableBasicBlock_fuse_model p m q)
  = fst (fuse_downsample p (_fuse_modules m basic_block_groups q) q).
Proof. unfold QuantizableBasicBlock_fuse_model. rewrite fuse_bind_fst. reflexivity. Qed.

Lemma bottleneck_fst p m q :
  fst (QuantizableBottleneck_fuse_model p m q)
  = fst (fuse_downsample p (_fuse_modules m bottleneck_groups q) q).
Proof. unfold QuantizableBottleneck_fuse_model. rewrite fuse_bind_fst. reflexivity. Qed.

Lemma basic_block_snd p m q :
  snd (QuantizableBasicBlock_fuse_model p m q)
  = FuseModulesCall p basic_block_groups q true :: downsample_events p m q.
Proof.
  unfold QuantizableBasicBlock_fuse_model. rewrite fuse_bind_snd, fuse_downsample_snd.
  simpl. f_equal. unfold downsample_events.
  rewrite (downsample_truthy_shape_eq _ m); [reflexivity|]. apply shape_fuse_modules.
Qed.

Lemma bottleneck_snd p m q :
  snd (QuantizableBottleneck_fuse_model p m q)
  = FuseModulesCall p bottleneck_groups q true :: downsample_events p m q.
Proof.
  unfold QuantizableBottleneck_fuse_model. rewrite fuse_bind_snd, fuse_downsample_snd.
  simpl. f_equal. unfold downsample_events.
  rewrite (downsample_truthy_shape_eq _ m); [reflexivity|]. apply shape_fuse_modules.
Qed.

Lemma shape_block_result mtf p m q : shape (block_result mtf p m q) = shape m.
Proof. unfold block_result. rewrite shape_fuse_downsample. apply shape_fuse_modules. Qed.

Lemma leafsig_le_block_result mtf p m q : leafsig_le m (block_result mtf p m q).
Proof.
  unfold block_result. eapply leafsig_le_trans; [|apply leafsig_le_fuse_downsample].
  apply leafsig_le_fold_fuse_group.
Qed.

Lemma block_result_settles mtf p m q :
  Forall (fun g => fusable (block_result mtf p m q) g = None) (groups_of mtf)
  /\ settled_downsample (block_result mtf p m q).
Proof.
  unfold block_result. split; [|apply fuse_downsample_settles].
  pose proof (fuse_modules_settles m mtf q) as H.
  eapply Forall_impl; [exact H|]. simpl. intros g Hg.
  eapply fusable_mono; [apply leafsig_le_fuse_downsample | exact Hg].
Qed.

Lemma block_result_settled mtf p m q :
  Forall (fun g => fusable m g = None) (groups_of mtf) -> settled_downsample m ->
  block_result mtf p m q = m.
Proof.
  intros Hg Hd. unfold block_result.
  rewrite fuse_modules_settled by assumption. apply fuse_downsample_settled. assumption.
Qed.

Lemma fuse_if_block_fst p m q :
  fst (fuse_if_block p m q)
  = match m with
    | Container TQuantizableBottleneck _ => block_result bottleneck_groups p m q
    | Container TQuantizableBasicBlock _ => block_result basic_block_groups p m q
    | _ => m
    end.
Proof.
  destruct m as [k|[] children]; simpl; try reflexivity.
  - apply basic_block_fst.
  - apply bottleneck_fst.
Qed.

Lemma fuse_if_block_snd p m q : snd (fuse_if_block p m q) = block_events q (p, m).
Proof.
  destruct m as [k|[] children]; simpl; try reflexivity.
  - rewrite basic_block_snd. reflexivity.
  - rewrite bottleneck_snd. reflexivity.
Qed.

Lemma shape_fuse_if_block p m q : shape (fst (fuse_if_block p m q)) = shape m.
Proof.
  rewrite fuse_if_block_fst.
  destruct m as [k|[] children]; try reflexivity; apply shape_block_result.
Qed.

Lemma leafsig_le_fuse_if_block p m q : leafsig_le m (fst (fuse_if_block p m q)).
Proof.
  rewrite fuse_if_block_fst.
  destruct m as [k|[] children]; try apply leafsig_le_refl;
    apply leafsig_le_block_result.
Qed.

Lemma fuse_if_block_settles p m q : settled_block (fst (fuse_if_block p m q)).
Proof.
  rewrite fuse_if_block_fst.
  destruct m as [k|[] children]; try exact I.
  - pose proof (shape_block_result basic_block_groups p
                  (Container TQuantizableBasicBlock children) q) as Hs.
    pose proof (block_result_settles basic_block_groups p
                  (Container TQuantizableBasicBlock children) q) as H.
    destruct (block_result _ _ _ _) as [k'|c' ch']; simpl in Hs; [discriminate|].
    injection Hs as -> _. exact H.
  - pose proof (shape_block_result bottleneck_groups p
                  (Container TQuantizableBottleneck children) q) as Hs.
    pose proof (block_result_settles bottleneck_groups p
                  (Container TQuantizableBottleneck children) q) as H.
    destruct (block_result _ _ _ _) as [k'|c' ch']; simpl in Hs; [discriminate|].
    injection Hs as -> _. exact H.
Qed.

Lemma fuse_if_block_settled p m q : settled_block m -> fst (fuse_if_block p m q) = m.
Proof.
  rewrite fuse_if_block_fst.
  destruct m as [k|[] children]; try reflexivity; intros [Hg Hd];
    apply block_result_settled; assumption.
Qed.

Lemma block_events_shape_eq q p m m' :
  shape m = shape m' -> block_events q (p, m) = block_events q (p, m').
Proof.
  intros H. unfold block_events, downsample_events. simpl.
  rewrite (downsample_truthy_shape_eq m m' H).
  destruct m as [k|c ch], m' as [k'|c' ch']; simpl in H; try discriminate; [reflexivity|].
  injection H as -> _. reflexivity.
Qed.

(** ** The traversal *)

Lemma walk_children_fst visit p children :
  fst (walk_children visit p children)
  = map (fun nx => (fst nx, fst (visit (p ++ [fst nx]) (snd nx)))) children.
Proof.
  induction children as [|[n x] rest IH]; simpl; [reflexivity|].
  rewrite IH. reflexivity.
Qed.

Lemma walk_children_snd visit p children :
  snd (walk_children visit p children)
  = flat_map (fun nx => snd (visit (p ++ [fst nx]) (snd nx))) children.
Proof.
  induction children as [|[n x] rest IH]; simpl; [reflexivity|].
  rewrite IH, app_nil_r. reflexivity.
Qed.

Lemma fuse_walk_fst d p m q :
  fst (fuse_walk d p m q)
  = match d, fst (fuse_if_block p m q) with
    | S d', Container c children =>
        Container c (map (fun nx => (fst nx, fst (fuse_walk d' (p ++ [fst nx]) (snd nx) q)))
                         children)
    | _, m1 => m1
    end.
Proof.
  destruct d as [|d']; simpl; rewrite ?fuse_bind_fst; [reflexivity|].
  destruct (fst (fuse_if_block p m q)) as [k|c children]; [reflexivity|].
  rewrite ?fuse_bind_fst. simpl. rewrite walk_children_fst. reflexivity.
Qed.

Lemma fuse_walk_snd d p m q :
  snd (fuse_walk d p m q)
  = block_events q (p, m)
    ++ match d, fst (fuse_if_block p m q) with
       | S d', Container c children =>
           flat_map (fun nx => snd (fuse_walk d' (p ++ [fst nx]) (snd nx) q)) children
       | _, _ => []
       end.
Proof.
  destruct d as [|d']; simpl; rewrite ?fuse_bind_snd, ?fuse_if_block_snd; [reflexivity|].
  destruct (fst (fuse_if_block p m q)) as [k|c children]; [reflexivity|].
  rewrite ?fuse_bind_snd. simpl. rewrite walk_children_snd, app_nil_r. reflexivity.
Qed.

Lemma named_modules_container p c children :
  named_modules p (Container c children)
  = (p, Container c children)
    :: flat_map (fun nx => named_modules (p ++ [fst nx]) (snd nx)) children.
Proof.
  simpl. f_equal.
  induction children as [|[n x] rest IH]; simpl; [reflexivity|].
  rewrite IH. reflexivity.
Qed.

Lemma shape_fuse_walk q d : forall p m, shape (fst (fuse_walk d p m q)) = shape m.
Proof.
  induction d as [|d' IH]; intros p m; rewrite fuse_walk_fst.
  - apply shape_fuse_if_block.
  - pose proof (shape_fuse_if_block p m q) as Hs.
    destruct (fst (fuse_if_block p m q)) as [k|c children]; [assumption|].
    rewrite <- Hs. simpl. f_equal. rewrite map_map. simpl.
    apply map_ext. intros [n x]. simpl. rewrite IH. reflexivity.
Qed.

Lemma fuse_walk_leaf_inv q d p m k : fst (fuse_walk d p m q) = Leaf k -> m = Leaf k.
Proof.
  intros H. pose proof (shape_fuse_walk q d p m) as Hs. rewrite H in Hs.
  symmetry in Hs. apply shape_leaf_inv in Hs as [k0 ->].
  rewrite fuse_walk_fst in H. simpl in H. destruct d; assumption.
Qed.

(** Children with the same names and the same shapes. *)
Lemma shape_children_Forall2 (l l' : list (string * Module)) :
  map (fun nx => (fst nx, shape (snd nx))) l = map (fun nx => (fst nx, shape (snd nx))) l' ->
  Forall2 (fun a b => fst a = fst b /\ shape (snd a) = shape (snd b)) l l'.
Proof.
  revert l'. induction l as [|a rest IH]; intros [|b rest']; simpl; intros H;
    try discriminate; constructor.
  - injection H as Hn Hs _. split; assumption.
  - apply IH. injection H as _ _ H. assumption.
Qed.

Lemma flat_map_nested {X Y Z : Type} (f : Y -> list Z) (g : X -> list Y) (l : list X) :
  flat_map f (flat_map g l) = flat_map (fun x => flat_map f (g x)) l.
Proof.
  induction l as [|x rest IH]; simpl; [reflexivity|].
  rewrite flat_map_app, IH. reflexivity.
Qed.

Lemma flat_map_Forall2 {X Y Z : Type} (f : X -> list Z) (g : Y -> list Z) l l' :
  Forall2 (fun a b => f a = g b) l l' -> flat_map f l = flat_map g l'.
Proof. induction 1 as [|a b rest rest' Hab _ IH]; simpl; [reflexivity|]. rewrite Hab, IH. reflexivity. Qed.

(** The log of the traversal lists, for every module of the network in
    [modules()] order, the events of the loop body on it. *)
Lemma fuse_walk_log q d :
  forall p m m0, height m <= d -> shape m = shape m0 ->
                 snd (fuse_walk d p m q) = flat_map (block_events q) (named_modules p m0).
Proof.
  induction d as [|d' IH]; intros p m m0 Hh Hs; rewrite fuse_walk_snd.
  - destruct m as [k|c children]; simpl in Hh; [|lia].
    simpl in Hs. symmetry in Hs. apply shape_leaf_inv in Hs as [k0 ->].
    reflexivity.
  - pose proof (shape_fuse_if_block p m q) as Hb.
    pose proof (height_shape_eq _ _ Hb) as Hhb.
    rewrite (block_events_shape_eq q p m m0 Hs).
    destruct (fst (fuse_if_block p m q)) as [k|c children].
    + rewrite Hs in Hb. simpl in Hb. symmetry in Hb.
      apply shape_leaf_inv in Hb as [k0 ->]. simpl. rewrite ?app_nil_r. reflexivity.
    + rewrite Hs in Hb. simpl in Hb. symmetry in Hb.
      apply shape_container_inv in Hb as (children0 & -> & Hc).
      rewrite named_modules_container.
      change (flat_map (block_events q) (?a :: ?l))
        with (block_events q a ++ flat_map (block_events q) l).
      f_equal. rewrite flat_map_nested.
      apply shape_children_Forall2 in Hc.
      assert (Hall : Forall (fun nx => height (snd nx) <= d') children).
      { apply Forall_forall. intros nx Hin. apply list_elem_of_In in Hin.
        pose proof (height_child c children nx Hin). lia. }
      apply flat_map_Forall2.
      clear Hhb Hh Hs. induction Hc as [|a b rest rest0 [Hn Hsh] _ IHc]; constructor.
      * inversion Hall; subst. rewrite <- Hn. apply IH; assumption.
      * apply IHc. inversion Hall; subst. assumption.
Qed.

Lemma lookup_child_map_named (F : string -> Module -> Module) n children :
  lookup_child n (map (fun nx => (fst nx, F (fst nx) (snd nx))) children)
  = option_map (F n) (lookup_child n children).
Proof.
  induction children as [|[a y] rest IH]; simpl; [reflexivity|].
  destruct (String.eqb a n) eqn:E; [|exact IH].
  apply String.eqb_eq in E. subst a. reflexivity.
Qed.

Lemma leafsig_le_map_children (F : string -> Module -> Module) c children :
  (forall n x k, F n x = Leaf k -> x = Leaf k) ->
  leafsig_le (Container c children)
             (Container c (map (fun nx => (fst nx, F (fst nx) (snd nx))) children)).
Proof.
  intros HF n k. simpl. rewrite lookup_child_map_named.
  destruct (lookup_child n children) as [x|]; simpl; [|discriminate].
  intros H _. injection H as H. apply HF in H. subst x. reflexivity.
Qed.

Lemma leafsig_le_fuse_walk q d p m : leafsig_le m (fst (fuse_walk d p m q)).
Proof.
  rewrite fuse_walk_fst.
  pose proof (leafsig_le_fuse_if_block p m q) as Hb.
  destruct d as [|d']; [assumption|].
  destruct (fst (fuse_if_block p m q)) as [k|c children]; [assumption|].
  eapply leafsig_le_trans; [exact Hb|].
  apply (leafsig_le_map_children
           (fun n x => fst (fuse_walk d' (p ++ [n]) x q))).
  intros n x k. apply fuse_walk_leaf_inv.
Qed.

(** Walking the sub-modules of a settled block leaves it settled. *)
Lemma settled_block_walk_children q d p c children :
  settled_block (Container c children) ->
  settled_block
    (Container c (map (fun nx => (fst nx, fst (fuse_walk d (p ++ [fst nx]) (snd nx) q)))
                      children)).
Proof.
  set (F := fun n x => fst (fuse_walk d (p ++ [n]) x q)).
  change (map _ children) with (map (fun nx => (fst nx, F (fst nx) (snd nx))) children).
  assert (Hle : leafsig_le (Container c children)
                  (Container c (map (fun nx => (fst nx, F (fst nx) (snd nx))) children))).
  { apply leafsig_le_map_children. intros n x k. apply fuse_walk_leaf_inv. }
  assert (Hd : settled_downsample (Container c children) ->
               settled_downsample
                 (Container c (map (fun nx => (fst nx, F (fst nx) (snd nx))) children))).
  { intros Hs d'. simpl. rewrite lookup_child_map_named.
    destruct (lookup_child "downsample" children) as [d0|] eqn:Hd0; simpl; [|discriminate].
    intros H Ht. injection H as <-. unfold F in *.
    eapply fusable_mono; [apply leafsig_le_fuse_walk|].
    apply Hs; [exact Hd0|].
    rewrite <- Ht. apply py_truthy_shape_eq. symmetry. apply shape_fuse_walk. }
  destruct c; simpl; try (intros _; exact I); intros [Hg Hs];
    (split; [|apply Hd; exact Hs]);
    (eapply Forall_impl; [exact Hg|]); simpl; intros g Hfg;
    exact (fusable_mono _ _ g Hle Hfg).
Qed.

(** A second traversal changes nothing. *)
Lemma fuse_walk_idempotent q q' d :
  forall p p' m, height m <= d ->
                 fst (fuse_walk d p' (fst (fuse_walk d p m q)) q') = fst (fuse_walk d p m q).
Proof.
  induction d as [|d' IH]; intros p p' m Hh.
  - rewrite (fuse_walk_fst 0 p m q). rewrite fuse_walk_fst.
    assert (H : fst (fuse_if_block p' (fst (fuse_if_block p m q)) q')
                = fst (fuse_if_block p m q))
      by apply fuse_if_block_settled, fuse_if_block_settles.
    rewrite H. destruct (fst (fuse_if_block p m q)); reflexivity.
  - rewrite (fuse_walk_fst (S d') p m q).
    pose proof (fuse_if_block_settles p m q) as Hset.
    pose proof (height_shape_eq _ _ (shape_fuse_if_block p m q)) as Hhb.
    destruct (fst (fuse_if_block p m q)) as [k|c children].
    + rewrite fuse_walk_fst. reflexivity.
    + rewrite fuse_walk_fst.
      rewrite fuse_if_block_settled
        by (apply settled_block_walk_children; exact Hset).
      f_equal. rewrite map_map. simpl. apply map_ext_in. intros [n x] Hin. simpl.
      f_equal. apply IH.
      pose proof (height_child c children (n, x) Hin). simpl in *. lia.
Qed.

Lemma stem_settled_after_walk q d mtf m :
  Forall (fun g => fusable m g = None) (groups_of mtf) ->
  Forall (fun g => fusable (fst (fuse_walk d [] m q)) g = None) (groups_of mtf).
Proof.
  intros H. eapply Forall_impl; [exact H|]. simpl. intros g Hg.
  eapply fusable_mono; [apply leafsig_le_fuse_walk | exact Hg].
Qed.

Lemma fuse_model_fst self q :
  fst (QuantizableResNet_fuse_model self q)
  = fst (fuse_walk (height self) []
                   (_fuse_modules self (OneGroup ["conv1"; "bn1"; "relu"]) q) q).
Proof.
  unfold QuantizableResNet_fuse_model. rewrite fuse_bind_fst. simpl fst.
  rewrite (height_shape_eq _ self (shape_fuse_modules _ _ _)). reflexivity.
Qed.

Lemma fuse_model_snd self q :
  snd (QuantizableResNet_fuse_model self q)
  = FuseModulesCall [] (OneGroup ["conv1"; "bn1"; "relu"]) q true
    :: flat_map (block_events q) (named_modules [] self).
Proof.
  unfold QuantizableResNet_fuse_model. rewrite fuse_bind_snd. simpl.
  f_equal. apply fuse_walk_log; [lia | apply shape_fuse_modules].
Qed.

Lemma shape_fuse_model self q : shape (fst (QuantizableResNet_fuse_model self q)) = shape self.
Proof. rewrite fuse_model_fst, shape_fuse_walk. apply shape_fuse_modules. Qed.

Lemma fuse_model_twice self q q' :
  fst (QuantizableResNet_fuse_model (fst (QuantizableResNet_fuse_model self q)) q')
  = fst (QuantizableResNet_fuse_model self q).
Proof.
  rewrite (fuse_model_fst _ q').
  rewrite (height_shape_eq _ self (shape_fuse_model self q)).
  rewrite fuse_model_fst.
  set (stem := OneGroup ["conv1"; "bn1"; "relu"]).
  rewrite (fuse_modules_settled _ stem q').
  - apply fuse_walk_idempotent.
    rewrite (height_shape_eq _ self (shape_fuse_modules _ _ _)). lia.
  - apply stem_settled_after_walk. apply fuse_modules_settles.
Qed.

(** Any depth bound at least the height of the tree gives the same
    traversal: the bound the network wrapper passes never cuts it short. *)
Lemma fuse_walk_depth_irrelevant q d :
  forall d' p m, height m <= d -> height m <= d' ->
                 fuse_walk d p m q = fuse_walk d' p m q.
Proof.
  intros d' p m Hd Hd'.
  rewrite (surjective_pairing (fuse_walk d p m q)),
    (surjective_pairing (fuse_walk d' p m q)).
  f_equal.
  - revert d' p m Hd Hd'.
    induction d as [|n IH]; intros d' p m Hd Hd'; rewrite !fuse_walk_fst.
    + destruct m as [k|c children]; simpl in Hd; [|lia].
      simpl. destruct d'; reflexivity.
    + pose proof (height_shape_eq _ _ (shape_fuse_if_block p m q)) as Hh.
      destruct (fst (fuse_if_block p m q)) as [k|c children]; [destruct d'; reflexivity|].
      destruct d' as [|n']; [simpl in Hh; lia|].
      f_equal. apply map_ext_in. intros [name x] Hin. simpl. f_equal.
      pose proof (height_child c children (name, x) Hin). simpl in *.
      apply IH; lia.
  - rewrite (fuse_walk_log q d p m m), (fuse_walk_log q d' p m m); auto.
Qed.

(* ===================================================================== *)
(** * What a block holds after its own fuse_model                         *)
(* ===================================================================== *)

Lemma get_fold_set_identity names m n :
  ~ In n names ->
  get_submodule (fold_left (fun acc n => set_submodule acc n (Leaf Identity)) names m) n
  = get_submodule m n.
Proof.
  revert m. induction names as [|a rest IH]; simpl; intros m Hn; [reflexivity|].
  rewrite IH by tauto. rewrite get_set_submodule.
  destruct (String.eqb a n) eqn:E; [|reflexivity].
  apply String.eqb_eq in E. subst a. tauto.
Qed.

Lemma get_fold_set_identity_in names m n :
  In n names ->
  (forall n', In n' names -> exists x, get_submodule m n' = Some x) ->
  get_submodule (fold_left (fun acc n => set_submodule acc n (Leaf Identity)) names m) n
  = Some (Leaf Identity).
Proof.
  revert m. induction names as [|a rest IH]; simpl; intros m Hn Hpresent; [destruct Hn|].
  destruct (in_dec string_dec n rest) as [Hin|Hout].
  - apply IH; [exact Hin|]. intros n' Hn'.
    rewrite get_set_submodule. destruct (String.eqb a n').
    + destruct (Hpresent a (or_introl eq_refl)) as [x ->]. eauto.
    + apply Hpresent. right. exact Hn'.
  - destruct Hn as [->|Hn]; [|contradiction].
    rewrite get_fold_set_identity by exact Hout.
    rewrite get_set_submodule, String.eqb_refl.
    destruct (Hpresent n (or_introl eq_refl)) as [x ->]. reflexivity.
Qed.

Lemma leaf_classes_present m names ks :
  leaf_classes m names = Some ks ->
  forall n, In n names -> exists x, get_submodule m n = Some x.
Proof.
  revert ks. induction names as [|a rest IH]; intros ks; simpl; [intros _ n []|].
  destruct (get_submodule m a) as [[k|c ch]|] eqn:Ha; try discriminate.
  destruct (leaf_classes m rest) as [ks'|] eqn:Hr; try discriminate.
  intros _ n [<-|Hn]; [eauto | exact (IH ks' eq_refl n Hn)].
Qed.

Lemma leaf_classes_ext m m' names :
  (forall n, In n names -> get_submodule m' n = get_submodule m n) ->
  leaf_classes m' names = leaf_classes m names.
Proof.
  induction names as [|a rest IH]; simpl; intros H; [reflexivity|].
  rewrite (H a (or_introl eq_refl)), IH; [reflexivity|].
  intros n Hn. apply H. right. exact Hn.
Qed.

Lemma fusable_ext m m' names :
  (forall n, In n names -> get_submodule m' n = get_submodule m n) ->
  fusable m' names = fusable m names.
Proof. intros H. unfold fusable. rewrite (leaf_classes_ext m m' names H). reflexivity. Qed.

(** A group leaves every name outside it as it was. *)
Lemma get_fuse_group_other q m names n :
  ~ In n names -> get_submodule (fuse_group q m names) n = get_submodule m n.
Proof.
  unfold fuse_group. destruct names as [|n0 rest]; [reflexivity|].
  destruct (fusable m (n0 :: rest)); [|reflexivity].
  intros Hn. rewrite get_fold_set_identity by (simpl in Hn; tauto).
  rewrite get_set_submodule. destruct (String.eqb n0 n) eqn:E; [|reflexivity].
  apply String.eqb_eq in E. subst n0. simpl in Hn. tauto.
Qed.

(** A fusable group is held afterwards as one fused unit under its first
    name, with identities under the other names. *)
Lemma fuse_group_fused q m n0 rest kind :
  fusable m (n0 :: rest) = Some kind -> ~ In n0 rest ->
  get_submodule (fuse_group q m (n0 :: rest)) n0 = Some (Leaf (FusedUnit q kind))
  /\ Forall (fun n => get_submodule (fuse_group q m (n0 :: rest)) n = Some (Leaf Identity))
            rest.
Proof.
  intros Hf Hn0. unfold fuse_group. rewrite Hf.
  unfold fusable in Hf.
  destruct (leaf_classes m (n0 :: rest)) as [ks|] eqn:Hl; [|discriminate].
  pose proof (leaf_classes_present m _ ks Hl) as Hpresent.
  split.
  - rewrite get_fold_set_identity by exact Hn0.
    rewrite get_set_submodule, String.eqb_refl.
    destruct (Hpresent n0 (or_introl eq_refl)) as [x ->]. reflexivity.
  - apply List.Forall_forall. intros n Hn.
    apply get_fold_set_identity_in; [exact Hn|].
    intros n' Hn'. rewrite get_set_submodule.
    destruct (String.eqb n0 n').
    + destruct (Hpresent n0 (or_introl eq_refl)) as [x ->]. eauto.
    + apply Hpresent. right. exact Hn'.
Qed.

Lemma group_held_ext q self self' result result' names :
  (forall n, In n names -> get_submodule self' n = get_submodule self n) ->
  (forall n, In n names -> get_submodule result' n = get_submodule result n) ->
  group_held q self result names -> group_held q self' result' names.
Proof.
  intros Hs Hr. pose proof (fusable_ext self self' names Hs) as Hf.
  unfold group_held. destruct names as [|n0 rest].
  - intros _. constructor.
  - rewrite Hf. destruct (fusable self (n0 :: rest)).
    + intros [H0 Hrest]. split.
      * rewrite Hr by (left; reflexivity). exact H0.
      * rewrite List.Forall_forall in *. intros n Hn.
        rewrite Hr by (right; exact Hn). apply Hrest, Hn.
    + rewrite !List.Forall_forall. intros H n Hn.
      rewrite Hr, Hs by exact Hn. apply H, Hn.
Qed.

Lemma fuse_group_held q m names :
  List.NoDup names -> group_held q m (fuse_group q m names) names.
Proof.
  intros Hnd. unfold group_held. destruct names as [|n0 rest]; [constructor|].
  destruct (fusable m (n0 :: rest)) as [kind|] eqn:Hf.
  - apply fuse_group_fused; [exact Hf|]. inversion Hnd. assumption.
  - unfold fuse_group. rewrite Hf. apply List.Forall_forall. reflexivity.
Qed.

Lemma get_fold_fuse_group_other q groups m n :
  Forall (fun g => ~ In n g) groups ->
  get_submodule (fold_left (fuse_group q) groups m) n = get_submodule m n.
Proof.
  revert m. induction groups as [|g gs IH]; intros m H; simpl; [reflexivity|].
  inversion H as [|? ? Hg Hgs]; subst.
  rewrite IH by exact Hgs. apply get_fuse_group_other, Hg.
Qed.

(** Groups that share no name are fused independently of one another. *)
Lemma fold_fuse_group_held q groups :
  forall m,
    ForallOrdPairs (fun g g' => forall n, In n g -> ~ In n g') groups ->
    Forall (fun g => List.NoDup g) groups ->
    Forall (group_held q m (fold_left (fuse_group q) groups m)) groups.
Proof.
  induction groups as [|g gs IH]; intros m Hdis Hnd; simpl; [constructor|].
  inversion Hdis as [|? ? Hg Hgs]; subst.
  inversion Hnd as [|? ? Hndg Hndgs]; subst.
  constructor.
  - apply (group_held_ext q m m (fuse_group q m g)); [reflexivity| |].
    + intros n Hn. apply get_fold_fuse_group_other.
      rewrite List.Forall_forall in *. intros g' Hg'. apply (Hg g' Hg' n Hn).
    + apply fuse_group_held, Hndg.
  - specialize (IH (fuse_group q m g) Hgs Hndgs).
    rewrite List.Forall_forall in *. intros g' Hg'.
    refine (group_held_ext q (fuse_group q m g) m _ _ g' _ (fun _ _ => eq_refl)
                           (IH g' Hg')).
    intros n Hn. symmetry. apply get_fuse_group_other.
    intros Hng. exact (Hg g' Hg' n Hng Hn).
Qed.

Lemma block_groups_disjoint :
  ForallOrdPairs (fun g g' : list string => forall n, In n g -> ~ In n g')
                 (groups_of basic_block_groups)
  /\ Forall (fun g : list string => List.NoDup g) (groups_of basic_block_groups)
  /\ ForallOrdPairs (fun g g' : list string => forall n, In n g -> ~ In n g')
                    (groups_of bottleneck_groups)
  /\ Forall (fun g : list string => List.NoDup g) (groups_of bottleneck_groups)
  /\ Forall (fun g : list string => ~ In "downsample" g)
            (groups_of basic_block_groups ++ groups_of bottleneck_groups).
Proof.
  assert (Hdis : forall g g' : list string,
             (forallb (fun n => negb (existsb (String.eqb n) g')) g) = true ->
             forall n, In n g -> ~ In n g').
  { intros g g' Hb n Hn Hn'. rewrite forallb_forall in Hb. specialize (Hb n Hn).
    apply negb_true_iff in Hb.
    assert (Ht : existsb (String.eqb n) g' = true)
      by (apply existsb_exists; exists n; split; [exact Hn' | apply String.eqb_refl]).
    congruence. }
  assert (Hnd : forall g : list string,
             (fix nodup (l : list string) : bool :=
                match l with
                | [] => true
                | a :: r => negb (existsb (String.eqb a) r) && nodup r
                end) g = true -> List.NoDup g).
  { induction g as [|a r IH]; intros Hb; [constructor|].
    apply andb_true_iff in Hb as [Ha Hr]. constructor; [|apply IH, Hr].
    intros Hin. apply negb_true_iff in Ha.
    assert (Ht : existsb (String.eqb a) r = true)
      by (apply existsb_exists; exists a; split; [exact Hin | apply String.eqb_refl]).
    congruence. }
  repeat split;
    repeat first [apply FOP_nil | apply FOP_cons | apply List.Forall_nil
                 | apply List.Forall_cons];
    first [ apply Hdis; reflexivity
          | apply Hnd; reflexivity
          | apply (Hdis ["downsample"]); [reflexivity | left; reflexivity] ].
Qed.

(** The block after [fuse_model], for either adapter: the fused groups, the
    downsample path, and everything else as it was. *)
Lemma block_result_state mtf p m q :
  ForallOrdPairs (fun g g' : list string => forall n, In n g -> ~ In n g') (groups_of mtf) ->
  Forall (fun g : list string => List.NoDup g) (groups_of mtf) ->
  Forall (fun g : list string => ~ In "downsample" g) (groups_of mtf) ->
  block_result mtf p m q
  = (let fused := _fuse_modules m mtf q in
     match get_submodule m "downsample" with
     | Some d => if py_truthy_module d
                 then set_submodule fused "downsample"
                                    (_fuse_modules d (OneGroup ["0"; "1"]) q)
                 else fused
     | None => fused
     end)
  /\ Forall (group_held q m (block_result mtf p m q)) (groups_of mtf)
  /\ get_submodule (block_result mtf p m q) "downsample"
     = match get_submodule m "downsample" with
       | Some d => Some (if py_truthy_module d
                         then _fuse_modules d (OneGroup ["0"; "1"]) q
                         else d)
       | None => None
       end
  /\ (forall n, n <> "downsample" -> Forall (fun g => ~ In n g) (groups_of mtf) ->
                get_submodule (block_result mtf p m q) n = get_submodule m n).
Proof.
  intros Hdis Hnd Hds.
  assert (Hd : get_submodule (_fuse_modules m mtf q) "downsample"
               = get_submodule m "downsample")
    by (apply get_fold_fuse_group_other, Hds).
  assert (Heq : block_result mtf p m q
                = match get_submodule m "downsample" with
                  | Some d => if py_truthy_module d
                              then set_submodule (_fuse_modules m mtf q) "downsample"
                                                 (_fuse_modules d (OneGroup ["0"; "1"]) q)
                              else _fuse_modules m mtf q
                  | None => _fuse_modules m mtf q
                  end)
    by (unfold block_result; rewrite fuse_downsample_fst, Hd; reflexivity).
  assert (Hother : forall n, n <> "downsample" ->
                             get_submodule (block_result mtf p m q) n
                             = get_submodule (_fuse_modules m mtf q) n).
  { intros n Hn. rewrite Heq.
    destruct (get_submodule m "downsample") as [d|]; [|reflexivity].
    destruct (py_truthy_module d); [|reflexivity].
    rewrite get_set_submodule.
    destruct (String.eqb "downsample" n) eqn:E; [|reflexivity].
    apply String.eqb_eq in E. congruence. }
  split; [exact Heq|]. split; [|split].
  - pose proof (fold_fuse_group_held q (groups_of mtf) m Hdis Hnd) as Hheld.
    rewrite List.Forall_forall in *. intros g Hg.
    apply (group_held_ext q m m (_fuse_modules m mtf q)); [reflexivity| |apply Hheld, Hg].
    intros n Hn. apply Hother. intros ->. exact (Hds g Hg Hn).
  - rewrite Heq. destruct (get_submodule m "downsample") as [d|] eqn:Hm.
    + destruct (py_truthy_module d).
      * rewrite get_set_submodule, String.eqb_refl, Hd. reflexivity.
      * exact Hd.
    + exact Hd.
  - intros n Hn Hout. rewrite Hother by exact Hn.
    apply get_fold_fuse_group_other, Hout.
Qed.


(* ===================================================================== *)
(** * Fusion: what is submitted, on which modules, and idempotence        *)
(* ===================================================================== *)

Lemma downsample_truthy_children self d x :
  get_submodule self "downsample" = Some d -> get_submodule d "0" = Some x ->
  downsample_truthy self = true.
Proof.
  unfold downsample_truthy. intros -> Hx.
  destruct d as [k|c children]; simpl in *; [reflexivity|].
  destruct children; [discriminate|]. simpl. destruct (has_len c); reflexivity.
Qed.

(** C7.  The narrow block submits the groups (conv1, bn1, relu) and
    (conv2, bn2) on itself, the bottleneck block (conv1, bn1, relu1),
    (conv2, bn2, relu2) and (conv3, bn3); each then submits the pair
    ("0", "1") on its downsample path exactly when the downsample attribute
    is true in Python's sense, which it is whenever the path holds its
    convolution and is not when there is no path.  Every submission is
    in place, and the block is mutated: after the call the block is the one
    on which the groups and then the downsample pair were fused; a group
    that was fusable is held as one fused unit, carrying the flag, under its
    first name, with identities under its other names; a group that was not
    is as before; the downsample attribute is the fused path when it is
    true; every other sub-module is untouched, and the block keeps its
    sub-module table. *)
Theorem block_fuse_model_groups (p : path) (self : Module) (is_qat : option bool) :
  let mutated (result : Module) (groups : list (list string)) : Prop :=
    result
    = (let fused := _fuse_modules self (Groups groups) is_qat in
       match get_submodule self "downsample" with
       | Some d => if py_truthy_module d
                   then set_submodule fused "downsample"
                                      (_fuse_modules d (OneGroup ["0"; "1"]) is_qat)
                   else fused
       | None => fused
       end)
    /\ Forall (group_held is_qat self result) groups
    /\ get_submodule result "downsample"
       = match get_submodule self "downsample" with
         | Some d => Some (if py_truthy_module d
                           then _fuse_modules d (OneGroup ["0"; "1"]) is_qat
                           else d)
         | None => None
         end
    /\ (forall n, n <> "downsample" -> Forall (fun g => ~ In n g) groups ->
                  get_submodule result n = get_submodule self n) in
  snd (QuantizableBasicBlock_fuse_model p self is_qat)
  = FuseModulesCall p (Groups [["conv1"; "bn1"; "relu"]; ["conv2"; "bn2"]]) is_qat true
    :: (if downsample_truthy self
        then [FuseModulesCall (p ++ ["downsample"]) (OneGroup ["0"; "1"]) is_qat true]
        else [])
  /\ snd (QuantizableBottleneck_fuse_model p self is_qat)
     = FuseModulesCall p (Groups [["conv1"; "bn1"; "relu1"]; ["conv2"; "bn2"; "relu2"];
                                  ["conv3"; "bn3"]]) is_qat true
       :: (if downsample_truthy self
           then [FuseModulesCall (p ++ ["downsample"]) (OneGroup ["0"; "1"]) is_qat true]
           else [])
  /\ (get_submodule self "downsample" = None -> downsample_truthy self = false)
  /\ (forall d conv, get_submodule self "downsample" = Some d ->
                     get_submodule d "0" = Some conv -> downsample_truthy self = true)
  /\ shape (fst (QuantizableBasicBlock_fuse_model p self is_qat)) = shape self
  /\ shape (fst (QuantizableBottleneck_fuse_model p self is_qat)) = shape self
  /\ mutated (fst (QuantizableBasicBlock_fuse_model p self is_qat))
             [["conv1"; "bn1"; "relu"]; ["conv2"; "bn2"]]
  /\ mutated (fst (QuantizableBottleneck_fuse_model p self is_qat))
             [["conv1"; "bn1"; "relu1"]; ["conv2"; "bn2"; "relu2"]; ["conv3"; "bn3"]].
Proof.
  cbv zeta.
  destruct block_groups_disjoint as (Hd1 & Hn1 & Hd2 & Hn2 & Hds).
  apply Forall_app in Hds as [Hds1 Hds2].
  split; [apply basic_block_snd|].
  split; [apply bottleneck_snd|].
  split; [unfold downsample_truthy; intros ->; reflexivity|].
  split; [intros d conv; apply downsample_truthy_children|].
  split; [rewrite basic_block_fst; apply shape_block_result|].
  split; [rewrite bottleneck_fst; apply shape_block_result|].
  split.
  - rewrite basic_block_fst.
    exact (block_result_state basic_block_groups p self is_qat Hd1 Hn1 Hds1).
  - rewrite bottleneck_fst.
    exact (block_result_state bottleneck_groups p self is_qat Hd2 Hn2 Hds2).
Qed.

(** On a block with a (conv, bn) downsample path the three groups of the
    narrow block are fused, in place. *)
Example basic_block_fuse_sample :
  QuantizableBasicBlock_fuse_model ["layer1"; "0"]
    (sample_basic_block (Some sample_downsample)) (Some false)
  = (Container TQuantizableBasicBlock
       [("conv1", Leaf (FusedUnit (Some false) ConvBnReLU)); ("bn1", Leaf Identity);
        ("relu", Leaf Identity);
        ("conv2", Leaf (FusedUnit (Some false) ConvBn)); ("bn2", Leaf Identity);
        ("downsample",
         Container TSequential
           [("0", Leaf (FusedUnit (Some false) ConvBn)); ("1", Leaf Identity)]);
        ("add_relu", Leaf FloatFunctional)],
     [FuseModulesCall ["layer1"; "0"]
        (Groups [["conv1"; "bn1"; "relu"]; ["conv2"; "bn2"]]) (Some false) true;
      FuseModulesCall ["layer1"; "0"; "downsample"] (OneGroup ["0"; "1"]) (Some false) true]).
Proof. reflexivity. Qed.

(** A downsample attribute that is an empty container is false in
    [if self.downsample:], so nothing is submitted for it. *)
Example basic_block_fuse_empty_downsample :
  get_submodule sample_block_empty_downsample "downsample" = Some (Container TSequential [])
  /\ snd (QuantizableBasicBlock_fuse_model [] sample_block_empty_downsample None)
     = [FuseModulesCall [] (Groups [["conv1"; "bn1"; "relu"]; ["conv2"; "bn2"]]) None true].
Proof. split; reflexivity. Qed.


(** On the sample network the two blocks of the first stage are fused and
    the instance of the subclass in the second stage is left alone. *)
Example fuse_model_sample_log :
  snd (QuantizableResNet_fuse_model (sample_network (sample_basic_block None)) None)
  = [FuseModulesCall [] (OneGroup ["conv1"; "bn1"; "relu"]) None true;
     BlockFuseModelCall ["layer1"; "0"] None;
     FuseModulesCall ["layer1"; "0"]
       (Groups [["conv1"; "bn1"; "relu"]; ["conv2"; "bn2"]]) None true;
     BlockFuseModelCall ["layer1"; "1"] None;
     FuseModulesCall ["layer1"; "1"]
       (Groups [["conv1"; "bn1"; "relu1"]; ["conv2"; "bn2"; "relu2"]; ["conv3"; "bn3"]])
       None true;
     FuseModulesCall ["layer1"; "1"; "downsample"] (OneGroup ["0"; "1"]) None true].
Proof. reflexivity. Qed.

Example fuse_model_sample_subclass_untouched :
  isinstance_block sample_subclass_block = true
  /\ is_exact_block sample_subclass_block = false
  /\ get_submodule
       (fst (QuantizableResNet_fuse_model (sample_network (sample_basic_block None)) None))
       "layer2"
     = Some (Container TSequential [("0", sample_subclass_block)]).
Proof. repeat split; reflexivity. Qed.

(** C4.  A second [fuse_model] leaves the network as the first one left it,
    so the number of fused units does not change; it also submits the same
    groups again, none of which is fusable any more.  In the model no
    submission raises, so neither call does. *)
Theorem fuse_model_idempotent (self : Module) (is_qat : option bool) :
  let once := QuantizableResNet_fuse_model self is_qat in
  let twice := QuantizableResNet_fuse_model (fst once) is_qat in
  fst twice = fst once
  /\ fused_unit_count (fst twice) = fused_unit_count (fst once)
  /\ snd twice = snd once.
Proof.
  cbv zeta.
  pose proof (fuse_model_twice self is_qat is_qat) as H.
  split; [exact H|]. split; [rewrite H; reflexivity|].
  rewrite !fuse_model_snd. f_equal.
  pose proof (shape_fuse_model self is_qat) as Hs.
  rewrite <- (fuse_walk_log is_qat (height self) []
                (fst (QuantizableResNet_fuse_model self is_qat))
                (fst (QuantizableResNet_fuse_model self is_qat)));
    [|rewrite (height_shape_eq _ _ Hs); lia | reflexivity].
  apply fuse_walk_log; [rewrite (height_shape_eq _ _ Hs); lia | exact Hs].
Qed.

(** The first call does fuse: eight units on the sample network (one for
    the stem, three for the narrow block, four for the bottleneck block),
    and eight after a second call. *)
Example fuse_model_sample_count :
  let net := sample_network (sample_basic_block (Some sample_downsample)) in
  fused_unit_count net = 0
  /\ fused_unit_count (fst (QuantizableResNet_fuse_model net None)) = 8
  /\ fused_unit_count
       (fst (QuantizableResNet_fuse_model
               (fst (QuantizableResNet_fuse_model net None)) None)) = 8.
Proof. repeat split; reflexivity. Qed.

(* ===================================================================== *)
(** * Forward passes                                                      *)
(* ===================================================================== *)

(** C9.  A quantizable block built by its constructor on a base block whose
    activation is a ReLU computes what the base block computes: the fused
    add-then-activate operator gives relu(out + identity), the separate
    addition and activation of the base block give the same. *)
Theorem quantizable_forward_refines_base `{ops : TensorOps}
        (narrow : BasicBlock) (wide : Bottleneck) (x : Tensor)
        (Hnarrow : forall t, bb_relu narrow t = torch_relu t)
        (Hwide : forall t, bn_relu wide t = torch_relu t) :
  QuantizableBasicBlock_forward (QuantizableBasicBlock_init narrow) x
  = BasicBlock_forward narrow x
  /\ QuantizableBottleneck_forward (QuantizableBottleneck_init wide) x
     = Bottleneck_forward wide x.
Proof.
  split.
  - unfold QuantizableBasicBlock_forward, BasicBlock_forward, QuantizableBasicBlock_init,
      FloatFunctional_add_relu. simpl. rewrite !Hnarrow. reflexivity.
  - unfold QuantizableBottleneck_forward, Bottleneck_forward, QuantizableBottleneck_init,
      FloatFunctional_add_relu, nn_ReLU. simpl. rewrite !Hwide. reflexivity.
Qed.

Lemma quantizable_forward_refines_base_witness :
  (forall t, bb_relu sample_float_basic_block t = @torch_relu Z_tensors t)
  /\ (forall t, bn_relu sample_float_bottleneck t = @torch_relu Z_tensors t)
  /\ @QuantizableBasicBlock_forward Z_tensors
       (QuantizableBasicBlock_init sample_float_basic_block) 5%Z
     = @BasicBlock_forward Z_tensors sample_float_basic_block 5%Z
  /\ @QuantizableBottleneck_forward Z_tensors
       (QuantizableBottleneck_init sample_float_bottleneck) 5%Z
     = @Bottleneck_forward Z_tensors sample_float_bottleneck 5%Z.
Proof.
  split; [reflexivity|]. split; [reflexivity|].
  apply (@quantizable_forward_refines_base Z_tensors
           sample_float_basic_block sample_float_bottleneck 5%Z);
    reflexivity.
Defined.

(** Once a narrow block is fused its [relu] attribute is an identity; the
    base forward pass would then lose the final activation, the quantizable
    one keeps it. *)
Example forward_differs_without_relu :
  @QuantizableBasicBlock_forward Z_tensors
    (QuantizableBasicBlock_init sample_fused_basic_block) (-3)%Z = 0%Z
  /\ @BasicBlock_forward Z_tensors sample_fused_basic_block (-3)%Z = (-6)%Z.
Proof. split; reflexivity. Qed.


(* ===================================================================== *)
(** * Registries and the legacy flag                                      *)
(* ===================================================================== *)

Section FactoryFacts.
Context {imports : Imports}.

Lemma run_bind_lift_ok {A B} (a : A) (f : A -> Run B) : run_bind (lift (Ok a)) f = f a.
Proof. unfold run_bind, lift. destruct (f a). reflexivity. Qed.

Lemma run_bind_lift_raise {A B} (e : exn) (f : A -> Run B) :
  run_bind (lift (Raise e)) f = ([], Raise e).
Proof. reflexivity. Qed.

Lemma canonical_name_head n v rest : canonical_name v ((n, v) :: rest) = Some n.
Proof. simpl. rewrite decide_True; reflexivity. Qed.

Lemma canonical_name_skip n v v' rest :
  v' <> v -> canonical_name v ((n, v') :: rest) = canonical_name v rest.
Proof. intros Hne. simpl. rewrite decide_False; [reflexivity | assumption]. Qed.

Lemma ResNet50_versions_differ :
  ResNet50_IMAGENET1K_FBGEMM_V1 <> ResNet50_IMAGENET1K_FBGEMM_V2.
Proof. intros Heq. apply (f_equal url) in Heq. discriminate Heq. Qed.

Lemma ResNeXt101_32X8D_versions_differ :
  ResNeXt101_32X8D_IMAGENET1K_FBGEMM_V1 <> ResNeXt101_32X8D_IMAGENET1K_FBGEMM_V2.
Proof. intros Heq. apply (f_equal url) in Heq. discriminate Heq. Qed.

(** The members of the quantized registries, by name. *)
Lemma ResNet18_QuantizedWeights_members :
  enum_member ResNet18_QuantizedWeights "IMAGENET1K_FBGEMM_V1"
  = Some {| w_enum := "ResNet18_QuantizedWeights"; w_name := "IMAGENET1K_FBGEMM_V1";
            w_value := ResNet18_IMAGENET1K_FBGEMM_V1 |}
  /\ enum_member ResNet18_QuantizedWeights "DEFAULT"
     = enum_member ResNet18_QuantizedWeights "IMAGENET1K_FBGEMM_V1".
Proof.
  unfold enum_member. simpl enum_table. simpl table_lookup. cbv beta iota.
  rewrite canonical_name_head. split; reflexivity.
Qed.

Lemma ResNet50_QuantizedWeights_members :
  enum_member ResNet50_QuantizedWeights "IMAGENET1K_FBGEMM_V1"
  = Some {| w_enum := "ResNet50_QuantizedWeights"; w_name := "IMAGENET1K_FBGEMM_V1";
            w_value := ResNet50_IMAGENET1K_FBGEMM_V1 |}
  /\ enum_member ResNet50_QuantizedWeights "IMAGENET1K_FBGEMM_V2"
     = Some {| w_enum := "ResNet50_QuantizedWeights"; w_name := "IMAGENET1K_FBGEMM_V2";
               w_value := ResNet50_IMAGENET1K_FBGEMM_V2 |}
  /\ enum_member ResNet50_QuantizedWeights "DEFAULT"
     = enum_member ResNet50_QuantizedWeights "IMAGENET1K_FBGEMM_V2".
Proof.
  unfold enum_member. simpl enum_table. simpl table_lookup. cbv beta iota.
  rewrite canonical_name_head.
  rewrite (canonical_name_skip _ _ _ _ ResNet50_versions_differ), canonical_name_head.
  repeat split; reflexivity.
Qed.

Lemma ResNeXt101_32X8D_QuantizedWeights_members :
  enum_member ResNeXt101_32X8D_QuantizedWeights "IMAGENET1K_FBGEMM_V1"
  = Some {| w_enum := "ResNeXt101_32X8D_QuantizedWeights";
            w_name := "IMAGENET1K_FBGEMM_V1";
            w_value := ResNeXt101_32X8D_IMAGENET1K_FBGEMM_V1 |}
  /\ enum_member ResNeXt101_32X8D_QuantizedWeights "IMAGENET1K_FBGEMM_V2"
     = Some {| w_enum := "ResNeXt101_32X8D_QuantizedWeights";
               w_name := "IMAGENET1K_FBGEMM_V2";
               w_value := ResNeXt101_32X8D_IMAGENET1K_FBGEMM_V2 |}
  /\ enum_member ResNeXt101_32X8D_QuantizedWeights "DEFAULT"
     = enum_member ResNeXt101_32X8D_QuantizedWeights "IMAGENET1K_FBGEMM_V2".
Proof.
  unfold enum_member. simpl enum_table. simpl table_lookup. cbv beta iota.
  rewrite canonical_name_head.
  rewrite (canonical_name_skip _ _ _ _ ResNeXt101_32X8D_versions_differ),
    canonical_name_head.
  repeat split; reflexivity.
Qed.

(** C1, as the code has it.  The legacy flag resolves, for the three
    factories that accept it, to the entry IMAGENET1K_FBGEMM_V1 of the
    quantized registry when quantization is requested and to the attribute
    IMAGENET1K_V1 of the floating-point registry otherwise.  The choice
    depends on the call only through the truth value of its quantize
    keyword.  IMAGENET1K_FBGEMM_V1 is what DEFAULT names for resnet18; for
    resnet50 and resnext101_32x8d DEFAULT names IMAGENET1K_FBGEMM_V2. *)
Theorem legacy_flag_resolves_to_v1 (kwargs : gmap string value) :
  let quantize := py_truthy (kwargs_get kwargs "quantize" (VBool false)) in
  resnet18_legacy_weights kwargs
  = (if quantize
     then Ok (VWeights {| w_enum := "ResNet18_QuantizedWeights";
                          w_name := "IMAGENET1K_FBGEMM_V1";
                          w_value := ResNet18_IMAGENET1K_FBGEMM_V1 |})
     else enum_attr ResNet18_Weights "IMAGENET1K_V1")
  /\ resnet50_legacy_weights kwargs
     = (if quantize
        then Ok (VWeights {| w_enum := "ResNet50_QuantizedWeights";
                             w_name := "IMAGENET1K_FBGEMM_V1";
                             w_value := ResNet50_IMAGENET1K_FBGEMM_V1 |})
        else enum_attr ResNet50_Weights "IMAGENET1K_V1")
  /\ resnext101_32x8d_legacy_weights kwargs
     = (if quantize
        then Ok (VWeights {| w_enum := "ResNeXt101_32X8D_QuantizedWeights";
                             w_name := "IMAGENET1K_FBGEMM_V1";
                             w_value := ResNeXt101_32X8D_IMAGENET1K_FBGEMM_V1 |})
        else enum_attr ResNeXt101_32X8D_Weights "IMAGENET1K_V1")
  /\ resnet18_legacy_weights kwargs
     = resnet18_legacy_weights {[ "quantize" := VBool quantize ]}
  /\ resnet50_legacy_weights kwargs
     = resnet50_legacy_weights {[ "quantize" := VBool quantize ]}
  /\ resnext101_32x8d_legacy_weights kwargs
     = resnext101_32x8d_legacy_weights {[ "quantize" := VBool quantize ]}
  /\ enum_member ResNet18_QuantizedWeights "DEFAULT"
     = Some {| w_enum := "ResNet18_QuantizedWeights"; w_name := "IMAGENET1K_FBGEMM_V1";
               w_value := ResNet18_IMAGENET1K_FBGEMM_V1 |}
  /\ enum_member ResNet50_QuantizedWeights "DEFAULT"
     = Some {| w_enum := "ResNet50_QuantizedWeights"; w_name := "IMAGENET1K_FBGEMM_V2";
               w_value := ResNet50_IMAGENET1K_FBGEMM_V2 |}
  /\ enum_member ResNeXt101_32X8D_QuantizedWeights "DEFAULT"
     = Some {| w_enum := "ResNeXt101_32X8D_QuantizedWeights";
               w_name := "IMAGENET1K_FBGEMM_V2";
               w_value := ResNeXt101_32X8D_IMAGENET1K_FBGEMM_V2 |}.
Proof.
  cbv zeta.
  destruct ResNet18_QuantizedWeights_members as [H18 H18d].
  destruct ResNet50_QuantizedWeights_members as (H50 & H50v2 & H50d).
  destruct ResNeXt101_32X8D_QuantizedWeights_members as (H32 & H32v2 & H32d).
  unfold resnet18_legacy_weights, resnet50_legacy_weights,
    resnext101_32x8d_legacy_weights, enum_attr.
  assert (Hq : forall b, py_truthy (kwargs_get {[ "quantize" := VBool b ]} "quantize"
                                               (VBool false)) = b).
  { intros b. unfold kwargs_get. rewrite lookup_singleton_eq. reflexivity. }
  rewrite !Hq, H18, H50, H32, H18d, H50d, H32d, H18, H50v2, H32v2.
  repeat split; reflexivity.
Qed.
End FactoryFacts.

(** C1 fails as stated: with the legacy flag and quantize=true, resnet50
    and resnext101_32x8d resolve to IMAGENET1K_FBGEMM_V1, and the entry
    their registries alias as DEFAULT is IMAGENET1K_FBGEMM_V2. *)
Lemma legacy_flag_is_not_default :
  let imports := sample_imports true in
  let call : gmap string value := {[ "pretrained" := VBool true; "quantize" := VBool true ]} in
  (exists v1 v2,
      resnet50_legacy_weights call = Ok (VWeights v1)
      /\ enum_attr ResNet50_QuantizedWeights "DEFAULT" = Ok (VWeights v2)
      /\ w_name v1 = "IMAGENET1K_FBGEMM_V1" /\ w_name v2 = "IMAGENET1K_FBGEMM_V2"
      /\ v1 <> v2)
  /\ (exists v1 v2,
         resnext101_32x8d_legacy_weights call = Ok (VWeights v1)
         /\ enum_attr ResNeXt101_32X8D_QuantizedWeights "DEFAULT" = Ok (VWeights v2)
         /\ w_name v1 = "IMAGENET1K_FBGEMM_V1" /\ w_name v2 = "IMAGENET1K_FBGEMM_V2"
         /\ v1 <> v2).
Proof.
  cbv zeta. split.
  - destruct (@ResNet50_QuantizedWeights_members (sample_imports true))
      as (H1 & H2 & Hd).
    eexists _, _. unfold resnet50_legacy_weights, enum_attr.
    rewrite Hd, H2.
    change (py_truthy _) with true. cbv iota. rewrite H1.
    split; [reflexivity|]. split; [reflexivity|]. split; [reflexivity|].
    split; [reflexivity|].
    intros Heq. apply (f_equal w_name) in Heq. discriminate Heq.
  - destruct (@ResNeXt101_32X8D_QuantizedWeights_members (sample_imports true))
      as (H1 & H2 & Hd).
    eexists _, _. unfold resnext101_32x8d_legacy_weights, enum_attr.
    rewrite Hd, H2.
    change (py_truthy _) with true. cbv iota. rewrite H1.
    split; [reflexivity|]. split; [reflexivity|]. split; [reflexivity|].
    split; [reflexivity|].
    intros Heq. apply (f_equal w_name) in Heq. discriminate Heq.
Qed.


(* ===================================================================== *)
(** * The factories                                                       *)
(* ===================================================================== *)

Section FactoryClaims.
Context {imports : Imports}.

Lemma enum_member_tag cls key w : enum_member cls key = Some w -> w_enum w = enum_name cls.
Proof.
  unfold enum_member. destruct (table_lookup key (enum_table cls)); [|discriminate].
  destruct (canonical_name _ _); [|discriminate].
  intros Heq. injection Heq as <-. reflexivity.
Qed.

Lemma verify_member cls key w :
  enum_member cls key = Some w ->
  verify cls (VStr key) = Ok (Some w) /\ verify cls (VWeights w) = Ok (Some w).
Proof.
  intros Hm. simpl. rewrite Hm. split; [reflexivity|].
  unfold isinstance_enum. rewrite (enum_member_tag _ _ _ Hm), String.eqb_refl.
  reflexivity.
Qed.

(** The two registries of an architecture are different classes. *)
Lemma registries_disjoint a quantize w :
  isinstance_enum w (applicable_registry a (negb quantize)) = true ->
  isinstance_enum w (applicable_registry a quantize) = false.
Proof.
  unfold isinstance_enum. intros Heq. apply String.eqb_eq in Heq. rewrite Heq.
  destruct a, quantize; reflexivity.
Qed.

Lemma resnet_log_head block layers weights progress quantize kwargs :
  exists kwargs' rest,
    fst (_resnet block layers weights progress quantize kwargs)
    = EvConstruct block layers kwargs' :: rest.
Proof.
  unfold _resnet, QuantizableResNet_init, run_bind at 1 2 3. simpl.
  match goal with
  | |- context [EvConstruct block layers ?k] => exists k
  end.
  destruct (ResNet_init _ _ _); simpl; [|eauto].
  match goal with
  | |- context [let '(_, _) := ?x in _] => destruct x
  end.
  simpl. eauto.
Qed.

(** C5.  Every factory resolves the weights selection against the
    registry its quantize flag makes applicable, before anything else: a
    selection that does not verify ends the call with no event, so before
    any network is constructed.  A member of the other registry of the
    architecture, or a key the applicable registry does not have, fails
    with an invalid selection; a key or a member of the applicable
    registry is accepted and the call goes on to build the network with
    it. *)
Theorem factory_weights_selection (a : Architecture) (progress quantize : bool)
        (kwargs : gmap string value) :
  let cls := applicable_registry a quantize in
  let other := applicable_registry a (negb quantize) in
  (forall weights e,
      verify cls weights = Raise e ->
      factory_body a weights progress quantize kwargs = ([], Raise e))
  /\ (forall w,
         isinstance_enum w other = true ->
         factory_body a (VWeights w) progress quantize kwargs
         = ([], Raise InvalidSelection))
  /\ (forall key,
         enum_member cls key = None ->
         factory_body a (VStr key) progress quantize kwargs
         = ([], Raise InvalidSelection))
  /\ (forall key w,
         enum_member cls key = Some w ->
         exists block layers kwargs' kwargs'' rest,
           factory_body a (VStr key) progress quantize kwargs
           = _resnet block layers (Some w) progress quantize kwargs'
           /\ factory_body a (VWeights w) progress quantize kwargs
              = _resnet block layers (Some w) progress quantize kwargs'
           /\ fst (_resnet block layers (Some w) progress quantize kwargs')
              = EvConstruct block layers kwargs'' :: rest).
Proof.
  cbv zeta.
  assert (Hbody : forall weights,
             factory_body a weights progress quantize kwargs
             = run_bind (lift (verify (applicable_registry a quantize) weights))
                        (fun w => _resnet
                                    (match a with
                                     | Resnet18 => TQuantizableBasicBlock
                                     | _ => TQuantizableBottleneck
                                     end)
                                    (match a with
                                     | Resnet18 => [2; 2; 2; 2]%Z
                                     | Resnet50 => [3; 4; 6; 3]%Z
                                     | _ => [3; 4; 23; 3]%Z
                                     end)
                                    w progress quantize
                                    (match a with
                                     | Resnet18 | Resnet50 => kwargs
                                     | Resnext101_32x8d =>
                                         <["width_per_group" := VInt 8]>
                                           (<["groups" := VInt 32]> kwargs)
                                     | Resnext101_64x4d =>
                                         <["width_per_group" := VInt 4]>
                                           (<["groups" := VInt 64]> kwargs)
                                     end)))
    by (intros weights; destruct a; reflexivity).
  repeat split.
  - intros weights e He. rewrite Hbody, He. reflexivity.
  - intros w Hw. rewrite Hbody. simpl verify.
    rewrite (registries_disjoint a quantize w Hw). reflexivity.
  - intros key Hkey. rewrite Hbody. simpl verify. rewrite Hkey. reflexivity.
  - intros key w Hm. destruct (verify_member _ _ _ Hm) as [Hs Hw].
    match type of Hbody with
    | forall _, _ = run_bind _ (fun w => _resnet ?b ?l w _ _ ?k) =>
        destruct (resnet_log_head b l (Some w) progress quantize k) as (k'' & rest & Hh);
        exists b, l, k, k'', rest
    end.
    rewrite !Hbody, Hs, Hw, !run_bind_lift_ok. repeat split; try reflexivity. exact Hh.
Qed.

(** ** Overrides from the resolved weights *)

Lemma resnet_split block layers weights progress quantize kwargs :
  _resnet block layers weights progress quantize kwargs
  = resnet_run block layers weights progress quantize
               (resolved_backend weights kwargs) (constructor_kwargs weights kwargs).
Proof.
  unfold _resnet, resnet_run, resolved_backend, constructor_kwargs,
    _ovewrite_named_param, kwargs_get.
  destruct weights as [w|]; [|reflexivity].
  destruct (backend (meta (w_value w))) as [b|].
  - rewrite lookup_insert_eq. reflexivity.
  - rewrite lookup_insert_ne by discriminate. reflexivity.
Qed.


(** Every way a run of [_resnet] can go, with its events and its
    outcome. *)
Lemma resnet_run_cases block layers weights progress quantize bk kwargs :
  let run := resnet_run block layers weights progress quantize bk kwargs in
  match ResNet_init block layers kwargs with
  | Raise e => run = ([EvConstruct block layers kwargs], Raise e)
  | Ok m0 =>
      let m1 := _replace_relu
                  (register_submodule
                     (register_submodule m0 "quant" (Leaf QuantStub))
                     "dequant" (Leaf DeQuantStub)) in
      let fused := QuantizableResNet_fuse_model m1 None in
      let pre := [EvConstruct block layers kwargs; EvReplaceRelu]
                 ++ (if quantize then [EvFuseModel (snd fused); EvQuantize bk] else []) in
      match (if quantize then torch_quantize (fst fused) bk else Ok m1) with
      | Raise e => run = (pre, Raise e)
      | Ok m2 =>
          match weights with
          | None => run = (pre, Ok m2)
          | Some w =>
              match get_state_dict w progress with
              | Raise e => run = (pre ++ [EvGetStateDict w progress], Raise e)
              | Ok sd => run = (pre ++ [EvGetStateDict w progress; EvLoadStateDict w],
                                load_state_dict m2 sd)
              end
          end
      end
  end.
Proof.
  unfold resnet_run, QuantizableResNet_init, quantize_model, run_bind, emit, lift, run_ret.
  simpl.
  destruct (ResNet_init block layers kwargs) as [m0|e]; simpl; [|reflexivity].
  destruct quantize; simpl.
  - destruct (torch_quantize _ bk) as [m2|e]; simpl; [|reflexivity].
    destruct weights as [w|]; simpl; [|reflexivity].
    destruct (get_state_dict w progress) as [sd|e]; simpl; [|reflexivity].
    destruct (load_state_dict m2 sd); reflexivity.
  - destruct weights as [w|]; simpl; [|reflexivity].
    destruct (get_state_dict w progress) as [sd|e]; simpl; [|reflexivity].
    destruct (load_state_dict _ sd); reflexivity.
Qed.

Ltac run_cases block layers weights progress quantize bk kwargs :=
  let Hc := fresh "Hcases" in
  pose proof (resnet_run_cases block layers weights progress quantize bk kwargs) as Hc;
  cbv zeta in Hc;
  try destruct quantize;
  repeat (cbv beta iota in Hc;
          match type of Hc with
          | match ?x with _ => _ end => destruct x eqn:?
          end);
  rewrite Hc; clear Hc; simpl.

Ltac in_events H :=
  repeat (destruct H as [H|H]; [try discriminate H|]); try contradiction.

Lemma resnet_run_construct block layers weights progress quantize bk kwargs b l k :
  In (EvConstruct b l k) (fst (resnet_run block layers weights progress quantize bk kwargs)) ->
  b = block /\ l = layers /\ k = kwargs.
Proof.
  run_cases block layers weights progress quantize bk kwargs;
    intros Hin; in_events Hin; injection Hin as <- <- <-; auto.
Qed.

Lemma resnet_run_quantize block layers weights progress quantize bk kwargs b :
  In (EvQuantize b) (fst (resnet_run block layers weights progress quantize bk kwargs)) ->
  b = bk.
Proof.
  run_cases block layers weights progress quantize bk kwargs;
    intros Hin; in_events Hin; injection Hin as <-; auto.
Qed.

Lemma constructor_kwargs_lookup weights kwargs k :
  k <> "num_classes" -> k <> "backend" ->
  constructor_kwargs weights kwargs !! k = kwargs !! k.
Proof.
  intros Hn Hb. unfold constructor_kwargs. rewrite lookup_delete_ne by congruence.
  destruct weights as [w|]; [|reflexivity]. cbv zeta.
  destruct (backend (meta (w_value w)));
    rewrite ?lookup_insert_ne by congruence; reflexivity.
Qed.


Lemma factory_body_eq a weights progress quantize kwargs :
  factory_body a weights progress quantize kwargs
  = run_bind (lift (verify (applicable_registry a quantize) weights))
             (fun w => _resnet (block_of a) (layers_of a) w progress quantize
                               (forced_kwargs a kwargs)).
Proof. destruct a; reflexivity. Qed.

(** C8.  Every factory body is a verification of the selection followed
    by a run of [_resnet], and a run of [_resnet] goes through its steps in
    one order.  The constructor is always called, first.  If it fails the
    call ends there with its failure.  Otherwise the activations of the
    fresh network are replaced; then, when quantize is set, the network is
    fused and handed to the quantization pipeline with the resolved
    backend, and a failure of the pipeline ends the call; then, when a
    weights variant was resolved, its checkpoint is fetched and loaded into
    the network, and the outcome of the loading, a network or the failure
    of the loader, is the outcome of the call.  A network is returned only
    after all the steps of the call have run, and the steps that have run
    when a call ends are always the first steps of that order. *)
Theorem resnet_steps_in_order (block : ContainerClass) (layers : list Z)
        (weights : option WeightsMember) (progress quantize : bool)
        (kwargs : gmap string value) :
  let run := _resnet block layers weights progress quantize kwargs in
  let k := constructor_kwargs weights kwargs in
  let bk := resolved_backend weights kwargs in
  (forall a selection kwargs0,
      factory_body a selection progress quantize kwargs0
      = match verify (applicable_registry a quantize) selection with
        | Ok w => _resnet (block_of a) (layers_of a) w progress quantize
                          (forced_kwargs a kwargs0)
        | Raise e => ([], Raise e)
        end)
  /\ (exists rest, fst run = EvConstruct block layers k :: rest)
  /\ match ResNet_init block layers k with
     | Raise e => run = ([EvConstruct block layers k], Raise e)
     | Ok m0 =>
         let fresh := _replace_relu
                        (register_submodule
                           (register_submodule m0 "quant" (Leaf QuantStub))
                           "dequant" (Leaf DeQuantStub)) in
         let fused := QuantizableResNet_fuse_model fresh None in
         let pre := [EvConstruct block layers k; EvReplaceRelu]
                    ++ (if quantize
                        then [EvFuseModel (snd fused); EvQuantize bk]
                        else []) in
         match (if quantize then torch_quantize (fst fused) bk else Ok fresh) with
         | Raise e => run = (pre, Raise e)
         | Ok quantized =>
             match weights with
             | None => run = (pre, Ok quantized)
             | Some w =>
                 match get_state_dict w progress with
                 | Raise e => run = (pre ++ [EvGetStateDict w progress], Raise e)
                 | Ok state_dict =>
                     run = (pre ++ [EvGetStateDict w progress; EvLoadStateDict w],
                            load_state_dict quantized state_dict)
                 end
             end
         end
     end
  /\ (exists rest, steps_of_call weights quantize = map step_of (fst run) ++ rest)
  /\ (forall model, snd run = Ok model ->
                    map step_of (fst run) = steps_of_call weights quantize)
  /\ (forall b, In (EvQuantize b) (fst run) -> b = bk)
  /\ (forall log,
         In (EvFuseModel log) (fst run) ->
         exists m0,
           ResNet_init block layers k = Ok m0
           /\ log = snd (QuantizableResNet_fuse_model
                           (_replace_relu
                              (register_submodule
                                 (register_submodule m0 "quant" (Leaf QuantStub))
                                 "dequant" (Leaf DeQuantStub)))
                           None)).
Proof.
  cbv zeta. rewrite resnet_split.
  set (bk := resolved_backend weights kwargs).
  set (kw := constructor_kwargs weights kwargs).
  unfold steps_of_call.
  split.
  { intros a selection kwargs0. rewrite factory_body_eq.
    destruct (verify _ selection); [rewrite run_bind_lift_ok|]; reflexivity. }
  split.
  { run_cases block layers weights progress quantize bk kw; eexists; reflexivity. }
  split.
  { exact (resnet_run_cases block layers weights progress quantize bk kw). }
  repeat split.
  - run_cases block layers weights progress quantize bk kw; eexists; reflexivity.
  - run_cases block layers weights progress quantize bk kw;
      intros model Hok; try discriminate Hok; reflexivity.
  - intros b. apply resnet_run_quantize.
  - intros log.
    run_cases block layers weights progress quantize bk kw;
      intros Hin; in_events Hin; injection Hin as <-; eexists; split; reflexivity.
Qed.


(** ** Keywords that a factory forces or never reads *)

Lemma agree_except_insert_delete key v c :
  agree_except key (<[key := v]> c) (delete key c).
Proof.
  intros k Hk. rewrite lookup_insert_ne, lookup_delete_ne by congruence. reflexivity.
Qed.

Lemma agree_except_insert key k v c1 c2 :
  agree_except key c1 c2 -> agree_except key (<[k := v]> c1) (<[k := v]> c2).
Proof.
  intros H k' Hk'. rewrite !lookup_insert. case_decide; [reflexivity | apply H, Hk'].
Qed.

Lemma agree_except_delete key k c1 c2 :
  agree_except key c1 c2 -> agree_except key (delete k c1) (delete k c2).
Proof.
  intros H k' Hk'. rewrite !lookup_delete. case_decide; [reflexivity | apply H, Hk'].
Qed.

Lemma agree_except_overwritten key v c1 c2 :
  agree_except key c1 c2 -> <[key := v]> c1 = <[key := v]> c2.
Proof.
  intros H. apply map_eq. intros k. rewrite !lookup_insert.
  case_decide; [reflexivity|]. apply H. congruence.
Qed.

Lemma keyword_call_agree body key c1 c2 :
  (forall w p q k1 k2, agree_except key k1 k2 -> body w p q k1 = body w p q k2) ->
  key <> "weights" -> key <> "progress" -> key <> "quantize" ->
  agree_except key c1 c2 -> keyword_call body c1 = keyword_call body c2.
Proof.
  intros Hbody Hw Hp Hq Hag. unfold keyword_call, kwargs_get.
  rewrite !(Hag "weights"), !(Hag "progress"), !(Hag "quantize") by congruence.
  apply Hbody. repeat apply agree_except_delete. exact Hag.
Qed.

Lemma legacy_shim_agree (select : gmap string value -> result value)
      (builder : gmap string value -> Run Module) key c1 c2 :
  (forall k1 k2, agree_except key k1 k2 -> select k1 = select k2) ->
  (forall k1 k2, agree_except key k1 k2 -> builder k1 = builder k2) ->
  key <> "pretrained" ->
  agree_except key c1 c2 ->
  handle_legacy_interface "weights" "pretrained" select builder c1
  = handle_legacy_interface "weights" "pretrained" select builder c2.
Proof.
  intros Hsel Hbuild Hk Hag. unfold handle_legacy_interface.
  rewrite (Hag "pretrained") by congruence.
  destruct (c2 !! "pretrained") as [flag|]; [|apply Hbuild, Hag].
  rewrite (Hsel c1 c2 Hag).
  destruct (py_truthy flag); [destruct (select c2)|];
    try reflexivity; apply Hbuild, agree_except_insert, agree_except_delete, Hag.
Qed.

Lemma legacy_weights_agree key c1 c2 :
  key <> "quantize" -> agree_except key c1 c2 ->
  resnet18_legacy_weights c1 = resnet18_legacy_weights c2
  /\ resnet50_legacy_weights c1 = resnet50_legacy_weights c2
  /\ resnext101_32x8d_legacy_weights c1 = resnext101_32x8d_legacy_weights c2.
Proof.
  intros Hk Hag.
  unfold resnet18_legacy_weights, resnet50_legacy_weights,
    resnext101_32x8d_legacy_weights, kwargs_get.
  rewrite (Hag "quantize") by congruence. repeat split; reflexivity.
Qed.

Lemma resnext_body_agree key w p q k1 k2 :
  key = "groups" \/ key = "width_per_group" ->
  agree_except key k1 k2 ->
  resnext101_32x8d_body w p q k1 = resnext101_32x8d_body w p q k2
  /\ resnext101_64x4d_body w p q k1 = resnext101_64x4d_body w p q k2.
Proof.
  intros Hkey Hag.
  pose proof (factory_body_eq Resnext101_32x8d w p q k1) as E1.
  pose proof (factory_body_eq Resnext101_32x8d w p q k2) as E2.
  pose proof (factory_body_eq Resnext101_64x4d w p q k1) as E3.
  pose proof (factory_body_eq Resnext101_64x4d w p q k2) as E4.
  simpl factory_body in E1, E2, E3, E4. rewrite E1, E2, E3, E4. clear E1 E2 E3 E4.
  assert (H32 : forced_kwargs Resnext101_32x8d k1 = forced_kwargs Resnext101_32x8d k2).
  { simpl. apply map_eq. intros k. rewrite !lookup_insert.
    repeat case_decide; try reflexivity. apply Hag. destruct Hkey; congruence. }
  assert (H64 : forced_kwargs Resnext101_64x4d k1 = forced_kwargs Resnext101_64x4d k2).
  { simpl. apply map_eq. intros k. rewrite !lookup_insert.
    repeat case_decide; try reflexivity. apply Hag. destruct Hkey; congruence. }
  rewrite H32, H64. split; reflexivity.
Qed.

Lemma resnext_factories_agree key c1 c2 :
  key = "groups" \/ key = "width_per_group" ->
  agree_except key c1 c2 ->
  resnext101_32x8d c1 = resnext101_32x8d c2 /\ resnext101_64x4d c1 = resnext101_64x4d c2.
Proof.
  intros Hkey Hag.
  assert (Hne : key <> "weights" /\ key <> "progress" /\ key <> "quantize"
                /\ key <> "pretrained")
    by (destruct Hkey; subst key; repeat split; discriminate).
  destruct Hne as (Hw & Hp & Hq & Hpre).
  split.
  - unfold resnext101_32x8d. apply legacy_shim_agree with (key := key); try assumption.
    + intros k1 k2 H. apply (legacy_weights_agree key k1 k2 Hq H).
    + intros k1 k2 H. apply keyword_call_agree with (key := key); try assumption.
      intros w p q a1 a2 Ha. apply (resnext_body_agree key w p q a1 a2 Hkey Ha).
  - unfold resnext101_64x4d. apply keyword_call_agree with (key := key); try assumption.
    intros w p q a1 a2 Ha. apply (resnext_body_agree key w p q a1 a2 Hkey Ha).
Qed.

(** What the constructor receives in a run of a factory body. *)
Lemma factory_body_construct a weights progress quantize kwargs b l k :
  In (EvConstruct b l k) (fst (factory_body a weights progress quantize kwargs)) ->
  exists w, k = constructor_kwargs w (forced_kwargs a kwargs).
Proof.
  rewrite factory_body_eq.
  destruct (verify (applicable_registry a quantize) weights) as [w|e].
  - rewrite run_bind_lift_ok, resnet_split. intros Hin.
    apply resnet_run_construct in Hin as (_ & _ & ->). eauto.
  - rewrite run_bind_lift_raise. intros [].
Qed.

(** A factory either stops in its legacy shim or runs its body on the
    keywords of the call, with "pretrained" removed when there is a
    shim. *)
Lemma factory_reaches_body a call :
  (exists e, factory a call = ([], Raise e))
  \/ (exists w p q k,
         factory a call = factory_body a w p q k
         /\ (forall key, key <> "weights" -> key <> "progress" -> key <> "quantize" ->
                          k !! key = (if decide (a = Resnext101_64x4d)
                                      then call !! key
                                      else delete "pretrained" call !! key))).
Proof.
  assert (Hkw : forall (c : gmap string value) key,
             key <> "weights" -> key <> "progress" -> key <> "quantize" ->
             delete "weights" (delete "progress" (delete "quantize" c)) !! key = c !! key).
  { intros c key Hw Hp Hq. rewrite !lookup_delete_ne by congruence. reflexivity. }
  assert (Hshim : forall select body,
             (exists e, handle_legacy_interface "weights" "pretrained" select
                          (keyword_call body) call = ([], Raise e))
             \/ (exists w p q k,
                    handle_legacy_interface "weights" "pretrained" select
                      (keyword_call body) call = body w p q k
                    /\ (forall key, key <> "weights" -> key <> "progress" ->
                                     key <> "quantize" ->
                                     k !! key = delete "pretrained" call !! key))).
  { intros select body. unfold handle_legacy_interface.
    destruct (call !! "pretrained") as [flag|] eqn:Hflag.
    - destruct (py_truthy flag); [destruct (select call) as [w|e]|].
      + right. unfold keyword_call. eexists _, _, _, _. split; [reflexivity|].
        intros key Hw Hp Hq. rewrite Hkw by assumption.
        rewrite lookup_insert_ne by congruence. reflexivity.
      + left. eexists. reflexivity.
      + right. unfold keyword_call. eexists _, _, _, _. split; [reflexivity|].
        intros key Hw Hp Hq. rewrite Hkw by assumption.
        rewrite lookup_insert_ne by congruence. reflexivity.
    - right. unfold keyword_call. eexists _, _, _, _. split; [reflexivity|].
      intros key Hw Hp Hq. rewrite Hkw by assumption.
      rewrite lookup_delete. case_decide; [subst key; exact Hflag | reflexivity]. }
  destruct a; simpl factory; simpl factory_body.
  - destruct (Hshim resnet18_legacy_weights resnet18_body) as [?|(w & p & q & k & ? & ?)];
      [left; assumption | right; exists w, p, q, k; split; assumption].
  - destruct (Hshim resnet50_legacy_weights resnet50_body) as [?|(w & p & q & k & ? & ?)];
      [left; assumption | right; exists w, p, q, k; split; assumption].
  - destruct (Hshim resnext101_32x8d_legacy_weights resnext101_32x8d_body)
      as [?|(w & p & q & k & ? & ?)];
      [left; assumption | right; exists w, p, q, k; split; assumption].
  - right. unfold resnext101_64x4d, keyword_call. eexists _, _, _, _.
    split; [reflexivity|]. intros key Hw Hp Hq. rewrite Hkw by assumption. reflexivity.
Qed.

(** A factory without legacy shim, or called without the legacy keyword,
    is its body called with the keywords of the call. *)
Lemma factory_plain a call :
  a = Resnext101_64x4d \/ call !! "pretrained" = None ->
  factory a call = keyword_call (factory_body a) call.
Proof.
  intros [->|Hp]; [reflexivity|].
  destruct a; simpl factory; simpl factory_body;
    unfold resnet18, resnet50, resnext101_32x8d, resnext101_64x4d,
      handle_legacy_interface;
    rewrite ?Hp; reflexivity.
Qed.

(** What the legacy shim does with a call that has the legacy keyword. *)
Lemma legacy_shim_unfold (select : gmap string value -> result value)
      (builder : gmap string value -> Run Module) call flag :
  call !! "pretrained" = Some flag ->
  handle_legacy_interface "weights" "pretrained" select builder call
  = (if py_truthy flag
     then match select call with
          | Ok w => handle_legacy_interface "weights" "pretrained" select builder
                      (<["weights" := w]> (delete "pretrained" call))
          | Raise e => ([], Raise e)
          end
     else handle_legacy_interface "weights" "pretrained" select builder
            (<["weights" := VNone]> (delete "pretrained" call))).
Proof.
  intros Hflag. unfold handle_legacy_interface at 1. rewrite Hflag.
  destruct (py_truthy flag); [destruct (select call)|]; try reflexivity;
    unfold handle_legacy_interface;
    rewrite lookup_insert_ne, lookup_delete_eq by discriminate; reflexivity.
Qed.

(** How a run of [_resnet] starts. *)
Lemma resnet_start block layers weights progress quantize kwargs :
  let run := _resnet block layers weights progress quantize kwargs in
  let k := constructor_kwargs weights kwargs in
  (exists rest, fst run = EvConstruct block layers k :: rest)
  /\ match ResNet_init block layers k with
     | Raise e => run = ([EvConstruct block layers k], Raise e)
     | Ok m0 =>
         (exists rest, fst run = EvConstruct block layers k :: EvReplaceRelu :: rest)
         /\ (quantize = false -> weights = None ->
             run = ([EvConstruct block layers k; EvReplaceRelu],
                    Ok (_replace_relu
                          (register_submodule
                             (register_submodule m0 "quant" (Leaf QuantStub))
                             "dequant" (Leaf DeQuantStub)))))
     end.
Proof.
  cbv zeta. rewrite resnet_split.
  set (bk := resolved_backend weights kwargs).
  set (k := constructor_kwargs weights kwargs).
  split.
  - run_cases block layers weights progress quantize bk k; eexists; reflexivity.
  - pose proof (resnet_run_cases block layers weights progress quantize bk k) as Hc.
    cbv zeta in Hc.
    destruct (ResNet_init block layers k) as [m0|e]; [|exact Hc].
    split.
    + destruct quantize;
        repeat (cbv beta iota in Hc;
                match type of Hc with
                | match ?x with _ => _ end => destruct x eqn:?
                end);
        rewrite Hc; simpl; eexists; reflexivity.
    + intros -> ->. exact Hc.
Qed.

(** C3.  resnext101_32x8d hands groups=32 and width_per_group=8 to the
    constructor and resnext101_64x4d groups=64 and width_per_group=4,
    whatever the caller passes for these keywords: a call that supplies
    one of them runs exactly as the call that does not.  The network is
    built with the forced values: unless the weights selection is
    rejected, which ends the call before anything is built, the first
    thing a call does is to call the constructor with these two values
    among its keywords; the call is the run of [_resnet] on the forced
    keywords; a failure of the constructor is the failure of the call; and
    without quantization and weights the call returns the network this
    constructor call has built.  A call of resnext101_32x8d with the
    legacy keyword is the call with the weights that the keyword
    selects. *)
Theorem resnext_forced_groups (call : gmap string value) (user : value) :
  let built (run : Run Module) (a : Architecture) (groups width : Z) : Prop :=
    let quantize := py_truthy (kwargs_get call "quantize" (VBool false)) in
    let progress := py_truthy (kwargs_get call "progress" (VBool true)) in
    let forced :=
      <["width_per_group" := VInt width]>
        (<["groups" := VInt groups]>
           (delete "weights" (delete "progress" (delete "quantize" call)))) in
    match verify (applicable_registry a quantize) (kwargs_get call "weights" VNone) with
    | Raise e => run = ([], Raise e)
    | Ok w =>
        let k := constructor_kwargs w forced in
        k !! "groups" = Some (VInt groups)
        /\ k !! "width_per_group" = Some (VInt width)
        /\ (exists rest,
               fst run = EvConstruct TQuantizableBottleneck [3; 4; 23; 3]%Z k :: rest)
        /\ run = _resnet TQuantizableBottleneck [3; 4; 23; 3]%Z w progress quantize forced
        /\ match ResNet_init TQuantizableBottleneck [3; 4; 23; 3]%Z k with
           | Raise e =>
               run = ([EvConstruct TQuantizableBottleneck [3; 4; 23; 3]%Z k], Raise e)
           | Ok m0 =>
               (exists rest,
                   fst run = EvConstruct TQuantizableBottleneck [3; 4; 23; 3]%Z k
                             :: EvReplaceRelu :: rest)
               /\ (quantize = false -> w = None ->
                   run = ([EvConstruct TQuantizableBottleneck [3; 4; 23; 3]%Z k;
                           EvReplaceRelu],
                          Ok (_replace_relu
                                (register_submodule
                                   (register_submodule m0 "quant" (Leaf QuantStub))
                                   "dequant" (Leaf DeQuantStub)))))
           end
    end in
  resnext101_32x8d (<["groups" := user]> call) = resnext101_32x8d (delete "groups" call)
  /\ resnext101_32x8d (<["width_per_group" := user]> call)
     = resnext101_32x8d (delete "width_per_group" call)
  /\ resnext101_64x4d (<["groups" := user]> call) = resnext101_64x4d (delete "groups" call)
  /\ resnext101_64x4d (<["width_per_group" := user]> call)
     = resnext101_64x4d (delete "width_per_group" call)
  /\ (forall block layers kwargs,
         In (EvConstruct block layers kwargs) (fst (resnext101_32x8d call)) ->
         kwargs !! "groups" = Some (VInt 32)
         /\ kwargs !! "width_per_group" = Some (VInt 8))
  /\ (forall block layers kwargs,
         In (EvConstruct block layers kwargs) (fst (resnext101_64x4d call)) ->
         kwargs !! "groups" = Some (VInt 64)
         /\ kwargs !! "width_per_group" = Some (VInt 4))
  /\ built (resnext101_64x4d call) Resnext101_64x4d 64%Z 4%Z
  /\ match call !! "pretrained" with
     | None => built (resnext101_32x8d call) Resnext101_32x8d 32%Z 8%Z
     | Some flag =>
         resnext101_32x8d call
         = (if py_truthy flag
            then match resnext101_32x8d_legacy_weights call with
                 | Ok w => resnext101_32x8d (<["weights" := w]> (delete "pretrained" call))
                 | Raise e => ([], Raise e)
                 end
            else resnext101_32x8d (<["weights" := VNone]> (delete "pretrained" call)))
     end.
Proof.
  cbv zeta.
  assert (Hbuilt : forall a g wd,
             a = Resnext101_64x4d \/ call !! "pretrained" = None ->
             forced_kwargs a = (fun kw => <["width_per_group" := VInt wd]>
                                            (<["groups" := VInt g]> kw)) ->
             block_of a = TQuantizableBottleneck -> layers_of a = [3; 4; 23; 3]%Z ->
             match verify (applicable_registry a
                             (py_truthy (kwargs_get call "quantize" (VBool false))))
                          (kwargs_get call "weights" VNone) with
             | Raise e => factory a call = ([], Raise e)
             | Ok w =>
                 let forced :=
                   <["width_per_group" := VInt wd]>
                     (<["groups" := VInt g]>
                        (delete "weights" (delete "progress" (delete "quantize" call)))) in
                 let k := constructor_kwargs w forced in
                 let progress := py_truthy (kwargs_get call "progress" (VBool true)) in
                 let quantize := py_truthy (kwargs_get call "quantize" (VBool false)) in
                 k !! "groups" = Some (VInt g)
                 /\ k !! "width_per_group" = Some (VInt wd)
                 /\ (exists rest,
                        fst (factory a call)
                        = EvConstruct TQuantizableBottleneck [3; 4; 23; 3]%Z k :: rest)
                 /\ factory a call
                    = _resnet TQuantizableBottleneck [3; 4; 23; 3]%Z w progress quantize
                              forced
                 /\ match ResNet_init TQuantizableBottleneck [3; 4; 23; 3]%Z k with
                    | Raise e =>
                        factory a call
                        = ([EvConstruct TQuantizableBottleneck [3; 4; 23; 3]%Z k], Raise e)
                    | Ok m0 =>
                        (exists rest,
                            fst (factory a call)
                            = EvConstruct TQuantizableBottleneck [3; 4; 23; 3]%Z k
                              :: EvReplaceRelu :: rest)
                        /\ (quantize = false -> w = None ->
                            factory a call
                            = ([EvConstruct TQuantizableBottleneck [3; 4; 23; 3]%Z k;
                                EvReplaceRelu],
                               Ok (_replace_relu
                                     (register_submodule
                                        (register_submodule m0 "quant" (Leaf QuantStub))
                                        "dequant" (Leaf DeQuantStub)))))
                    end
             end).
  { intros a g wd Hplain Hforced Hblock Hlayers.
    rewrite (factory_plain a call Hplain). unfold keyword_call.
    rewrite factory_body_eq, Hforced, Hblock, Hlayers.
    destruct (verify _ (kwargs_get call "weights" VNone)) as [w|e];
      [rewrite run_bind_lift_ok | apply run_bind_lift_raise].
    cbv zeta.
    split.
    { rewrite constructor_kwargs_lookup by discriminate.
      rewrite lookup_insert_ne by discriminate. apply lookup_insert_eq. }
    split.
    { rewrite constructor_kwargs_lookup by discriminate. apply lookup_insert_eq. }
    match goal with
    | |- context [_resnet ?b ?l ?w0 ?p ?q ?kw] =>
        destruct (resnet_start b l w0 p q kw) as [Hhead Htree]
    end.
    split; [exact Hhead|]. split; [reflexivity|]. exact Htree. }
  pose proof (resnext_factories_agree "groups" (<["groups" := user]> call)
                (delete "groups" call) (or_introl eq_refl)
                (agree_except_insert_delete _ _ _)) as [Hg32 Hg64].
  pose proof (resnext_factories_agree "width_per_group"
                (<["width_per_group" := user]> call)
                (delete "width_per_group" call) (or_intror eq_refl)
                (agree_except_insert_delete _ _ _)) as [Hw32 Hw64].
  assert (Hevents : forall a g wd,
             forced_kwargs a = (fun kw => <["width_per_group" := VInt wd]>
                                            (<["groups" := VInt g]> kw)) ->
             forall block layers kwargs,
               In (EvConstruct block layers kwargs) (fst (factory a call)) ->
               kwargs !! "groups" = Some (VInt g)
               /\ kwargs !! "width_per_group" = Some (VInt wd)).
  { intros a g wd Hforced block layers kwargs Hin.
    destruct (factory_reaches_body a call) as [[e He]|(w & p & q & k & Hb & _)].
    - rewrite He in Hin. destruct Hin.
    - rewrite Hb in Hin. apply factory_body_construct in Hin as [w' ->].
      rewrite !constructor_kwargs_lookup by discriminate. rewrite Hforced.
      rewrite (lookup_insert_ne _ "width_per_group" "groups") by discriminate.
      split; apply lookup_insert_eq. }
  split; [exact Hg32|]. split; [exact Hw32|]. split; [exact Hg64|]. split; [exact Hw64|].
  split; [exact (Hevents Resnext101_32x8d 32%Z 8%Z eq_refl)|].
  split; [exact (Hevents Resnext101_64x4d 64%Z 4%Z eq_refl)|].
  split.
  - exact (Hbuilt Resnext101_64x4d 64%Z 4%Z (or_introl eq_refl) eq_refl eq_refl eq_refl).
  - destruct (call !! "pretrained") as [flag|] eqn:Hflag.
    + exact (legacy_shim_unfold resnext101_32x8d_legacy_weights
               (keyword_call resnext101_32x8d_body) call flag Hflag).
    + exact (Hbuilt Resnext101_32x8d 32%Z 8%Z (or_intror eq_refl) eq_refl eq_refl eq_refl).
Qed.


Lemma forced_kwargs_lookup a kwargs key :
  key <> "groups" -> key <> "width_per_group" ->
  forced_kwargs a kwargs !! key = kwargs !! key.
Proof.
  intros Hg Hw. destruct a; simpl; rewrite ?lookup_insert_ne by congruence; reflexivity.
Qed.

(** C10.  resnext101_64x4d is a plain function: a legacy "pretrained"
    keyword is not normalized, it travels with the other keywords to the
    constructor of the network, and a constructor that does not know the
    keyword rejects the call, before anything else happens.  The three
    wrapped factories turn the same keyword into a weights selection, and
    their constructor never sees it. *)
Theorem resnext101_64x4d_has_no_legacy_shim (call : gmap string value) (flag : value)
        (Hflag : call !! "pretrained" = Some flag)
        (Hweights : call !! "weights" = None)
        (Hctor : forall block layers kwargs,
            is_Some (kwargs !! "pretrained") ->
            ResNet_init block layers kwargs = Raise UnexpectedKeyword) :
  (exists kwargs,
      kwargs !! "pretrained" = Some flag
      /\ resnext101_64x4d call
         = ([EvConstruct TQuantizableBottleneck [3; 4; 23; 3]%Z kwargs],
            Raise UnexpectedKeyword))
  /\ resnet18 call
     = (if py_truthy flag
        then match resnet18_legacy_weights call with
             | Ok w => resnet18 (<["weights" := w]> (delete "pretrained" call))
             | Raise e => ([], Raise e)
             end
        else resnet18 (<["weights" := VNone]> (delete "pretrained" call)))
  /\ resnet50 call
     = (if py_truthy flag
        then match resnet50_legacy_weights call with
             | Ok w => resnet50 (<["weights" := w]> (delete "pretrained" call))
             | Raise e => ([], Raise e)
             end
        else resnet50 (<["weights" := VNone]> (delete "pretrained" call)))
  /\ resnext101_32x8d call
     = (if py_truthy flag
        then match resnext101_32x8d_legacy_weights call with
             | Ok w => resnext101_32x8d (<["weights" := w]> (delete "pretrained" call))
             | Raise e => ([], Raise e)
             end
        else resnext101_32x8d (<["weights" := VNone]> (delete "pretrained" call)))
  /\ (forall a block layers kwargs,
         a <> Resnext101_64x4d ->
         In (EvConstruct block layers kwargs) (fst (factory a call)) ->
         kwargs !! "pretrained" = None).
Proof.
  assert (Hshim : forall select (builder : gmap string value -> Run Module),
             handle_legacy_interface "weights" "pretrained" select builder call
             = (if py_truthy flag
                then match select call with
                     | Ok w => handle_legacy_interface "weights" "pretrained" select builder
                                 (<["weights" := w]> (delete "pretrained" call))
                     | Raise e => ([], Raise e)
                     end
                else handle_legacy_interface "weights" "pretrained" select builder
                       (<["weights" := VNone]> (delete "pretrained" call)))).
  { intros select builder. unfold handle_legacy_interface at 1. rewrite Hflag.
    destruct (py_truthy flag); [destruct (select call)|]; try reflexivity;
      unfold handle_legacy_interface;
      rewrite lookup_insert_ne, lookup_delete_eq by discriminate; reflexivity. }
  split; [|split; [apply Hshim|split; [apply Hshim|split; [apply Hshim|]]]].
  - set (K := delete "weights" (delete "progress" (delete "quantize" call))).
    exists (constructor_kwargs None (forced_kwargs Resnext101_64x4d K)).
    assert (Hpre : constructor_kwargs None (forced_kwargs Resnext101_64x4d K)
                   !! "pretrained" = Some flag).
    { rewrite constructor_kwargs_lookup, forced_kwargs_lookup by discriminate.
      unfold K. rewrite !lookup_delete_ne by discriminate. exact Hflag. }
    split; [exact Hpre|].
    unfold resnext101_64x4d, keyword_call.
    pose proof (factory_body_eq Resnext101_64x4d) as Hb. simpl factory_body in Hb.
    rewrite Hb.
    replace (kwargs_get call "weights" VNone) with VNone
      by (unfold kwargs_get; rewrite Hweights; reflexivity).
    simpl verify.
    rewrite run_bind_lift_ok, resnet_split. fold K.
    match goal with
    | |- resnet_run ?b ?l ?w ?p ?q ?bk ?kw = _ =>
        pose proof (resnet_run_cases b l w p q bk kw) as Hc
    end.
    cbv zeta in Hc. rewrite Hctor in Hc by (eexists; exact Hpre). exact Hc.
  - intros a block layers kwargs Ha Hin.
    destruct (factory_reaches_body a call) as [[e He]|(w & p & q & k & Hb & Hk)].
    + rewrite He in Hin. destruct Hin.
    + rewrite Hb in Hin. apply factory_body_construct in Hin as [w' ->].
      rewrite constructor_kwargs_lookup, forced_kwargs_lookup, Hk by discriminate.
      rewrite decide_False by exact Ha. apply lookup_delete_eq.
Qed.
End FactoryClaims.

(** ** The sample environment *)

Lemma sample_ResNet_init_rejects_pretrained block layers (kwargs : gmap string value) :
  is_Some (kwargs !! "pretrained") ->
  sample_ResNet_init block layers kwargs = Raise UnexpectedKeyword.
Proof.
  intros [v Hv]. unfold sample_ResNet_init.
  destruct (forallb _ (map_to_list kwargs)) eqn:E; [|reflexivity].
  rewrite forallb_forall in E.
  assert (Hin : In ("pretrained", v) (map_to_list kwargs))
    by (apply list_elem_of_In, elem_of_map_to_list; exact Hv).
  apply E in Hin. discriminate Hin.
Qed.

Lemma resnext101_64x4d_has_no_legacy_shim_witness :
  let imports := sample_imports true in
  let call : gmap string value := {[ "pretrained" := VBool true ]} in
  call !! "pretrained" = Some (VBool true)
  /\ call !! "weights" = None
  /\ (forall block layers kwargs,
         is_Some (kwargs !! "pretrained") ->
         ResNet_init block layers kwargs = Raise UnexpectedKeyword)
  /\ snd (resnext101_64x4d call) = Raise UnexpectedKeyword
  /\ List.length (fst (resnext101_64x4d call)) = 1.
Proof.
  cbv zeta.
  assert (Hflag : ({[ "pretrained" := VBool true ]} : gmap string value) !! "pretrained"
                  = Some (VBool true)) by reflexivity.
  assert (Hweights : ({[ "pretrained" := VBool true ]} : gmap string value) !! "weights"
                     = None) by reflexivity.
  split; [exact Hflag|]. split; [exact Hweights|].
  split; [exact sample_ResNet_init_rejects_pretrained|].
  destruct (@resnext101_64x4d_has_no_legacy_shim (sample_imports true)
              {[ "pretrained" := VBool true ]} (VBool true)
              Hflag Hweights sample_ResNet_init_rejects_pretrained)
    as [(kwargs & _ & Hrun) _].
  rewrite Hrun. split; reflexivity.
Defined.

(** With the legacy keyword the wrapped resnet18 builds its network and
    loads the entry the flag stands for; the constructor does not see the
    keyword. *)
Example resnet18_pretrained_sample :
  let imports := sample_imports true in
  match resnet18 {[ "pretrained" := VBool true; "quantize" := VBool true ]} with
  | ([EvConstruct TQuantizableBasicBlock _ kwargs; EvReplaceRelu; EvFuseModel _;
      EvQuantize (VStr "fbgemm"); EvGetStateDict w true; EvLoadStateDict _], Ok _) =>
      kwargs !! "pretrained" = None
      /\ w_enum w = "ResNet18_QuantizedWeights" /\ w_name w = "IMAGENET1K_FBGEMM_V1"
  | _ => False
  end.
Proof. vm_compute. repeat split; reflexivity. Qed.

(** C2 on the sample environment: a class count of 10 and the backend
    "qnnpack" passed along with the default quantized weights of resnet50
    are both discarded. *)
Example resnet50_conflicting_keywords_sample :
  let imports := sample_imports true in
  match resnet50 {[ "weights" := VStr "DEFAULT"; "quantize" := VBool true;
                    "num_classes" := VInt 10; "backend" := VStr "qnnpack" ]} with
  | ([EvConstruct TQuantizableBottleneck [3; 4; 6; 3]%Z kwargs; EvReplaceRelu;
      EvFuseModel _; EvQuantize backend; EvGetStateDict w true; EvLoadStateDict _],
     Ok _) =>
      kwargs !! "num_classes" = Some (VInt 3) /\ kwargs !! "backend" = None
      /\ backend = VStr "fbgemm" /\ w_name w = "IMAGENET1K_FBGEMM_V2"
  | _ => False
  end.
Proof. vm_compute. repeat split; reflexivity. Qed.

(** C3 on the sample environment: groups=16 is ignored. *)
Example resnext101_32x8d_groups_16_sample :
  let imports := sample_imports true in
  match resnext101_32x8d {[ "groups" := VInt 16 ]} with
  | ([EvConstruct TQuantizableBottleneck [3; 4; 23; 3]%Z kwargs; EvReplaceRelu], Ok _) =>
      kwargs !! "groups" = Some (VInt 32) /\ kwargs !! "width_per_group" = Some (VInt 8)
  | _ => False
  end.
Proof. vm_compute. repeat split; reflexivity. Qed.

(** C5 on the sample environment: a member of the floating-point registry
    with quantize=true, a member of the quantized registry with
    quantize=false and an unknown key are refused before any event. *)
Example wrong_registry_sample :
  let imports := sample_imports true in
  match enum_member ResNet18_Weights "IMAGENET1K_V1",
        enum_member ResNet18_QuantizedWeights "DEFAULT" with
  | Some float_member, Some quantized_member =>
      resnet18 {[ "weights" := VWeights float_member; "quantize" := VBool true ]}
      = ([], Raise InvalidSelection)
      /\ resnet18 {[ "weights" := VWeights quantized_member ]}
         = ([], Raise InvalidSelection)
      /\ resnet18 {[ "weights" := VStr "IMAGENET1K_V1"; "quantize" := VBool true ]}
         = ([], Raise InvalidSelection)
      /\ resnet18 {[ "weights" := VStr "IMAGENET1K_V9" ]} = ([], Raise InvalidSelection)
  | _, _ => False
  end.
Proof. vm_compute. repeat split; reflexivity. Qed.

(** C8 on the sample environments: every step in order and a network when
    the checkpoint fits, the same steps and a structural mismatch instead of
    a network when it does not. *)
Example resnet50_steps_sample :
  let call : gmap string value := {[ "weights" := VStr "DEFAULT"; "quantize" := VBool true ]} in
  map step_of (fst (@resnet50 (sample_imports true) call))
  = [SConstruct; SReplaceRelu; SFuseModel; SQuantize; SGetStateDict; SLoadStateDict]
  /\ (exists model, snd (@resnet50 (sample_imports true) call) = Ok model)
  /\ map step_of (fst (@resnet50 (sample_imports false) call))
     = [SConstruct; SReplaceRelu; SFuseModel; SQuantize; SGetStateDict; SLoadStateDict]
  /\ snd (@resnet50 (sample_imports false) call) = Raise StructuralMismatch.
Proof.
  cbv zeta. split; [vm_compute; reflexivity|].
  split; [eexists; vm_compute; reflexivity|].
  split; vm_compute; reflexivity.
Qed.


(* ===================================================================== *)
(** * Further properties: the registries                                  *)
(* ===================================================================== *)

Section RegistryProperties.
Context {imports : Imports}.

Lemma canonical_name_in v table cn :
  canonical_name v table = Some cn -> In (cn, v) table.
Proof.
  induction table as [|[n v'] rest IH]; simpl; [discriminate|].
  case_decide as Hv.
  - intros Heq. injection Heq as <-. subst v'. left. reflexivity.
  - intros Hc. right. apply IH, Hc.
Qed.

Lemma table_lookup_in name table v :
  table_lookup name table = Some v -> In (name, v) table.
Proof.
  induction table as [|[n v'] rest IH]; simpl; [discriminate|].
  destruct (String.eqb n name) eqn:E.
  - apply String.eqb_eq in E. subst n. intros Heq. injection Heq as <-.
    left. reflexivity.
  - intros Hl. right. apply IH, Hl.
Qed.

Lemma table_lookup_unique name table v :
  List.NoDup (map fst table) -> In (name, v) table -> table_lookup name table = Some v.
Proof.
  induction table as [|[n v'] rest IH]; simpl; [tauto|].
  intros Hnd Hin. inversion Hnd as [|? ? Hnotin Hrest]; subst.
  destruct Hin as [Heq|Hin].
  - injection Heq as -> ->. rewrite String.eqb_refl. reflexivity.
  - destruct (String.eqb n name) eqn:E; [|apply IH; assumption].
    apply String.eqb_eq in E. subst n. exfalso. apply Hnotin.
    apply (in_map fst) in Hin. exact Hin.
Qed.

Lemma canonical_name_found v table name :
  In (name, v) table -> exists cn, canonical_name v table = Some cn.
Proof.
  induction table as [|[n v'] rest IH]; simpl; [tauto|].
  intros Hin. case_decide as Hv; [eauto|].
  destruct Hin as [Heq|Hin]; [injection Heq as _ ->; contradiction|].
  apply IH, Hin.
Qed.

(** X2.  Looking a member up by any of its names and then by its canonical
    name gives the same member, in a class whose body binds every name
    once; and two names bound to the same value are the same member. *)
Theorem enum_member_round_trip (cls : WeightsEnum) (name : string) (w : WeightsMember)
        (Hnames : List.NoDup (map fst (enum_table cls)))
        (Hmember : enum_member cls name = Some w) :
  enum_member cls (w_name w) = Some w
  /\ table_lookup (w_name w) (enum_table cls) = Some (w_value w)
  /\ w_enum w = enum_name cls
  /\ (forall name' w',
         enum_member cls name' = Some w' -> w_value w' = w_value w -> w' = w).
Proof.
  unfold enum_member in Hmember.
  destruct (table_lookup name (enum_table cls)) as [v|] eqn:Hl; [|discriminate].
  destruct (canonical_name v (enum_table cls)) as [cn|] eqn:Hc; [|discriminate].
  injection Hmember as <-. simpl.
  assert (Hlc : table_lookup cn (enum_table cls) = Some v)
    by (apply table_lookup_unique; [exact Hnames | apply canonical_name_in, Hc]).
  repeat split.
  - unfold enum_member. rewrite Hlc, Hc. reflexivity.
  - exact Hlc.
  - intros name' w'. unfold enum_member.
    destruct (table_lookup name' (enum_table cls)) as [v'|]; [|discriminate].
    destruct (canonical_name v' (enum_table cls)) as [cn'|] eqn:Hc'; [|discriminate].
    intros Heq. injection Heq as <-. simpl. intros ->.
    rewrite Hc in Hc'. injection Hc' as <-. reflexivity.
Qed.

Lemma ResNeXt101_64X4D_QuantizedWeights_members :
  enum_member ResNeXt101_64X4D_QuantizedWeights "IMAGENET1K_FBGEMM_V1"
  = Some {| w_enum := "ResNeXt101_64X4D_QuantizedWeights";
            w_name := "IMAGENET1K_FBGEMM_V1";
            w_value := ResNeXt101_64X4D_IMAGENET1K_FBGEMM_V1 |}
  /\ enum_member ResNeXt101_64X4D_QuantizedWeights "DEFAULT"
     = enum_member ResNeXt101_64X4D_QuantizedWeights "IMAGENET1K_FBGEMM_V1".
Proof.
  unfold enum_member. simpl enum_table. simpl table_lookup. cbv beta iota.
  rewrite canonical_name_head. split; reflexivity.
Qed.

(** The members of a quantized registry are those its body lists. *)
Lemma quantized_member_cases a name w :
  enum_member (quantized_registry a) name = Some w ->
  exists name0,
    In name0 (map fst (enum_table (quantized_registry a)))
    /\ enum_member (quantized_registry a) name0 = Some w.
Proof.
  intros Hm. exists name. split; [|exact Hm].
  unfold enum_member in Hm.
  destruct (table_lookup name (enum_table (quantized_registry a))) as [v|] eqn:Hl;
    [|discriminate].
  apply table_lookup_in in Hl. apply (in_map fst) in Hl. exact Hl.
Qed.

(** X1.  Every member of every quantized registry, under whichever name it
    is looked up, is an fbgemm entry over the ImageNet categories with a
    224 crop, is served from the quantized model directory, and names as
    its unquantized counterpart the entry of the same version in the
    floating-point registry of the same architecture. *)
Theorem quantized_registry_entries (a : Architecture) (name : string) (w : WeightsMember)
        (Hmember : enum_member (quantized_registry a) name = Some w) :
  w_enum w = enum_name (quantized_registry a)
  /\ backend (meta (w_value w)) = Some "fbgemm"
  /\ categories (meta (w_value w)) = _IMAGENET_CATEGORIES
  /\ min_size (meta (w_value w)) = (1, 1)%Z
  /\ crop_size (transforms (w_value w)) = 224%Z
  /\ (exists file,
         url (w_value w)
         = String.append "https://download.pytorch.org/models/quantized/" file)
  /\ (exists version,
         w_name w = String.append "IMAGENET1K_FBGEMM_" version
         /\ unquantized (meta (w_value w))
            = Some (enum_name (float_registry a), String.append "IMAGENET1K_" version)).
Proof.
  destruct (quantized_member_cases a name w Hmember) as (name0 & Hin & Hm0).
  clear Hmember name.
  destruct ResNet18_QuantizedWeights_members as [H18 H18d].
  destruct ResNet50_QuantizedWeights_members as (H50 & H50v2 & H50d).
  destruct ResNeXt101_32X8D_QuantizedWeights_members as (H32 & H32v2 & H32d).
  destruct ResNeXt101_64X4D_QuantizedWeights_members as [H64 H64d].
  destruct a; simpl in Hin, Hm0;
    repeat (destruct Hin as [<-|Hin]);
    try contradiction;
    rewrite ?H18d, ?H50d, ?H32d, ?H64d, ?H18, ?H50, ?H50v2, ?H32, ?H32v2, ?H64 in Hm0;
    injection Hm0 as <-; simpl;
    (repeat split; try reflexivity;
     [eexists; reflexivity | eexists; split; reflexivity]).
Qed.

(** X3.  The urls kept in [quant_model_urls] are, entry by entry, the urls
    of the weights the legacy flag selects when quantization is requested,
    for the three factories that accept the flag. *)
Theorem quant_model_urls_follow_legacy_flag :
  let selected (select : gmap string value -> result value) : option string :=
    match select {[ "quantize" := VBool true ]} with
    | Ok (VWeights w) => Some (url (w_value w))
    | _ => None
    end in
  map (fun entry => Some (snd entry)) quant_model_urls
  = [selected resnet18_legacy_weights;
     selected resnet50_legacy_weights;
     selected resnext101_32x8d_legacy_weights]
  /\ map fst quant_model_urls
     = ["resnet18_fbgemm"; "resnet50_fbgemm"; "resnext101_32x8d_fbgemm"].
Proof.
  cbv zeta.
  destruct ResNet18_QuantizedWeights_members as [H18 _].
  destruct ResNet50_QuantizedWeights_members as (H50 & _ & _).
  destruct ResNeXt101_32X8D_QuantizedWeights_members as (H32 & _ & _).
  unfold resnet18_legacy_weights, resnet50_legacy_weights,
    resnext101_32x8d_legacy_weights, enum_attr, kwargs_get.
  rewrite lookup_singleton_eq. simpl py_truthy. cbv iota.
  rewrite H18, H50, H32. split; reflexivity.
Qed.
End RegistryProperties.

Lemma enum_member_round_trip_witness :
  let imports := sample_imports true in
  List.NoDup (map fst (enum_table ResNet50_QuantizedWeights))
  /\ (exists w, enum_member ResNet50_QuantizedWeights "DEFAULT" = Some w
                /\ w_name w = "IMAGENET1K_FBGEMM_V2"
                /\ enum_member ResNet50_QuantizedWeights (w_name w) = Some w).
Proof.
  cbv zeta.
  assert (Hnd : List.NoDup (map fst (enum_table (@ResNet50_QuantizedWeights
                                                    (sample_imports true))))).
  { simpl. repeat constructor; simpl; intuition discriminate. }
  split; [exact Hnd|].
  destruct (@ResNet50_QuantizedWeights_members (sample_imports true)) as (_ & Hv2 & Hd).
  rewrite Hv2 in Hd.
  eexists. split; [exact Hd|]. split; [reflexivity|].
  exact (proj1 (enum_member_round_trip
                  (@ResNet50_QuantizedWeights (sample_imports true)) "DEFAULT" _ Hnd Hd)).
Defined.

Lemma quantized_registry_entries_witness :
  let imports := sample_imports true in
  exists w, enum_member (quantized_registry Resnext101_32x8d) "DEFAULT" = Some w
            /\ w_name w = "IMAGENET1K_FBGEMM_V2"
            /\ unquantized (meta (w_value w))
               = Some ("ResNeXt101_32X8D_Weights", "IMAGENET1K_V2")
            /\ backend (meta (w_value w)) = Some "fbgemm".
Proof.
  cbv zeta.
  destruct (@ResNeXt101_32X8D_QuantizedWeights_members (sample_imports true))
    as (_ & Hv2 & Hd).
  rewrite Hv2 in Hd.
  eexists. split; [exact Hd|]. split; [reflexivity|]. split; [reflexivity|].
  exact (proj1 (proj2 (@quantized_registry_entries (sample_imports true)
                         Resnext101_32x8d "DEFAULT" _ Hd))).
Defined.

(* ===================================================================== *)
(** * Further properties: [_resnet] and the network wrapper               *)
(* ===================================================================== *)

Section ResnetProperties.
Context {imports : Imports}.

Ltac resnet_cases block layers weights progress quantize bk kwargs :=
  let Hc := fresh "Hcases" in
  pose proof (resnet_run_cases block layers weights progress quantize bk kwargs) as Hc;
  cbv zeta in Hc;
  try destruct quantize;
  repeat (cbv beta iota in Hc;
          match type of Hc with
          | match ?x with _ => _ end => destruct x eqn:?
          end);
  rewrite Hc; clear Hc; simpl.

Lemma get_register_submodule c children name x name' :
  get_submodule (register_submodule (Container c children) name x) name'
  = if String.eqb name name' then Some x else lookup_child name' children.
Proof.
  simpl. destruct (lookup_child name children) as [y|] eqn:Hl; simpl.
  - rewrite lookup_replace_child, Hl. reflexivity.
  - destruct (String.eqb name name') eqn:E.
    + apply String.eqb_eq in E. subst name'.
      induction children as [|[a z] rest IH]; simpl in *.
      * rewrite String.eqb_refl. reflexivity.
      * destruct (String.eqb a name); [discriminate | apply IH, Hl].
    + induction children as [|[a z] rest IH]; simpl in *.
      * rewrite E. reflexivity.
      * destruct (String.eqb a name) eqn:Ea; [discriminate|].
        destruct (String.eqb a name'); [reflexivity | apply IH, Hl].
Qed.

Lemma register_submodule_container c children name x :
  exists children',
    register_submodule (Container c children) name x = Container c children'
    /\ (lookup_child name children = None -> children' = children ++ [(name, x)]).
Proof.
  simpl. destruct (lookup_child name children); eexists; split;
    try reflexivity; discriminate.
Qed.

(** X6.  The constructor of the network wrapper builds the base network
    with the keywords it is given and registers the two quantization
    markers on it: "quant" and "dequant" are found afterwards, every other
    sub-module is the one the base constructor made, the class of the
    network is unchanged, and on a base network that has neither name the
    markers are registered last, in this order. *)
Theorem quantizable_resnet_init_adds_stubs (block : ContainerClass) (layers : list Z)
        (kwargs : gmap string value) (c : ContainerClass)
        (children : list (string * Module))
        (Hbase : ResNet_init block layers kwargs = Ok (Container c children)) :
  exists children',
    QuantizableResNet_init block layers kwargs
    = ([EvConstruct block layers kwargs], Ok (Container c children'))
    /\ lookup_child "quant" children' = Some (Leaf QuantStub)
    /\ lookup_child "dequant" children' = Some (Leaf DeQuantStub)
    /\ (forall name, name <> "quant" -> name <> "dequant" ->
                     lookup_child name children' = lookup_child name children)
    /\ (lookup_child "quant" children = None ->
        lookup_child "dequant" children = None ->
        children' = children ++ [("quant", Leaf QuantStub); ("dequant", Leaf DeQuantStub)]).
Proof.
  unfold QuantizableResNet_init, run_bind, emit, lift, run_ret. rewrite Hbase. simpl app.
  destruct (register_submodule_container c children "quant" (Leaf QuantStub))
    as (ch1 & H1 & Happ1).
  pose proof (get_register_submodule c children "quant" (Leaf QuantStub)) as Hg1.
  rewrite H1 in Hg1. simpl get_submodule in Hg1.
  destruct (register_submodule_container c ch1 "dequant" (Leaf DeQuantStub))
    as (ch2 & H2 & Happ2).
  pose proof (get_register_submodule c ch1 "dequant" (Leaf DeQuantStub)) as Hg2.
  rewrite H2 in Hg2. simpl get_submodule in Hg2.
  exists ch2. rewrite H1, H2. split; [reflexivity|]. repeat split.
  - rewrite Hg2, Hg1. reflexivity.
  - rewrite Hg2. reflexivity.
  - intros name Hq Hd. rewrite Hg2, Hg1.
    destruct (String.eqb "dequant" name) eqn:Ed;
      [apply String.eqb_eq in Ed; congruence|].
    destruct (String.eqb "quant" name) eqn:Eq;
      [apply String.eqb_eq in Eq; congruence|]. reflexivity.
  - intros Hq Hd. rewrite Happ2, Happ1; [rewrite <- app_assoc; reflexivity | exact Hq |].
    rewrite Hg1. simpl. exact Hd.
Qed.

Lemma resnet_run_without_quantize block layers weights progress bk bk' kwargs :
  resnet_run block layers weights progress false bk kwargs
  = resnet_run block layers weights progress false bk' kwargs.
Proof. reflexivity. Qed.

(** X4.  Without quantization the backend keyword has no effect: for a
    call with no weights, or with weights whose metadata have no backend,
    passing a backend gives the same run as not passing one. *)
Theorem backend_unused_without_quantize (block : ContainerClass) (layers : list Z)
        (weights : option WeightsMember) (progress : bool)
        (kwargs : gmap string value) (user_backend : value)
        (Hmeta : match weights with
                 | Some w => backend (meta (w_value w)) = None
                 | None => True
                 end) :
  _resnet block layers weights progress false (<["backend" := user_backend]> kwargs)
  = _resnet block layers weights progress false (delete "backend" kwargs).
Proof.
  rewrite !resnet_split.
  rewrite (resnet_run_without_quantize _ _ _ _ _
             (resolved_backend weights (delete "backend" kwargs))).
  f_equal. unfold constructor_kwargs.
  destruct weights as [w|]; [rewrite Hmeta; cbv zeta|];
    apply map_eq; intros k;
    repeat first [rewrite lookup_insert | rewrite lookup_delete];
    repeat case_decide; subst; try congruence; reflexivity.
Qed.

(** X5.  [_resnet] raises nothing of its own and hides no failure.  A
    call fails with an error exactly when that error is the one of the
    first step that fails: the base constructor, or after it the
    quantization pipeline on the fused network, or after these the
    download, or after these the loading into the network.  The step that
    fails is the last one that runs: a failed constructor is the only
    event, a failed pipeline is followed by no download, a failed download
    by no loading. *)
Theorem resnet_failures_pass_through (block : ContainerClass) (layers : list Z)
        (weights : option WeightsMember) (progress quantize : bool)
        (kwargs : gmap string value) (e : exn) :
  let run := _resnet block layers weights progress quantize kwargs in
  let k := constructor_kwargs weights kwargs in
  let bk := resolved_backend weights kwargs in
  let fresh (m0 : Module) : Module :=
    _replace_relu
      (register_submodule (register_submodule m0 "quant" (Leaf QuantStub))
                          "dequant" (Leaf DeQuantStub)) in
  let quantized (m0 : Module) : result Module :=
    if quantize
    then torch_quantize (fst (QuantizableResNet_fuse_model (fresh m0) None)) bk
    else Ok (fresh m0) in
  let constructor_fails : Prop := ResNet_init block layers k = Raise e in
  let pipeline_fails : Prop :=
    exists m0, ResNet_init block layers k = Ok m0 /\ quantized m0 = Raise e in
  let download_fails : Prop :=
    exists m0 m w,
      ResNet_init block layers k = Ok m0 /\ quantized m0 = Ok m
      /\ weights = Some w /\ get_state_dict w progress = Raise e in
  let loading_fails : Prop :=
    exists m0 m w sd,
      ResNet_init block layers k = Ok m0 /\ quantized m0 = Ok m
      /\ weights = Some w /\ get_state_dict w progress = Ok sd
      /\ load_state_dict m sd = Raise e in
  (snd run = Raise e
   <-> constructor_fails \/ pipeline_fails \/ download_fails \/ loading_fails)
  /\ (constructor_fails -> run = ([EvConstruct block layers k], Raise e))
  /\ (pipeline_fails ->
      quantize = true
      /\ map step_of (fst run) = [SConstruct; SReplaceRelu; SFuseModel; SQuantize])
  /\ (download_fails ->
      map step_of (fst run)
      = [SConstruct; SReplaceRelu]
        ++ (if quantize then [SFuseModel; SQuantize] else []) ++ [SGetStateDict])
  /\ (loading_fails -> map step_of (fst run) = steps_of_call weights quantize).
Proof.
  cbv zeta. rewrite resnet_split.
  set (bk := resolved_backend weights kwargs).
  set (k := constructor_kwargs weights kwargs).
  unfold steps_of_call.
  pose proof (resnet_run_cases block layers weights progress quantize bk k) as Hc.
  cbv zeta in Hc.
  destruct (ResNet_init block layers k) as [m0|e0] eqn:Hinit;
    [destruct quantize; cbv beta iota in Hc;
     [destruct (torch_quantize _ bk) as [m2|e2] eqn:Hq|];
     try (destruct weights as [w|];
          [destruct (get_state_dict w progress) as [sd|e3] eqn:Hg|])|];
    rewrite Hc; clear Hc; simpl;
    (split; [split|repeat split]); intros;
    repeat match goal with
           | H : _ \/ _ |- _ => destruct H
           | H : exists _, _ |- _ => destruct H
           | H : _ /\ _ |- _ => destruct H
           end;
    simplify_eq; try reflexivity; try congruence;
    first [ left; congruence
          | right; left; eexists; split; [reflexivity | congruence]
          | right; right; left; eexists _, _, _;
            repeat split; first [reflexivity | eassumption | congruence]
          | right; right; right; eexists _, _, _, _;
            repeat split; first [reflexivity | eassumption | congruence] ].
Qed.


End ResnetProperties.

(* ===================================================================== *)
(** * Further properties: the factories and their keywords                *)
(* ===================================================================== *)

Section FactoryProperties.
Context {imports : Imports}.

Lemma keyword_call_construct a call b l k :
  In (EvConstruct b l k) (fst (keyword_call (factory_body a) call)) ->
  b = block_of a /\ l = layers_of a
  /\ exists w,
      k = constructor_kwargs w
            (forced_kwargs a
               (delete "weights" (delete "progress" (delete "quantize" call)))).
Proof.
  unfold keyword_call. rewrite factory_body_eq.
  destruct (verify _ _) as [w|e].
  - rewrite run_bind_lift_ok, resnet_split. intros Hin.
    apply resnet_run_construct in Hin as (-> & -> & ->). eauto.
  - rewrite run_bind_lift_raise. intros [].
Qed.

(** A factory either stops in its legacy shim, with no event, or binds the
    keywords of a call that differs from the caller's at most in
    "weights" and "pretrained". *)
Lemma factory_shim_cases a call :
  (exists e, factory a call = ([], Raise e))
  \/ (exists call',
         factory a call = keyword_call (factory_body a) call'
         /\ (forall key, key <> "weights" -> key <> "pretrained" ->
                         call' !! key = call !! key)
         /\ (call !! "pretrained" = None -> call' = call)
         /\ (a = Resnext101_64x4d -> call' = call)).
Proof.
  assert (Hshim : forall select body,
             (exists e, handle_legacy_interface "weights" "pretrained" select
                          (keyword_call body) call = ([], Raise e))
             \/ (exists call',
                    handle_legacy_interface "weights" "pretrained" select
                      (keyword_call body) call = keyword_call body call'
                    /\ (forall key, key <> "weights" -> key <> "pretrained" ->
                                    call' !! key = call !! key)
                    /\ (call !! "pretrained" = None -> call' = call))).
  { intros select body. unfold handle_legacy_interface.
    destruct (call !! "pretrained") as [flag|] eqn:Hflag.
    - destruct (py_truthy flag); [destruct (select call) as [w|e]|].
      + right. eexists. split; [reflexivity|]. split; [|discriminate].
        intros key Hw Hp.
        rewrite lookup_insert_ne, lookup_delete_ne by congruence. reflexivity.
      + left. eexists. reflexivity.
      + right. eexists. split; [reflexivity|]. split; [|discriminate].
        intros key Hw Hp.
        rewrite lookup_insert_ne, lookup_delete_ne by congruence. reflexivity.
    - right. exists call. repeat split; reflexivity. }
  destruct a; simpl factory; simpl factory_body;
    unfold resnet18, resnet50, resnext101_32x8d;
    try (match goal with
         | |- context [handle_legacy_interface _ _ ?select (keyword_call ?body) call] =>
             destruct (Hshim select body) as [Hl|(call' & H1 & H2 & H3)]
         end;
         [left; exact Hl
         | right; exists call'; split; [exact H1|]; split; [exact H2|];
           split; [exact H3 | discriminate]]).
  right. exists call. repeat split; reflexivity.
Qed.

(** X8.  No keyword of the caller changes the architecture a factory
    builds: whenever a factory calls the constructor, it is with the block
    kind and the stage counts of its architecture, and its own parameters
    and the backend are not among the constructor's keywords. *)
Theorem factory_architecture_fixed (a : Architecture) (call : gmap string value)
        (b : ContainerClass) (l : list Z) (k : gmap string value)
        (Hin : In (EvConstruct b l k) (fst (factory a call))) :
  b = block_of a /\ l = layers_of a
  /\ k !! "weights" = None /\ k !! "progress" = None /\ k !! "quantize" = None
  /\ k !! "backend" = None.
Proof.
  destruct (factory_shim_cases a call) as [[e He]|(call' & Hc & _)].
  - rewrite He in Hin. destruct Hin.
  - rewrite Hc in Hin. apply keyword_call_construct in Hin as (-> & -> & w & ->).
    split; [reflexivity|]. split; [reflexivity|].
    rewrite !constructor_kwargs_lookup, !forced_kwargs_lookup by discriminate.
    repeat split.
    + apply lookup_delete_eq.
    + rewrite lookup_delete_ne by discriminate. apply lookup_delete_eq.
    + rewrite !lookup_delete_ne by discriminate. apply lookup_delete_eq.
    + unfold constructor_kwargs. apply lookup_delete_eq.
Qed.

(** X9.  Every other keyword reaches the constructor as the caller passed
    it, and a keyword the caller did not pass is not invented: outside the
    keywords a factory binds, resolves or forces, the constructor's
    keywords are the call's. *)
Theorem factory_keywords_pass_through (a : Architecture) (call : gmap string value)
        (b : ContainerClass) (l : list Z) (k : gmap string value) (key : string)
        (Hin : In (EvConstruct b l k) (fst (factory a call)))
        (Hkey : ~ In key (reserved_keywords a)) :
  k !! key = call !! key.
Proof.
  assert (Hcommon : key <> "weights" /\ key <> "progress" /\ key <> "quantize"
                    /\ key <> "backend" /\ key <> "num_classes").
  { repeat split; intros ->; apply Hkey; unfold reserved_keywords;
      apply in_or_app; left; simpl; tauto. }
  destruct Hcommon as (Hw & Hp & Hq & Hb & Hn).
  destruct (factory_shim_cases a call)
    as [[e He]|(call' & Hc & Hsame & Hid & Hplain)].
  - rewrite He in Hin. destruct Hin.
  - rewrite Hc in Hin. apply keyword_call_construct in Hin as (_ & _ & w & ->).
    rewrite constructor_kwargs_lookup by assumption.
    assert (Hforced : forced_kwargs a
                        (delete "weights" (delete "progress" (delete "quantize" call')))
                      !! key
                      = call' !! key).
    { destruct a; simpl forced_kwargs;
        try (rewrite !lookup_insert_ne
              by (intros <-; apply Hkey; unfold reserved_keywords; simpl; tauto));
        rewrite !lookup_delete_ne by congruence; reflexivity. }
    rewrite Hforced.
    destruct (decide (a = Resnext101_64x4d)) as [Ha|Ha].
    + rewrite (Hplain Ha). reflexivity.
    + apply Hsame; [assumption|].
      intros ->. apply Hkey. destruct a; try contradiction;
        unfold reserved_keywords; simpl; tauto.
Qed.

Lemma resnet_run_without_weights block layers progress progress' quantize bk kwargs :
  resnet_run block layers None progress quantize bk kwargs
  = resnet_run block layers None progress' quantize bk kwargs.
Proof. reflexivity. Qed.

Lemma plain_call_unfold a call :
  call !! "weights" = None -> call !! "pretrained" = None ->
  factory a call
  = resnet_run (block_of a) (layers_of a) None
      (py_truthy (kwargs_get call "progress" (VBool true)))
      (py_truthy (kwargs_get call "quantize" (VBool false)))
      (resolved_backend None
         (forced_kwargs a (delete "weights" (delete "progress" (delete "quantize" call)))))
      (constructor_kwargs None
         (forced_kwargs a (delete "weights" (delete "progress" (delete "quantize" call))))).
Proof.
  intros Hw Hp.
  assert (Hf : factory a call = keyword_call (factory_body a) call).
  { destruct a; simpl factory; simpl factory_body;
      unfold resnet18, resnet50, resnext101_32x8d, resnext101_64x4d,
        handle_legacy_interface;
      rewrite ?Hp; reflexivity. }
  rewrite Hf. unfold keyword_call. rewrite factory_body_eq.
  replace (kwargs_get call "weights" VNone) with VNone
    by (unfold kwargs_get; rewrite Hw; reflexivity).
  simpl verify. rewrite run_bind_lift_ok. apply resnet_split.
Qed.

(** X10.  A call that selects no weights (neither "weights" nor the
    legacy keyword) and does not ask for quantization only builds the
    network: it calls the constructor with the keywords of the call (the
    forced ones included, the backend removed) and, when the constructor
    succeeds, replaces the activations and returns that network; it never
    reaches the quantization pipeline, the download or the loading; it
    fails exactly when this constructor call fails, with its error; and its
    progress keyword has no effect. *)
Theorem plain_call_only_builds (a : Architecture) (call : gmap string value)
        (Hweights : call !! "weights" = None)
        (Hpretrained : call !! "pretrained" = None)
        (Hquantize : py_truthy (kwargs_get call "quantize" (VBool false)) = false) :
  let k := delete "backend"
             (forced_kwargs a
                (delete "weights" (delete "progress" (delete "quantize" call)))) in
  factory a call
  = match ResNet_init (block_of a) (layers_of a) k with
    | Raise e => ([EvConstruct (block_of a) (layers_of a) k], Raise e)
    | Ok m0 =>
        ([EvConstruct (block_of a) (layers_of a) k; EvReplaceRelu],
         Ok (_replace_relu
               (register_submodule (register_submodule m0 "quant" (Leaf QuantStub))
                                   "dequant" (Leaf DeQuantStub))))
    end
  /\ Forall (fun ev => is_network_step (step_of ev) = true) (fst (factory a call))
  /\ (forall e, snd (factory a call) = Raise e
                <-> ResNet_init (block_of a) (layers_of a) k = Raise e)
  /\ (forall v, factory a (<["progress" := v]> call) = factory a call).
Proof.
  cbv zeta.
  rewrite (plain_call_unfold a call Hweights Hpretrained), Hquantize.
  match goal with
  | |- context [resnet_run ?b ?l None ?p false ?bk ?k] =>
      pose proof (resnet_run_cases b l None p false bk k) as Hc
  end.
  cbv zeta in Hc. unfold constructor_kwargs in *.
  split; [|split; [|split]].
  - destruct (ResNet_init _ _ _); cbv beta iota in Hc; exact Hc.
  - destruct (ResNet_init _ _ _); cbv beta iota in Hc; rewrite Hc;
      repeat constructor.
  - intros e.
    destruct (ResNet_init _ _ _) eqn:Hinit; cbv beta iota in Hc; rewrite Hc; simpl;
      split; congruence.
  - intros v. clear Hc.
    rewrite (plain_call_unfold a (<["progress" := v]> call))
      by (rewrite lookup_insert_ne by discriminate; assumption).
    assert (Hq' : kwargs_get (<["progress" := v]> call) "quantize" (VBool false)
                  = kwargs_get call "quantize" (VBool false))
      by (unfold kwargs_get; rewrite lookup_insert_ne by discriminate; reflexivity).
    assert (Hk : delete "weights"
                   (delete "progress" (delete "quantize" (<["progress" := v]> call)))
                 = delete "weights" (delete "progress" (delete "quantize" call))).
    { apply map_eq. intros key.
      repeat first [rewrite lookup_insert | rewrite lookup_delete].
      repeat case_decide; subst; try congruence; reflexivity. }
    rewrite Hq', Hk, Hquantize. apply resnet_run_without_weights.
Qed.

End FactoryProperties.

(* ===================================================================== *)
(** * Further properties: what [fuse_model] submits                       *)
(* ===================================================================== *)

Lemma named_modules_child m :
  forall q p c children n d,
    In (p, Container c children) (named_modules q m) ->
    lookup_child n children = Some d ->
    In (p ++ [n], d) (named_modules q m).
Proof.
  induction m as [k|c0 children0 IH] using Module_tree_ind;
    intros q p c children n d Hin Hl.
  - simpl in Hin. destruct Hin as [Heq|[]]. discriminate Heq.
  - rewrite named_modules_container in *. destruct Hin as [Heq|Hin].
    + injection Heq as <- <- <-. right.
      apply in_flat_map.
      assert (Hex : exists n', In (n', d) children0 /\ n' = n).
      { clear IH. induction children0 as [|[a z] rest IHr]; simpl in Hl; [discriminate|].
        destruct (String.eqb a n) eqn:E.
        - apply String.eqb_eq in E. injection Hl as ->. exists a. split; [left|]; auto.
        - destruct (IHr Hl) as (n' & Hn' & ->). exists n. split; [right|]; auto. }
      destruct Hex as (n' & Hn' & ->). exists (n, d). split; [exact Hn'|].
      simpl. destruct d; simpl; left; reflexivity.
    + right. apply in_flat_map in Hin as (nx & Hnx & Hin).
      apply in_flat_map. exists nx. split; [exact Hnx|].
      rewrite List.Forall_forall in IH.
      exact (IH nx Hnx _ _ _ _ _ _ Hin Hl).
Qed.

Lemma named_modules_head q m : In (q, m) (named_modules q m).
Proof. destruct m; simpl; left; reflexivity. Qed.

(** X7.  Everything [fuse_model] does on a network is about a module of
    that network and carries the caller's flag: the target of every event
    of its log is the path of a module the network has before the call, every
    event has the flag the caller passed, and every submission is in
    place. *)
Theorem fuse_model_targets_exist (self : Module) (is_qat : option bool) :
  Forall (fun e => fuse_event_carries is_qat e
                   /\ exists m, In (fuse_event_target e, m) (named_modules [] self))
         (snd (QuantizableResNet_fuse_model self is_qat)).
Proof.
  rewrite fuse_model_snd. constructor.
  - simpl. split; [split; reflexivity|]. exists self. apply named_modules_head.
  - apply List.Forall_forall. intros e He.
    apply in_flat_map in He as ([p m] & Hpm & He).
    assert (Hdown : forall c children,
               m = Container c children ->
               In e (downsample_events p m is_qat) ->
               fuse_event_carries is_qat e
               /\ exists m', In (fuse_event_target e, m') (named_modules [] self)).
    { intros c children -> Hd. unfold downsample_events, downsample_truthy in Hd.
      simpl get_submodule in Hd.
      destruct (lookup_child "downsample" children) as [d|] eqn:Hl; [|destruct Hd].
      destruct (py_truthy_module d); [|destruct Hd].
      destruct Hd as [<-|[]]. simpl. split; [split; reflexivity|].
      exists d. eapply named_modules_child; eassumption. }
    destruct m as [k|c children]; [destruct He|].
    destruct c; simpl in He; try contradiction;
      (destruct He as [<-|[<-|He]];
       [ simpl; split; [reflexivity|]; eexists; exact Hpm
       | simpl; split; [split; reflexivity|]; eexists; exact Hpm
       | eapply Hdown; [reflexivity | exact He] ]).
Qed.

(* ===================================================================== *)
(** * Further properties on the sample environments                       *)
(* ===================================================================== *)

Lemma backend_unused_without_quantize_witness :
  @_resnet (sample_imports true) TQuantizableBasicBlock [2; 2; 2; 2]%Z None true false
           (<["backend" := VStr "qnnpack"]> ∅)
  = @_resnet (sample_imports true) TQuantizableBasicBlock [2; 2; 2; 2]%Z None true false
             (delete "backend" ∅).
Proof.
  exact (@backend_unused_without_quantize (sample_imports true) TQuantizableBasicBlock
           [2; 2; 2; 2]%Z None true ∅ (VStr "qnnpack") I).
Defined.

Lemma quantizable_resnet_init_adds_stubs_witness :
  @ResNet_init bare_imports TQuantizableBasicBlock [2; 2; 2; 2]%Z ∅ = Ok bare_network
  /\ exists children',
      @QuantizableResNet_init bare_imports TQuantizableBasicBlock [2; 2; 2; 2]%Z ∅
      = ([EvConstruct TQuantizableBasicBlock [2; 2; 2; 2]%Z ∅],
         Ok (Container TQuantizableResNet children'))
      /\ map fst children' = ["conv1"; "bn1"; "relu"; "layer1"; "fc"; "quant"; "dequant"].
Proof.
  split; [reflexivity|].
  destruct (@quantizable_resnet_init_adds_stubs bare_imports TQuantizableBasicBlock
              [2; 2; 2; 2]%Z ∅ TQuantizableResNet _ eq_refl)
    as (children' & Hrun & _ & _ & _ & Hlast).
  exists children'. split; [exact Hrun|].
  rewrite (Hlast eq_refl eq_refl). reflexivity.
Defined.

Lemma resnet_failures_pass_through_witness :
  let imports := sample_imports false in
  let run := _resnet TQuantizableBottleneck [3; 4; 6; 3]%Z
                     (Some (sample_resnet50_default false)) true true ∅ in
  snd run = Raise StructuralMismatch
  /\ map step_of (fst run)
     = [SConstruct; SReplaceRelu; SFuseModel; SQuantize; SGetStateDict; SLoadStateDict].
Proof.
  cbv zeta.
  destruct (@resnet_failures_pass_through (sample_imports false) TQuantizableBottleneck
              [3; 4; 6; 3]%Z (Some (sample_resnet50_default false)) true true ∅
              StructuralMismatch) as (Hiff & _ & _ & _ & Hloading).
  assert (Hfails : exists m0 m w sd,
             @ResNet_init (sample_imports false) TQuantizableBottleneck [3; 4; 6; 3]%Z
               (constructor_kwargs (Some (sample_resnet50_default false)) ∅) = Ok m0
             /\ @torch_quantize (sample_imports false)
                  (fst (QuantizableResNet_fuse_model
                          (_replace_relu
                             (register_submodule
                                (register_submodule m0 "quant" (Leaf QuantStub))
                                "dequant" (Leaf DeQuantStub))) None))
                  (resolved_backend (Some (sample_resnet50_default false)) ∅) = Ok m
             /\ Some (sample_resnet50_default false) = Some w
             /\ @get_state_dict (sample_imports false) w true = Ok sd
             /\ @load_state_dict (sample_imports false) m sd = Raise StructuralMismatch).
  { eexists _, _, _, _. repeat split; reflexivity. }
  split.
  - apply Hiff. right. right. right. exact Hfails.
  - exact (Hloading Hfails).
Defined.

Lemma factory_architecture_fixed_witness :
  let imports := sample_imports true in
  let call : gmap string value :=
    {[ "zero_init_residual" := VBool true; "backend" := VStr "qnnpack" ]} in
  let k : gmap string value := {[ "zero_init_residual" := VBool true ]} in
  In (EvConstruct TQuantizableBasicBlock [2; 2; 2; 2]%Z k) (fst (resnet18 call))
  /\ k !! "backend" = None.
Proof.
  cbv zeta.
  assert (Hin : In (EvConstruct TQuantizableBasicBlock [2; 2; 2; 2]%Z
                                {[ "zero_init_residual" := VBool true ]})
                   (fst (@factory (sample_imports true) Resnet18
                           {[ "zero_init_residual" := VBool true;
                              "backend" := VStr "qnnpack" ]})))
    by (vm_compute; left; reflexivity).
  split; [exact Hin|].
  exact (proj2 (proj2 (proj2 (proj2 (proj2
           (@factory_architecture_fixed (sample_imports true) Resnet18 _ _ _ _ Hin)))))).
Defined.

Lemma factory_keywords_pass_through_witness :
  let imports := sample_imports true in
  let call : gmap string value :=
    {[ "zero_init_residual" := VBool true; "groups" := VInt 1 ]} in
  let k : gmap string value :=
    {[ "zero_init_residual" := VBool true; "groups" := VInt 1 ]} in
  In (EvConstruct TQuantizableBasicBlock [2; 2; 2; 2]%Z k) (fst (resnet18 call))
  /\ k !! "groups" = call !! "groups".
Proof.
  cbv zeta.
  assert (Hin : In (EvConstruct TQuantizableBasicBlock [2; 2; 2; 2]%Z
                                {[ "zero_init_residual" := VBool true;
                                   "groups" := VInt 1 ]})
                   (fst (@factory (sample_imports true) Resnet18
                           {[ "zero_init_residual" := VBool true;
                              "groups" := VInt 1 ]})))
    by (vm_compute; left; reflexivity).
  split; [exact Hin|].
  apply (@factory_keywords_pass_through (sample_imports true) Resnet18 _ _ _ _ "groups" Hin).
  simpl. intros H. repeat (destruct H as [H|H]; [discriminate H|]). exact H.
Defined.

Lemma plain_call_only_builds_witness :
  let imports := sample_imports true in
  let call : gmap string value := {[ "zero_init_residual" := VBool true ]} in
  call !! "weights" = None /\ call !! "pretrained" = None
  /\ py_truthy (kwargs_get call "quantize" (VBool false)) = false
  /\ map step_of (fst (resnext101_64x4d call)) = [SConstruct; SReplaceRelu]
  /\ Forall (fun ev => is_network_step (step_of ev) = true) (fst (resnext101_64x4d call)).
Proof.
  cbv zeta.
  assert (Hw : ({[ "zero_init_residual" := VBool true ]} : gmap string value) !! "weights"
               = None) by reflexivity.
  assert (Hp : ({[ "zero_init_residual" := VBool true ]} : gmap string value)
                 !! "pretrained" = None) by reflexivity.
  assert (Hq : py_truthy (kwargs_get ({[ "zero_init_residual" := VBool true ]}
                                        : gmap string value) "quantize" (VBool false))
               = false) by reflexivity.
  split; [exact Hw|]. split; [exact Hp|]. split; [exact Hq|].
  split; [vm_compute; reflexivity|].
  exact (proj1 (proj2 (@plain_call_only_builds (sample_imports true) Resnext101_64x4d _
                         Hw Hp Hq))).
Defined.
